(* ===== verification/_CoqProject ===== *)
-Q . S2P
Prelude.v
Capacitor.v
HeaderLayout.v
JsNumber.v
JsString.v
JsFormat.v
JsToString.v
Calculators.v
Wizard.v
FreeTrial.v
Checkout.v
Selection.v
ClassSchedule.v
Trainers.v
Transformations.v
Header.v
Footer.v
Hero.v
Page.v
Catalogs.v
