(* ===== verification/Prelude.v ===== *)
(** * PowerGym Pescara: a verification development of the single-page site

    ** The program

    src/ is a React single-page site for a gym ([src/src/pages/Index.tsx]):
    a header, a hero, a weekly class schedule, the memberships with a
    four-step checkout, the trainers, the transformation stories, two
    calculators (BMI and goal planner), a footer, and a free-trial signup
    modal.  Every section keeps its own [useState] state and reacts to UI
    events; the page itself owns one flag, [isTrialModalOpen], set by the
    header's and the hero's "Prova Gratis" buttons through the
    [onOpenFreeTrial] callback.  The header asks the [useHeaderLayout] hook
    for one of four layouts, recomputed on every window resize.

    ** How the code is modelled

    Each component is an explicit state record and one Rocq function per
    handler, composed as the source composes them.  An event runs to
    completion before the next one ([run], [reach] below: the browser's
    single-threaded event loop).  A click runs the handlers of the clicked
    element and its ancestors, innermost first, until one calls
    [stopPropagation] (Selection.v, [dispatch]).  A button that the markup
    disables, or an element that is not rendered, leaves the state
    unchanged; a click aimed at the page under an open modal dialog reaches
    the dialog's overlay, which closes it.  [alert] calls and
    [scrollIntoView] requests are recorded in lists.  Numbers are IEEE
    binary64 values (the kernel's primitive [float]) wherever the code does
    arithmetic on them; strings are Rocq strings of bytes.

    ** Files (in dependency order)

    - Prelude.v (this file): the scope [pg_scope], JavaScript truthiness of
      strings, event-driven components ([run], the reachability relation
      [reach] with the notation [s ⟶[step]* t], [preserved] and the rule
      induction lemma [reach_preserves]), the hint databases [pg], [pg_rw].
    - Capacitor.v: [capacitor.config.ts] as a record, with Capacitor's rule
      for where the native web view takes the page from.
    - HeaderLayout.v, [Module HeaderLayoutHook]: [use-header-layout.tsx].
      The world is the window's width, its resize listeners and the layout
      state of every mounted hook instance (a gmap); mount (first render,
      then the effect), resize dispatch and unmount cleanup are [step].
    - JsNumber.v: [ToBoolean] of a number, [parseFloat] (the longest
      [StrDecimalLiteral] prefix, rounded exactly to binary64), [Math.floor],
      and the transitivity of the binary64 order.
    - JsString.v: [String.prototype.split] with a string separator, a loop
      written with Equations by well-founded recursion on the rest's length.
    - JsFormat.v: [Number.prototype.toFixed(1)] (the BMI display) and the
      printing of integers (the prices).
    - JsToString.v: [Number::toString] (the trainers' ratings, the stories'
      figures): the shortest digit string that reads back, searched with
      exact integer arithmetic up to 17 digits.
    - Calculators.v, [Module Tools]: [Tools.tsx]; [calculateBMI],
      [generateGoalPlan] with the JavaScript object lookup (own properties,
      then [Object.prototype]'s members), every input, select and button,
      and the two result panels.
    - Wizard.v: the spec's wizard controller as an abstract machine
      ([wiz_step], invariant [wiz_inv]) and the type class
      [WizardRefinement] a concrete wizard implements (a simulation law).
    - FreeTrial.v: [FreeTrialModal.tsx] with the page's [isTrialModalOpen];
      an instance of [WizardRefinement] with two steps; the success page,
      parametric in the date formatter ([date-fns], outside the program).
    - Checkout.v: [Memberships.tsx], the catalog's cards, the four-step
      checkout and its summary.
    - Selection.v: click dispatch with bubbling, and the spec's
      selection/detail contract as the type class [DetailView].
    - ClassSchedule.v, Trainers.v, Transformations.v: the three list
      sections, each an instance of [DetailView], with their detail views.
    - Header.v: [Header.tsx]; its handlers return effects on the page.
    - Footer.v, Hero.v: [Footer.tsx] and [Hero.tsx] as rendered, and their
      clicks as effects on the page.
    - Page.v: [Index.tsx]; the page state is the product of the sections'
      states with the scrolls and the session history, and [page_step]
      dispatches each event to its section.
    - Catalogs.v: the catalogs of the sections compared with each other.

    ** What the theorems show

    - Invariants of every reachable state, by rule induction on [reach]:
      the hook's listeners are exactly the mounted instances, each with the
      current layout; the trial modal is fresh whenever it is closed (via
      the refinement of the abstract wizard), and past its form the form is
      valid, so the success page always shows a start date; the checkout's
      step stays in [1..4] with its data filled; the calculators' results
      are consistent; the schedule's dialog shows a card of the selected
      day; the session history holds at most the footer's ["#"] entry.
    - Functional behaviour on every branch, errors included: the layout
      thresholds, [calculateBMI]'s guard and classification (NaN included),
      the goal plan and its fallback, the wizards' guards, completion and
      dismissal, the booking handlers, the click bubbling of the cards and
      the overlay, the header's navigation.
    - Liveness: from every state of the checkout and of the trial modal, a
      finite sequence of events completes a purchase, or obtains the
      voucher.
    - Refinement: every run of the trial modal is a run of the abstract
      two-step wizard; the three list sections implement [DetailView], so
      their dialogs never switch item without closing.
    - Round trips and equivalence: [toFixed(1)]'s integer division is the
      nearest integer of the specification, and [parseFloat] reads back the
      decimal it prints; [split] cuts exactly at the occurrences of its
      separator, and [join] gives back the string.
    - Bounds: [getAvailabilityColor] in binary64 agrees with the exact
      thresholds for every capacity up to 100 (checked exhaustively by
      [vm_compute]: 5050 pairs, small enough for the check's time).
    - Findings, some backed by [Example]s on the catalogs' fixed data: a
      BMI of 64 kg at 160 cm computes to 24.999999999999996 and shows as
      "25.0" beside "Normopeso"; dismissing the checkout keeps the draft;
      today is not selectable in the trial calendar; the "Prenota" button
      of a class card only opens its detail; the hero's figures disagree
      with the catalogs; see PROJECT.json.

    ** Bounds and approximations

    [parseFloat] clamps exponents beyond the binary64 range before rounding
    (a value of at least [10^309] is infinite, one below [10^-324] is zero),
    so its computation stays small; white space is the ASCII set.
    [toFixed(1)] is modelled below [10^21] ([None] beyond, where it defers
    to [Number::toString]); [Number::toString] searches at most 17
    significant digits, which suffice for every double ([None] otherwise).
    [split] with the empty separator returns the string whole (JavaScript
    splits it into code units; the code only splits on [" - "]).
    [toLowerCase] lowers ASCII letters only (the goals are ASCII).  Integer
    literals of the catalogs are exact in binary64.

    ** Not modelled

    The styling; [LoginModal] and the shadcn/ui components, which are not
    part of src/ (a Radix dialog is taken to be modal: its overlay receives
    the clicks outside its content); [date-fns]'s formatting (a parameter of
    the success page); the blocking of clicks on one section by another
    section's modal dialog. *)

From stdpp Require Export base decidable strings list options.
From Stdlib Require Export ZArith Lia.

Declare Scope pg_scope.
Delimit Scope pg_scope with pg.
Open Scope pg_scope.

Create HintDb pg discriminated.
Create Rewrite HintDb pg_rw.

(** ** JavaScript truthiness of a string: [!s] is [true] exactly on [""]. *)

Definition js_truthy_str (s : string) : bool :=
  match s with
  | EmptyString => false
  | String _ _ => true
  end.

Lemma js_truthy_str_false s : js_truthy_str s = false <-> s = "".
Proof. destruct s; simpl; split; congruence. Qed.

Lemma js_truthy_str_true s : js_truthy_str s = true <-> s <> "".
Proof. destruct s; simpl; split; congruence. Qed.

#[export] Hint Rewrite js_truthy_str_false js_truthy_str_true : pg_rw.

(** ** String concatenation

    stdpp makes [String.append] opaque to [simpl]; its two equations. *)

Lemma str_app_nil s : ("" ++ s)%string = s.
Proof. reflexivity. Qed.

Lemma str_app_cons c s1 s2 : (String c s1 ++ s2)%string = String c (s1 ++ s2)%string.
Proof. reflexivity. Qed.

#[export] Hint Rewrite str_app_nil str_app_cons : pg_rw.

(** ** Event-driven components *)

Section Component.
Context {S E : Type}.
Variable step : E -> S -> S.

(** Handling the events of [evs] in order, each one running to completion
    before the next (the browser's event loop). *)
Fixpoint run (evs : list E) (s : S) : S :=
  match evs with
  | [] => s
  | e :: evs' => run evs' (step e s)
  end.

(** The states a component reaches from [s0] by a sequence of events. *)
Inductive reach (s0 : S) : S -> Prop :=
| reach_init : reach s0 s0
| reach_step e s : reach s0 s -> reach s0 (step e s).

Definition preserved (I : S -> Prop) : Prop :=
  forall e s, I s -> I (step e s).

Lemma run_app evs1 evs2 s : run (evs1 ++ evs2) s = run evs2 (run evs1 s).
Proof. revert s; induction evs1; simpl; auto. Qed.

Lemma run_preserves (I : S -> Prop) evs s :
  preserved I -> I s -> I (run evs s).
Proof. intros Hp; revert s; induction evs; simpl; auto. Qed.

Lemma reach_run_iff s0 s : reach s0 s <-> exists evs, run evs s0 = s.
Proof.
  split.
  - induction 1 as [|e s _ [evs <-]]; [now exists []|].
    exists (evs ++ [e]). now rewrite run_app.
  - intros [evs <-]. revert s0 evs.
    enough (forall evs s0 s, reach s0 s -> reach s0 (run evs s)) as H
      by (intros; apply H; constructor).
    induction evs; simpl; intros; auto using reach_step.
Qed.

Lemma reach_preserves (I : S -> Prop) s0 s :
  preserved I -> I s0 -> reach s0 s -> I s.
Proof. intros Hp H0; induction 1; auto. Qed.

Lemma reach_trans s0 s1 s2 : reach s0 s1 -> reach s1 s2 -> reach s0 s2.
Proof. intros H1 H2; induction H2; eauto using reach_step. Qed.
End Component.

Arguments reach_init {S E step s0}.
#[export] Hint Resolve reach_init reach_step : pg.

Notation "s ⟶[ step ]* t" := (reach step s t)
  (at level 70, format "s  ⟶[ step ]*  t") : pg_scope.

(** ** Tactics *)

(** Case analysis on every [if] and [match] of the goal, closing the
    contradictory branches. *)
Ltac pg_simp :=
  repeat (simpl in *; simplify_eq;
          match goal with
          | |- context [match ?x with _ => _ end] => destruct x eqn:?
          | H : context [match ?x with _ => _ end] |- _ => destruct x eqn:?
          end);
  simplify_eq; try done.
