(* ===== verification/Capacitor.v ===== *)
(** * The mobile wrapper's configuration (src/capacitor.config.ts)

    [capacitor.config.ts] configures the native shell that wraps the site:
    the application id and name, the directory of the built site
    ([webDir]), a [server] block and the splash screen.  Its one effect on
    what users see is where the shell's web view takes the page from:
    Capacitor serves the bundled [webDir] unless [server.url] is set, in
    which case the web view loads that URL (the live-reload setting of
    development builds); [cleartext] additionally lets Android load it over
    plain HTTP.  The record keeps the fields of the file; [content_source]
    is that rule. *)

From S2P Require Import Prelude.

Module Capacitor.

Record ServerConfig := { url : option string; cleartext : bool }.

Record SplashScreen := {
  launchShowDuration : Z;
  backgroundColor : string;
  showSpinner : bool;
}.

Record CapacitorConfig := {
  appId : string;
  appName : string;
  webDir : string;
  server : ServerConfig;
  splash : SplashScreen;
}.

Definition config : CapacitorConfig := {|
  appId := "com.powergym.pescara";
  appName := "PowerGym Pescara";
  webDir := "dist";
  server := {| url := Some "https://875cad10-5dde-4092-8ad9-b2f9c567a27a.lovableproject.com?forceHideBadge=true";
               cleartext := true |};
  splash := {| launchShowDuration := 2000; backgroundColor := "#0f172a"; showSpinner := false |};
|}.

Inductive ContentSource := Bundled (dir : string) | Remote (u : string).

(** Where the shell's web view takes the page from. *)
Definition content_source (c : CapacitorConfig) : ContentSource :=
  match url (server c) with
  | Some u => Remote u
  | None => Bundled (webDir c)
  end.

(** The shipped configuration loads the page from the remote development
    host, not from the built [dist] directory, and allows cleartext
    traffic although that URL is HTTPS. *)
Lemma config_loads_remote :
  exists u, content_source config = Remote u /\ String.prefix "https://" u = true /\
            cleartext (server config) = true /\ webDir config = "dist".
Proof. eexists. repeat split. Qed.

End Capacitor.
