(* ===== verification/HeaderLayout.v ===== *)
(** * The header layout hook (src/src/hooks/use-header-layout.tsx)

    [useHeaderLayout] keeps one piece of state, the current [HeaderLayout],
    initialised to ["desktop"].  Its effect runs [updateLayout] once when the
    component mounts and registers it as a ["resize"] listener of the window;
    the effect's cleanup removes the listener when the component unmounts.

    The model keeps the window (its width and its resize listeners, each the
    id of the hook instance whose [updateLayout] closure it is) and the state
    of every mounted hook instance, and has one function per event: a hook
    mounting (its first render, then its effect), the window resizing, a hook
    unmounting.  The theorems: the width thresholds, the exclusivity of the
    two navigation flags, and the invariant that, in every reachable world,
    the registered listeners are exactly the mounted hooks (none leaked, none
    duplicated) and every mounted hook shows the layout of the current width. *)

From S2P Require Import Prelude.
From stdpp Require Import gmap.

Module HeaderLayoutHook.

(** [export type HeaderLayout = "desktop" | "intermediate" | "compact" | "mobile"] *)
Inductive HeaderLayout := desktop | intermediate | compact | mobile.

#[export] Instance HeaderLayout_eq_dec : EqDecision HeaderLayout.
Proof. solve_decision. Defined.

(** The decision [updateLayout] makes on [window.innerWidth] (an integer). *)
Definition layout_of_width (width : Z) : HeaderLayout :=
  if (1100 <=? width)%Z then desktop
  else if (900 <=? width)%Z then intermediate
  else if (768 <=? width)%Z then compact
  else mobile.

(** The object the hook returns. *)
Record HeaderLayoutView := {
  layout : HeaderLayout;
  isDesktop : bool;
  isIntermediate : bool;
  isCompact : bool;
  isMobile : bool;
  showFullNav : bool;
  showMobileMenu : bool;
}.

Definition is_layout (l l' : HeaderLayout) : bool := bool_decide (l = l').

Definition useHeaderLayout_view (l : HeaderLayout) : HeaderLayoutView := {|
  layout := l;
  isDesktop := is_layout l desktop;
  isIntermediate := is_layout l intermediate;
  isCompact := is_layout l compact;
  isMobile := is_layout l mobile;
  showFullNav := is_layout l desktop || is_layout l intermediate;
  showMobileMenu := is_layout l compact || is_layout l mobile;
|}.

(** The window and the mounted hook instances. *)
Record World := {
  innerWidth : Z;
  resize_listeners : list nat;
  hooks : gmap nat HeaderLayout;
}.

Definition world0 (width : Z) : World :=
  {| innerWidth := width; resize_listeners := []; hooks := ∅ |}.

(** [updateLayout] of instance [id]: [setLayout] on that instance with the
    layout of the current width ([setLayout] on an unmounted instance does
    nothing). *)
Definition updateLayout (id : nat) (w : World) : World :=
  {| innerWidth := innerWidth w;
     resize_listeners := resize_listeners w;
     hooks := alter (fun _ => layout_of_width (innerWidth w)) id (hooks w) |}.

(** First render of a fresh instance: [useState<HeaderLayout>("desktop")]. *)
Definition mount_render (id : nat) (w : World) : World :=
  {| innerWidth := innerWidth w;
     resize_listeners := resize_listeners w;
     hooks := <[id := desktop]> (hooks w) |}.

(** The effect after the first commit: [updateLayout();
    window.addEventListener("resize", updateLayout)]. *)
Definition mount_effect (id : nat) (w : World) : World :=
  let w' := updateLayout id w in
  {| innerWidth := innerWidth w';
     resize_listeners := resize_listeners w' ++ [id];
     hooks := hooks w' |}.

(** The cleanup [window.removeEventListener("resize", updateLayout)], then
    the instance's state is discarded. *)
Definition unmount (id : nat) (w : World) : World :=
  {| innerWidth := innerWidth w;
     resize_listeners := filter (fun j => j <> id) (resize_listeners w);
     hooks := delete id (hooks w) |}.

(** A resize sets the width and calls every registered listener in
    registration order. *)
Definition resize (width : Z) (w : World) : World :=
  let w' := {| innerWidth := width; resize_listeners := resize_listeners w;
               hooks := hooks w |} in
  fold_left (fun acc id => updateLayout id acc) (resize_listeners w) w'.

Inductive Event := Mount (id : nat) | Unmount (id : nat) | Resize (width : Z).

(** One event, run to completion.  React mounts an instance once and
    unmounts a mounted one: the other cases leave the world unchanged. *)
Definition step (e : Event) (w : World) : World :=
  match e with
  | Mount id =>
      match hooks w !! id with
      | Some _ => w
      | None => mount_effect id (mount_render id w)
      end
  | Unmount id =>
      match hooks w !! id with
      | Some _ => unmount id w
      | None => w
      end
  | Resize width => resize width w
  end.

(** ** Properties *)

Ltac world_simpl := cbn [innerWidth resize_listeners hooks] in *.

(** The invariant of the window and the hooks: the listeners are the mounted
    instances, each registered once, and every mounted instance holds the
    layout of the current width. *)
Definition hook_wf (w : World) : Prop :=
  NoDup (resize_listeners w) /\
  (forall id, id ∈ resize_listeners w <-> is_Some (hooks w !! id)) /\
  (forall id l, hooks w !! id = Some l -> l = layout_of_width (innerWidth w)).

Lemma updateLayout_fold ids w :
  let w' := fold_left (fun acc id => updateLayout id acc) ids w in
  innerWidth w' = innerWidth w /\ resize_listeners w' = resize_listeners w /\
  forall j, hooks w' !! j =
    if decide (j ∈ ids) then (fun _ => layout_of_width (innerWidth w)) <$> hooks w !! j
    else hooks w !! j.
Proof.
  revert w; induction ids as [|i ids IH]; intros w; simpl.
  - by repeat split.
  - destruct (IH (updateLayout i w)) as (Hw & Hl & Hh).
    rewrite Hw, Hl. split; [done|]. split; [done|]. intros j. rewrite Hh.
    unfold updateLayout; world_simpl.
    destruct (decide (j = i)) as [->|Hne].
    + rewrite lookup_alter_eq. repeat case_decide; try set_solver.
      by destruct (hooks w !! i).
    + rewrite lookup_alter_ne by done. repeat case_decide; set_solver.
Qed.

Lemma mount_preserves_wf id w :
  hook_wf w -> hooks w !! id = None -> hook_wf (mount_effect id (mount_render id w)).
Proof.
  intros (Hnd & Hin & Hl) Hnone. unfold mount_effect, mount_render, updateLayout; cbv zeta.
  assert (id ∉ resize_listeners w) as Hni.
  { intros Hi. apply Hin in Hi. rewrite Hnone in Hi. by destruct Hi. }
  split; [|split]; world_simpl.
  - apply NoDup_app; split; [done|split; [|apply NoDup_singleton]]. set_solver.
  - intros j. rewrite elem_of_app, list_elem_of_singleton.
    destruct (decide (j = id)) as [->|Hne].
    + rewrite lookup_alter_eq, lookup_insert_eq. split; intros; [simpl; by eexists|by right].
    + rewrite lookup_alter_ne, lookup_insert_ne by done. rewrite <- Hin. naive_solver.
  - intros j l. destruct (decide (j = id)) as [->|Hne].
    + rewrite lookup_alter_eq, lookup_insert_eq. simpl. congruence.
    + rewrite lookup_alter_ne, lookup_insert_ne by done. apply Hl.
Qed.

Lemma unmount_preserves_wf id w : hook_wf w -> hook_wf (unmount id w).
Proof.
  intros (Hnd & Hin & Hl). unfold unmount; world_simpl. split; [|split]; world_simpl.
  - by apply NoDup_filter.
  - intros j. rewrite list_elem_of_filter. destruct (decide (j = id)) as [->|Hne].
    + rewrite lookup_delete_eq. split; [naive_solver|by intros []].
    + rewrite lookup_delete_ne by congruence. rewrite <- Hin. naive_solver.
  - intros j l. destruct (decide (j = id)) as [->|Hne].
    + by rewrite lookup_delete_eq.
    + rewrite lookup_delete_ne by congruence. apply Hl.
Qed.

Lemma resize_preserves_wf width w : hook_wf w -> hook_wf (resize width w).
Proof.
  intros (Hnd & Hin & Hl). unfold resize.
  match goal with |- hook_wf (fold_left ?f ?ids ?w0) =>
    destruct (updateLayout_fold ids w0) as (Hw & Hls & Hh) end.
  world_simpl. split; [|split]; world_simpl.
  - by rewrite Hls.
  - intros j. rewrite Hls, Hh. case_decide as Hj; [|apply Hin].
    split; intros _; [|done]. apply Hin in Hj as [l ->]. simpl. by eexists.
  - intros j l. rewrite Hh, Hw. case_decide as Hj.
    + destruct (hooks w !! j); simpl; congruence.
    + intros Hs. exfalso. apply Hj, Hin. rewrite Hs. by eexists.
Qed.

(** A mounted instance stays mounted across a resize. *)
Lemma resize_keeps_mounted width w id :
  hook_wf w -> is_Some (hooks w !! id) -> is_Some (hooks (resize width w) !! id).
Proof.
  intros (_ & Hin & _) Hs. unfold resize.
  match goal with |- is_Some (hooks (fold_left ?f ?ids ?w0) !! _) =>
    destruct (updateLayout_fold ids w0) as (_ & _ & Hh) end.
  rewrite Hh. world_simpl. apply Hin in Hs as Hi. case_decide; [|done].
  destruct Hs as [l ->]. by eexists.
Qed.

Lemma world0_wf width0 : hook_wf (world0 width0).
Proof. split; [constructor|split; [|done]]. intros id. split; [set_solver|by intros []]. Qed.

Lemma step_preserves_wf : preserved step hook_wf.
Proof.
  intros [id|id|width] w Hwf; simpl.
  - destruct (hooks w !! id) eqn:?; [done|]. by apply mount_preserves_wf.
  - destruct (hooks w !! id) eqn:?; [by apply unmount_preserves_wf|done].
  - by apply resize_preserves_wf.
Qed.

(** C20: the ordered threshold checks of [updateLayout] split the widths
    into the four intervals: desktop from 1100, intermediate from 900 below
    1100, compact from 768 below 900, mobile below 768. *)
Theorem layout_of_width_thresholds (w : Z) :
  (layout_of_width w = desktop <-> (1100 <= w)%Z) /\
  (layout_of_width w = intermediate <-> (900 <= w < 1100)%Z) /\
  (layout_of_width w = compact <-> (768 <= w < 900)%Z) /\
  (layout_of_width w = mobile <-> (w < 768)%Z).
Proof.
  unfold layout_of_width.
  destruct (Z.leb_spec 1100 w), (Z.leb_spec 900 w), (Z.leb_spec 768 w);
    repeat split; intros; try discriminate; try lia; done.
Qed.

(** The header shows the full navigation exactly when the width is at
    least 900 and the collapsible menu exactly otherwise: the two flags the
    hook returns are exclusive and exhaustive. *)
Theorem nav_flags_of_width (w : Z) :
  showFullNav (useHeaderLayout_view (layout_of_width w)) = (900 <=? w)%Z /\
  showMobileMenu (useHeaderLayout_view (layout_of_width w)) = negb (900 <=? w)%Z.
Proof.
  unfold layout_of_width.
  destruct (Z.leb_spec 1100 w), (Z.leb_spec 900 w), (Z.leb_spec 768 w);
    split; simpl; try reflexivity; lia.
Qed.

(** C8: in every world reachable from a window with no hook mounted, the
    window's resize listeners are exactly the mounted hook instances, each
    registered once (an unmounted hook leaks no listener), and every mounted
    instance holds the layout of the current width. *)
Theorem hook_wf_reachable (width0 : Z) (w : World) :
  world0 width0 ⟶[step]* w -> hook_wf w.
Proof. apply reach_preserves; [exact step_preserves_wf|apply world0_wf]. Qed.

Lemma hook_wf_reachable_witness :
  let evs := [Mount 0; Resize 800; Mount 1; Unmount 0; Resize 1200] in
  world0 500 ⟶[step]* run step evs (world0 500) /\
  hook_wf (run step evs (world0 500)).
Proof.
  cbv zeta. split.
  - apply reach_run_iff. eexists. reflexivity.
  - apply (hook_wf_reachable 500). apply reach_run_iff. eexists. reflexivity.
Defined.

(** A resize of a reachable world keeps the set of mounted hooks and
    moves every one of them to the layout of the new width. *)
Theorem resize_sets_every_layout (width0 width : Z) (w : World) :
  world0 width0 ⟶[step]* w ->
  forall id, hooks (step (Resize width) w) !! id =
             (fun _ => layout_of_width width) <$> hooks w !! id.
Proof.
  intros Hr id.
  assert (Hwf : hook_wf w)
    by (eapply reach_preserves; [exact step_preserves_wf|apply world0_wf|exact Hr]).
  destruct Hwf as (_ & Hin & _).
  simpl. unfold resize.
  match goal with |- hooks (fold_left ?f ?ids ?w0) !! _ = _ =>
    destruct (updateLayout_fold ids w0) as (_ & _ & Hh) end.
  rewrite Hh. world_simpl. case_decide as Hj; [done|].
  destruct (hooks w !! id) eqn:Hs; [|done].
  exfalso. apply Hj, Hin. rewrite Hs. by eexists.
Qed.

Lemma resize_sets_every_layout_witness :
  let w := run step [Mount 0; Mount 1] (world0 1200) in
  world0 1200 ⟶[step]* w /\
  hooks (step (Resize 800) w) !! 1%nat = Some compact.
Proof.
  cbv zeta. split.
  - apply reach_run_iff. eexists. reflexivity.
  - rewrite (resize_sets_every_layout 1200 800); [reflexivity|].
    apply reach_run_iff. eexists. reflexivity.
Defined.

(** The first render of a freshly mounted hook shows ["desktop"], whatever
    the width: the classification only lands with the effect that follows
    the first commit. *)
Remark first_render_is_desktop :
  hooks (mount_render 0 (world0 500)) !! 0%nat = Some desktop /\
  hooks (step (Mount 0) (world0 500)) !! 0%nat = Some mobile.
Proof. split; reflexivity. Qed.

End HeaderLayoutHook.
