(* ===== verification/JsNumber.v ===== *)
(** * JavaScript numbers and [parseFloat]

    A JavaScript number is an IEEE 754 binary64 value: the kernel's
    primitive [float], whose [+ - * /] round to nearest-even as JavaScript
    does.  This file holds what the calculators need of the language:
    - [js_truthy_num]: [ToBoolean] of a number ([!x] is true on [+0], [-0]
      and [NaN]);
    - [parseFloat] (ECMAScript 2024, 21.1.2.12): skip the leading white
      space, read the longest prefix that is a [StrDecimalLiteral] (a sign,
      then [Infinity] or digits with an optional fraction and exponent) and
      round its value to the nearest binary64; [NaN] when there is no such
      prefix.  The rounding is exact: an integer value goes through
      [binary_normalize], a value [m / 10^k] through the correctly rounded
      division [SFdiv] of the two integers; values beyond the binary64 range
      are clamped to infinity or zero first, so the computation stays small.
      White space is the ASCII set (tab, line feed, vertical tab, form feed,
      carriage return, space); the multi-byte Unicode spaces are not
      modelled (the calculators read [<input type="number">] values, which
      the browser sanitises to a float literal or the empty string). *)

From S2P Require Import Prelude.
From Stdlib Require Import Ascii Floats.

Module JsNumber.

Local Open Scope Z_scope.

(** [ToBoolean] of a number. *)
Definition js_truthy_num (x : float) : bool :=
  (x =? x)%float && negb (x =? 0)%float.

(** ** The lexical grammar of [StrDecimalLiteral] *)

Definition is_str_white_space (c : ascii) : bool :=
  let n := nat_of_ascii c in (n =? 32)%nat || ((9 <=? n)%nat && (n <=? 13)%nat).

Definition digit_of (c : ascii) : option nat :=
  let n := nat_of_ascii c in
  if (48 <=? n)%nat && (n <=? 57)%nat then Some (n - 48)%nat else None.

(** [TrimString(string, start)]. *)
Fixpoint trim_start (s : string) : string :=
  match s with
  | String c s' => if is_str_white_space c then trim_start s' else s
  | EmptyString => EmptyString
  end.

(** The longest prefix of decimal digits, and the rest. *)
Fixpoint span_digits (s : string) : list nat * string :=
  match s with
  | String c s' =>
      match digit_of c with
      | Some d => let '(ds, r) := span_digits s' in (d :: ds, r)
      | None => ([], s)
      end
  | EmptyString => ([], EmptyString)
  end.

Definition digits_value (ds : list nat) : Z :=
  fold_left (fun acc d => acc * 10 + Z.of_nat d) ds 0.

(** An optional [ExponentPart] ([e] or [E], a sign, digits); an incomplete
    one is not part of the longest prefix and counts as no exponent. *)
Definition parse_exponent (s : string) : Z :=
  match s with
  | String c s' =>
      if (c =? "e")%char || (c =? "E")%char then
        let '(neg, s'') :=
          match s' with
          | String "+" r => (false, r)
          | String "-" r => (true, r)
          | _ => (false, s')
          end in
        match span_digits s'' with
        | ([], _) => 0
        | (ds, _) => if neg then - digits_value ds else digits_value ds
        end
      else 0
  | EmptyString => 0
  end.

(** The value of a [StrUnsignedDecimalLiteral]: [Infinity], or the
    mantissa [m] (all the digits read, integer and fraction), its number of
    digits, and the power of ten [e], the value being [m * 10^e]. *)
Inductive decimal_literal :=
| DInfinity
| DFinite (m : Z) (ndigits : Z) (e : Z).

Definition parse_unsigned (s : string) : option decimal_literal :=
  if String.prefix "Infinity" s then Some DInfinity else
  let '(ip, r1) := span_digits s in
  let '(fp, r2) :=
    match r1 with
    | String "." r => span_digits r
    | _ => ([], r1)
    end in
  match ip ++ fp with
  | [] => None
  | ds =>
      Some (DFinite (digits_value ds) (Z.of_nat (length ds))
              (parse_exponent r2 - Z.of_nat (length fp)))
  end.

(** ** Rounding a decimal value to binary64 *)

(** [m * 10^e] rounded to nearest-even, for [m >= 0].  With [m < 10^nd],
    a value with [e >= 309] is at least [10^309], beyond the largest finite
    double, and one with [nd + e <= -324] is below [10^-324], less than half
    the least subnormal [2^-1074]: both are clamped before computing. *)
Definition round_decimal (m nd e : Z) : float :=
  if m =? 0 then PrimFloat.zero
  else if 309 <=? e then PrimFloat.infinity
  else if nd + e <=? -324 then PrimFloat.zero
  else if 0 <=? e then SF2Prim (binary_normalize prec emax (m * 10 ^ e) 0 false)
  else SF2Prim (SFdiv prec emax (S754_finite false (Z.to_pos m) 0)
                                (S754_finite false (Z.to_pos (10 ^ (- e))) 0)).

(** [parseFloat(string)]. *)
Definition parseFloat (s : string) : float :=
  let t := trim_start s in
  let '(neg, u) :=
    match t with
    | String "-" r => (true, r)
    | String "+" r => (false, r)
    | _ => (false, t)
    end in
  match parse_unsigned u with
  | None => PrimFloat.nan
  | Some DInfinity => if neg then PrimFloat.neg_infinity else PrimFloat.infinity
  | Some (DFinite m nd e) =>
      let v := round_decimal m nd e in if neg then (- v)%float else v
  end.

(** The number a small natural number denotes (exact below [2^53]). *)
Definition num (n : nat) : float := PrimFloat.of_uint63 (Uint63.of_Z (Z.of_nat n)).

(** ** [Math.floor] *)

(** The greatest integer not above [x]: a finite [m * 2^e] with [e >= 0] is
    an integer already; otherwise the fraction bits are shifted out
    (rounding the magnitude down for a positive value, up for a negative
    one).  Zeros, infinities and [NaN] are returned unchanged, as
    [Math.floor] does.  The result has at most 53 significant bits, so
    [binary_normalize] is exact. *)
Definition sf_floor (x : spec_float) : spec_float :=
  match x with
  | S754_finite s m e =>
      if 0 <=? e then x
      else
        let q := Z.shiftr (Zpos m) (- e) in
        if s then
          let c := if Z.shiftl q (- e) =? Zpos m then q else q + 1 in
          binary_normalize prec emax (- c) 0 true
        else binary_normalize prec emax q 0 false
  | _ => x
  end.

Definition js_floor (x : float) : float := SF2Prim (sf_floor (Prim2SF x)).

(** ** The order of binary64 values *)

(** [SFcompare] orders the values lexicographically on a key: the sign
    class, then the exponent and the mantissa, negated for negative
    values.  Transitivity follows, whatever the representation. *)
Definition sf_key (x : spec_float) : Z * Z * Z :=
  match x with
  | S754_nan | S754_zero _ => (0, 0, 0)
  | S754_infinity s => (if s then -2 else 2, 0, 0)
  | S754_finite s m e => if s then (-1, - e, - Zpos m) else (1, e, Zpos m)
  end.

#[export] Instance spec_float_eq_dec : EqDecision spec_float.
Proof. solve_decision. Defined.

Definition lex3 (a b : Z * Z * Z) : comparison :=
  let '(a1, a2, a3) := a in
  let '(b1, b2, b3) := b in
  match Z.compare a1 b1 with
  | Eq => match Z.compare a2 b2 with Eq => Z.compare a3 b3 | c => c end
  | c => c
  end.

Lemma SFcompare_lex3 x y c :
  SFcompare x y = Some c -> c = lex3 (sf_key x) (sf_key y).
Proof.
  destruct x as [[]|[]| |[] mx ex], y as [[]|[]| |[] my ey]; simpl;
    intros H; inversion H; subst; try reflexivity.
  rewrite Z.compare_opp, (Z.compare_antisym ex ey).
  destruct (ex ?= ey)%Z; reflexivity.
Qed.

Lemma SFcompare_defined x y :
  x <> S754_nan -> y <> S754_nan -> SFcompare x y = Some (lex3 (sf_key x) (sf_key y)).
Proof.
  intros Hx Hy. destruct (SFcompare x y) eqn:H.
  - by rewrite (SFcompare_lex3 _ _ _ H).
  - destruct x, y; simpl in H; congruence.
Qed.

Lemma SFcompare_nan_l y : SFcompare S754_nan y = None.
Proof. reflexivity. Qed.

Lemma SFcompare_nan_r x : SFcompare x S754_nan = None.
Proof. by destruct x. Qed.

Lemma lex3_le_lt_trans a b c : lex3 a b <> Gt -> lex3 b c = Lt -> lex3 a c = Lt.
Proof.
  destruct a as [[a1 a2] a3], b as [[b1 b2] b3], c as [[c1 c2] c3]; simpl.
  destruct (Z.compare_spec a1 b1), (Z.compare_spec b1 c1), (Z.compare_spec a1 c1);
  destruct (Z.compare_spec a2 b2), (Z.compare_spec b2 c2), (Z.compare_spec a2 c2);
  destruct (Z.compare_spec a3 b3), (Z.compare_spec b3 c3), (Z.compare_spec a3 c3);
  intros; try congruence; lia.
Qed.

(** [x <= y] and [y < z] give [x < z] on binary64 values ([NaN] is
    comparable to nothing). *)
Lemma float_le_lt_trans (x y z : float) :
  (x <=? y)%float = true -> (y <? z)%float = true -> (x <? z)%float = true.
Proof.
  rewrite FloatAxioms.leb_spec, !FloatAxioms.ltb_spec. unfold SFleb, SFltb.
  destruct (decide (Prim2SF x = S754_nan)) as [Hx|Hx];
    [by rewrite Hx, SFcompare_nan_l|].
  destruct (decide (Prim2SF y = S754_nan)) as [Hy|Hy];
    [by rewrite Hy, SFcompare_nan_r|].
  destruct (decide (Prim2SF z = S754_nan)) as [Hz|Hz];
    [by rewrite Hz, SFcompare_nan_r|].
  rewrite !SFcompare_defined by done. intros Hle Hlt.
  rewrite (lex3_le_lt_trans (sf_key (Prim2SF x)) (sf_key (Prim2SF y))); try done.
  - by destruct (lex3 _ _).
  - by destruct (lex3 (sf_key (Prim2SF y)) _).
Qed.

Lemma float_lt_le (x y : float) : (x <? y)%float = true -> (x <=? y)%float = true.
Proof.
  rewrite FloatAxioms.leb_spec, FloatAxioms.ltb_spec. unfold SFleb, SFltb.
  by destruct (SFcompare _ _) as [[]|].
Qed.

Lemma float_lt_trans (x y z : float) :
  (x <? y)%float = true -> (y <? z)%float = true -> (x <? z)%float = true.
Proof. intros H1 H2. eapply float_le_lt_trans; [apply float_lt_le|]; eassumption. Qed.

#[export] Hint Resolve float_le_lt_trans float_lt_le float_lt_trans : pg.

End JsNumber.
