(* ===== verification/JsString.v ===== *)
(** * JavaScript strings: [indexOf], [substring] and [split]

    What the footer needs of [String.prototype]: [split] with a non-empty
    string separator (ECMAScript 2024, 22.1.3.23, without a limit):

    - an empty string splits into one empty piece;
    - otherwise, from position [i = 0], the next occurrence [j] of the
      separator at or after [i] ([StringIndexOf]) closes the piece
      [S[i..j]], and the search resumes at [j + |sep|]; the rest of the
      string after the last occurrence is the last piece.

    The loop is written with Equations by well-founded recursion on the
    length of the rest of the string, which each iteration shortens by at
    least [|sep| > 0].  Strings are byte strings; the footer splits on the
    ASCII separator [" - "], and no byte of a multi-byte UTF-8 sequence is
    an ASCII byte, so the pieces are those of the UTF-16 string. *)

From S2P Require Import Prelude.
From Equations Require Import Equations.

Module JsString.

(** [inspect] keeps the equation of a scrutinee in a [with] clause. *)
Definition inspect {A} (a : A) : {b | a = b} := exist _ a eq_refl.

(** [StringIndexOf(S, sep, 0)]: the first position where [sep] occurs. *)
Fixpoint index_of (sep s : string) : option nat :=
  if String.prefix sep s then Some 0
  else match s with
       | EmptyString => None
       | String _ s' => S <$> index_of sep s'
       end.

(** [S.substring(0, n)] and [S.substring(n)]. *)
Fixpoint str_take (n : nat) (s : string) : string :=
  match n, s with
  | 0, _ | _, EmptyString => EmptyString
  | S n', String c s' => String c (str_take n' s')
  end.

Fixpoint str_drop (n : nat) (s : string) : string :=
  match n, s with
  | 0, _ => s
  | _, EmptyString => EmptyString
  | S n', String _ s' => str_drop n' s'
  end.

(** The double quote character, which JSX text such as ["{text}"] prints
    around an expression. *)
Definition dquote : string := String (Ascii.ascii_of_nat 34) EmptyString.

(** ** Lemmas on the string operations *)

Lemma str_drop_length n s : String.length (str_drop n s) = String.length s - n.
Proof. revert s; induction n as [|n IH]; intros [|c s]; simpl; auto; lia. Qed.

Lemma str_app_nil_r s : (s ++ "")%string = s.
Proof. induction s as [|c s IH]; [done|]. by rewrite str_app_cons, IH. Qed.

Lemma str_length_app a b : String.length (a ++ b) = String.length a + String.length b.
Proof. induction a as [|c a IH]; [done|]. rewrite str_app_cons. simpl. by rewrite IH. Qed.

Lemma prefix_spec sep s :
  String.prefix sep s = true -> s = (sep ++ str_drop (String.length sep) s)%string.
Proof.
  revert s; induction sep as [|c sep IH]; intros [|d s]; simpl; try done.
  destruct (Ascii.ascii_dec c d) as [<-|]; [|done].
  intros H. rewrite str_app_cons. f_equal. by apply IH.
Qed.

Lemma prefix_length sep s :
  String.prefix sep s = true -> String.length sep <= String.length s.
Proof.
  revert s; induction sep as [|c sep IH]; intros [|d s]; simpl; try (done || lia).
  destruct (Ascii.ascii_dec c d); [|done]. intros H. specialize (IH s H). lia.
Qed.

Lemma index_of_cons sep c s :
  index_of sep (String c s) =
  if String.prefix sep (String c s) then Some 0 else S <$> index_of sep s.
Proof. reflexivity. Qed.

Lemma index_of_spec sep s j :
  index_of sep s = Some j ->
  s = (str_take j s ++ sep ++ str_drop (j + String.length sep) s)%string /\
  j + String.length sep <= String.length s.
Proof.
  revert j; induction s as [|c s IH]; intros j.
  - destruct sep; simpl; [|by intros ?]. intros [= <-]. split; [reflexivity|lia].
  - rewrite index_of_cons. destruct (String.prefix sep (String c s)) eqn:Hp.
    + intros [= <-]. simpl. split; [by apply prefix_spec|by apply prefix_length in Hp].
    + destruct (index_of sep s) as [k|] eqn:Hk; simpl; [|done]. intros [= <-].
      destruct (IH k eq_refl) as [Hs Hl]. simpl. rewrite str_app_cons.
      split; [by rewrite <- Hs|lia].
Qed.

Lemma index_of_shrinks sep s j :
  sep <> EmptyString -> index_of sep s = Some j ->
  String.length (str_drop (j + String.length sep) s) < String.length s.
Proof.
  intros Hne Hj. destruct (index_of_spec sep s j Hj) as [_ Hl].
  rewrite str_drop_length. destruct sep; [done|]. simpl in *. lia.
Qed.

(** [index_of] finds the first occurrence: the separator starts at the
    position found, and at no position before it. *)
Lemma index_of_first sep s j :
  index_of sep s = Some j ->
  String.prefix sep (str_drop j s) = true /\
  forall i, i < j -> String.prefix sep (str_drop i s) = false.
Proof.
  revert j; induction s as [|c s IH]; intros j.
  - destruct sep; simpl; [|by intros ?]. intros [= <-]. split; [done|lia].
  - rewrite index_of_cons. destruct (String.prefix sep (String c s)) eqn:Hp.
    + intros [= <-]. split; [done|lia].
    + destruct (index_of sep s) as [k|] eqn:Hk; simpl; [|done]. intros [= <-].
      destruct (IH k eq_refl) as [H1 H2]. split; [done|].
      intros [|i] Hi; [done|]. simpl. apply H2. lia.
Qed.

Lemma str_drop_take i j s : str_drop i (str_take j s) = str_take (j - i) (str_drop i s).
Proof.
  revert j s; induction i as [|i IH]; intros j s; [by rewrite Nat.sub_0_r|].
  destruct j as [|j], s as [|c s]; simpl; try done; first [by destruct (j - i)|apply IH].
Qed.

Lemma prefix_take sep k t : String.prefix sep (str_take k t) = true -> String.prefix sep t = true.
Proof.
  revert k t; induction sep as [|a sep IH]; intros k t; [intros _; by destruct t|].
  destruct k as [|k], t as [|b t]; simpl; try (intros H; discriminate H).
  destruct (Ascii.ascii_dec a b); [apply IH|done].
Qed.

Lemma str_take_length j s : String.length (str_take j s) <= j.
Proof. revert s; induction j as [|j IH]; intros [|c s]; simpl; try lia. specialize (IH s). lia. Qed.

(** The text before the first occurrence contains no occurrence. *)
Lemma index_of_take_none sep s j :
  sep <> EmptyString -> index_of sep s = Some j -> index_of sep (str_take j s) = None.
Proof.
  intros Hne Hj. destruct (index_of sep (str_take j s)) as [i|] eqn:Hi; [exfalso|done].
  destruct (index_of_first _ _ _ Hi) as [Hp _].
  destruct (index_of_spec _ _ _ Hi) as [_ Hl]. pose proof (str_take_length j s).
  assert (Hlt : i < j) by (destruct sep; [done|simpl in Hl; lia]).
  rewrite str_drop_take in Hp. apply prefix_take in Hp.
  rewrite (proj2 (index_of_first _ _ _ Hj) i Hlt) in Hp. discriminate.
Qed.

(** ** [split] *)

Section Split.
Variable sep : string.
Hypothesis sep_nonempty : sep <> EmptyString.

Equations split_from (s : string) : list string by wf (String.length s) lt :=
split_from s with inspect (index_of sep s) := {
  | exist _ (Some j) Hj => str_take j s :: split_from (str_drop (j + String.length sep) s);
  | exist _ None Hn => [s] }.
Next Obligation. by apply index_of_shrinks. Qed.

End Split.

(** [S.split(sep)] for a non-empty separator. *)
Definition js_split (s sep : string) : list string :=
  match decide (sep = EmptyString) with
  | left _ => [s]
  | right H => split_from sep H s
  end.

(** [Array.prototype.join(sep)] on strings, the reference for [split]. *)
Fixpoint js_join (sep : string) (l : list string) : string :=
  match l with
  | [] => EmptyString
  | [x] => x
  | x :: l' => (x ++ sep ++ js_join sep l')%string
  end.

Lemma split_from_nonempty sep H s : split_from sep H s <> [].
Proof. funelim (split_from sep H s); try rewrite <- Heqcall; done. Qed.

(** Without an occurrence of the separator, [split] returns the string. *)
Lemma js_split_no_sep s sep : index_of sep s = None -> js_split s sep = [s].
Proof.
  unfold js_split. destruct (decide (sep = EmptyString)) as [_|H]; [done|].
  intros Hn. funelim (split_from sep H s); try rewrite <- Heqcall; congruence.
Qed.

Lemma js_join_cons sep x l :
  l <> [] -> js_join sep (x :: l) = (x ++ sep ++ js_join sep l)%string.
Proof. by destruct l. Qed.

(** C15: [split] is characterised by [join]: for a non-empty separator,
    the pieces of [s.split(sep)] joined with [sep] give back [s], and no
    piece contains [sep] (the pieces are exactly the text between
    consecutive occurrences). *)
Theorem split_join_roundtrip (s sep : string) :
  sep <> EmptyString ->
  js_join sep (js_split s sep) = s /\ Forall (fun p => index_of sep p = None) (js_split s sep).
Proof.
  intros Hne. unfold js_split. destruct (decide (sep = EmptyString)) as [|H]; [done|]. clear Hne.
  funelim (split_from sep H s); try rewrite <- Heqcall.
  - destruct H0 as [Hjoin Hall]. split.
    + rewrite js_join_cons by apply split_from_nonempty. rewrite Hjoin.
      symmetry. apply (proj1 (index_of_spec _ _ _ Hj)).
    + constructor; [by apply index_of_take_none|exact Hall].
  - split; [done|]. by constructor.
Qed.

Lemma split_join_roundtrip_witness :
  " - " <> EmptyString /\ js_split "a - b" " - " = ["a"; "b"] /\
  js_join " - " (js_split "a - b" " - ") = "a - b" /\
  Forall (fun p => index_of " - " p = None) (js_split "a - b" " - ").
Proof.
  assert (H : " - " <> EmptyString) by discriminate.
  split; [exact H|]. split; [vm_compute; reflexivity|].
  exact (split_join_roundtrip "a - b" " - " H).
Defined.

End JsString.
