(* ===== verification/JsFormat.v ===== *)
(** * Printing numbers: [Number.prototype.toFixed(1)] and integers

    The calculator shows its result with [bmi.toFixed(1)], the membership
    cards show integer prices with [€{price}].  This file models both
    (ECMAScript 2024, 21.1.3.3 and 6.1.6.1.20 on integers):

    - [toFixed1 x]: for [NaN] and the infinities the result of
      [Number::toString]; otherwise the sign ("-" for [x < 0], not for
      [-0]), then, with [n] the integer nearest to [10 * |x|] (the larger on
      a tie), the digits of [n] with a point before the last one, padded
      with a leading "0" when [n < 10].  The branch [|x| >= 10^21], where
      [toFixed] falls back to [Number::toString]'s exponential notation, is
      not modelled: [toFixed1] returns [None] there.
    - [n] is computed exactly from the binary64 value [m * 2^e] with
      integer division ([fixed1_n]); [fixed1_n_nearest] proves it is the
      integer the specification describes.
    - [int_to_string]: the decimal digits of an integer (stdpp's [pretty]).

    The round trip [toFixed1_parseFloat] shows that [parseFloat] reads back
    the printed decimal [n / 10], rounded to binary64. *)

From S2P Require Import Prelude JsNumber JsString.
From stdpp Require Import pretty.
From Stdlib Require Import Floats Ascii.

Module JsFormat.
Import JsNumber JsString.

Local Open Scope Z_scope.

(** [Number::toString] of an integer: its digits, after a "-" when it is
    negative. *)
Definition int_to_string (z : Z) : string := pretty z.

(** The integer [n] of step 10 for [f = 1]: the one nearest to
    [10 * m * 2^e], the larger on a tie. *)
Definition fixed1_n (m : positive) (e : Z) : Z :=
  if 0 <=? e then Zpos m * 10 * 2 ^ e
  else (20 * Zpos m + 2 ^ (- e)) / 2 ^ (1 - e).

(** Step 10 from [n]: [m = ToString(n)], padded to two digits, with the
    point before the last digit. *)
Definition fixed1_string (n : N) : string :=
  let m := pretty n in
  let k := String.length m in
  let '(m, k) := if (k <=? 1)%nat then (("0" ++ m)%string, 2%nat) else (m, k) in
  (str_take (k - 1) m ++ "." ++ str_drop (k - 1) m)%string.

Definition toFixed1 (x : float) : option string :=
  match Prim2SF x with
  | S754_nan => Some "NaN"
  | S754_infinity false => Some "Infinity"
  | S754_infinity true => Some "-Infinity"
  | S754_zero _ => Some (fixed1_string 0)
  | S754_finite s m e =>
      if (1e21 <=? PrimFloat.abs x)%float then None
      else Some ((if s then "-" else "") ++ fixed1_string (Z.to_N (fixed1_n m e)))%string
  end.

(** ** Digits *)

(** The string of a list of decimal digits, most significant first. *)
Fixpoint digits_string (ds : list nat) : string :=
  match ds with
  | [] => EmptyString
  | d :: ds' => String (pretty_N_char (N.of_nat d)) (digits_string ds')
  end.

Lemma digits_string_app ds ds' s :
  (digits_string (ds ++ ds') ++ s)%string = (digits_string ds ++ digits_string ds' ++ s)%string.
Proof. induction ds as [|d ds IH]; simpl; rewrite ?str_app_cons, ?IH; done. Qed.

Lemma digits_value_snoc ds d :
  digits_value (ds ++ [d]) = digits_value ds * 10 + Z.of_nat d.
Proof. unfold digits_value. by rewrite fold_left_app. Qed.

Lemma digit_of_pretty_N_char d : (d < 10)%nat -> digit_of (pretty_N_char (N.of_nat d)) = Some d.
Proof. intros Hd. do 10 (destruct d as [|d]; [reflexivity|]). lia. Qed.

(** [pretty_N_go x s] writes the digits of [x] in front of [s]. *)
Lemma pretty_N_go_digits x s :
  exists ds, pretty_N_go x s = (digits_string ds ++ s)%string /\
             digits_value ds = Z.of_N x /\ Forall (fun d => d < 10)%nat ds /\
             (ds = [] <-> x = 0%N).
Proof.
  revert s. induction (N.lt_wf_0 x) as [x _ IH]; intros s.
  destruct (decide (x = 0%N)) as [->|Hx]; [by exists []|].
  rewrite pretty_N_go_step by lia.
  destruct (IH (x / 10)%N ltac:(apply N.div_lt; lia)
               (String (pretty_N_char (x mod 10)) s)) as (ds & Hs & Hv & Hf & _).
  exists (ds ++ [N.to_nat (x mod 10)]). rewrite digits_string_app, digits_value_snoc, Hv.
  assert (Hm : (x mod 10 < 10)%N) by (apply N.mod_lt; lia).
  split; [by rewrite Hs; simpl; rewrite N2Nat.id|].
  split; [pose proof (N.div_mod x 10); lia|].
  split; [apply Forall_app; split; [done|constructor; [lia|done]]|].
  split; [by intros ?%app_eq_nil; naive_solver|done].
Qed.

Lemma span_digits_string ds s :
  Forall (fun d => d < 10)%nat ds ->
  (forall c s', s = String c s' -> digit_of c = None) ->
  span_digits (digits_string ds ++ s) = (ds, s).
Proof.
  intros Hf Hs. induction Hf as [|d ds Hd _ IH]; simpl.
  - destruct s as [|c s']; [done|]. simpl. by rewrite (Hs c s' eq_refl).
  - rewrite digit_of_pretty_N_char by done. by rewrite IH.
Qed.

Lemma str_take_app a b : str_take (String.length a) (a ++ b) = a.
Proof. induction a as [|c a IH]; [done|]. rewrite str_app_cons. simpl. by rewrite IH. Qed.

Lemma str_drop_app a b : str_drop (String.length a) (a ++ b) = b.
Proof. induction a as [|c a IH]; [by destruct b|]. by rewrite str_app_cons. Qed.

Lemma digits_string_length ds : String.length (digits_string ds) = length ds.
Proof. induction ds; simpl; auto. Qed.

(** The fixed-point string of [n]: the digits of [n / 10] (a "0" when
    [n < 10]), the point, and the digit [n mod 10]. *)
Lemma fixed1_string_digits n :
  exists ip d, fixed1_string n = (digits_string ip ++ "." ++ digits_string [d])%string /\
               ip <> [] /\ Forall (fun d => d < 10)%nat (ip ++ [d]) /\
               digits_value (ip ++ [d]) = Z.of_N n.
Proof.
  destruct (decide (n = 0%N)) as [->|Hn].
  { exists [0%nat], 0%nat. split; [reflexivity|]. split; [done|]. split; [by repeat constructor|done]. }
  destruct (pretty_N_go_digits n "") as (ds & Hs & Hv & Hf & Hz).
  destruct ds as [|d0 ds0] using rev_ind; [naive_solver|].
  unfold fixed1_string, pretty, pretty_N. rewrite decide_False by done.
  rewrite Hs, digits_string_app, str_app_nil_r, str_length_app, !digits_string_length.
  simpl. apply Forall_app in Hf as [Hf0 Hfd].
  destruct (Nat.leb_spec (length ds0 + 1) 1) as [Hk|Hk].
  - destruct ds0; [|simpl in Hk; lia]. exists [0%nat], d0. split; [done|]. split; [done|].
    split; [constructor; [lia|exact Hfd]|by rewrite <- Hv].
  - rewrite <- (digits_string_length ds0), Nat.add_sub, str_take_app, str_drop_app.
    exists ds0, d0. split; [done|]. split; [by intros ->; simpl in Hk; lia|].
    split; [by apply Forall_app|done].
Qed.

Lemma prefix_Infinity_digits d ds s :
  String.prefix "Infinity" (digits_string (d :: ds) ++ s) = false.
Proof. cbn [digits_string]. rewrite str_app_cons. unfold pretty_N_char. by repeat case_match. Qed.

(** [parse_unsigned] reads the fixed-point string of [n] as [n * 10^-1]. *)
Lemma parse_unsigned_fixed1 n :
  exists nd, parse_unsigned (fixed1_string n) = Some (DFinite (Z.of_N n) nd (-1)) /\
             2 <= nd /\
             (exists d ds s, fixed1_string n = (digits_string (d :: ds) ++ s)%string).
Proof.
  destruct (fixed1_string_digits n) as (ip & d & -> & Hne & Hf & Hv).
  apply Forall_app in Hf as [Hfi Hfd].
  exists (Z.of_nat (length (ip ++ [d]))).
  destruct ip as [|d0 ip]; [done|]. split; [|split; [rewrite length_app; simpl; lia|by eexists _, _, _]].
  unfold parse_unsigned. rewrite prefix_Infinity_digits.
  rewrite span_digits_string by (done || by intros ?? [= <- _]).
  rewrite str_app_cons, str_app_nil. simpl (span_digits (digits_string [d])).
  rewrite digit_of_pretty_N_char by (inversion Hfd; lia).
  rewrite <- Hv. reflexivity.
Qed.

Lemma pretty_N_char_cases x :
  In (pretty_N_char x) ["0"; "1"; "2"; "3"; "4"; "5"; "6"; "7"; "8"; "9"]%char.
Proof. unfold pretty_N_char. case_match; [|repeat case_match]; simpl; tauto. Qed.

Lemma trim_start_digit x s : trim_start (String (pretty_N_char x) s) = String (pretty_N_char x) s.
Proof. unfold pretty_N_char. case_match; [|repeat case_match]; reflexivity. Qed.

(** [parseFloat] of a string that starts with a digit, or with "-" and a
    digit: the decimal value [parse_unsigned] reads, rounded, and negated
    after the sign. *)
Lemma parseFloat_digits d ds s m nd e :
  parse_unsigned (digits_string (d :: ds) ++ s) = Some (DFinite m nd e) ->
  parseFloat (digits_string (d :: ds) ++ s) = round_decimal m nd e /\
  parseFloat ("-" ++ digits_string (d :: ds) ++ s) = (- round_decimal m nd e)%float.
Proof.
  cbn [digits_string]. rewrite !str_app_cons, str_app_nil. intros H.
  unfold parseFloat. rewrite trim_start_digit. split; [|change (trim_start (String "-" ?x)) with (String "-" x); cbv beta iota zeta; by rewrite H].
  revert H. generalize (digits_string ds ++ s)%string. intros X.
  pose proof (pretty_N_char_cases (N.of_nat d)) as Hc. simpl in Hc.
  repeat destruct Hc as [<-|Hc]; [..|destruct Hc]; cbv beta iota zeta; intros ->; reflexivity.
Qed.

Lemma fixed1_n_nonneg m e : 0 <= fixed1_n m e.
Proof. unfold fixed1_n. case_match; [lia|]. apply Z.div_pos; lia. Qed.

(** ** Properties *)

(** C14: [toFixed(1)] rounds to the nearest tenth as the specification
    describes (step 10: "let [n] be an integer for which [n / 10 - x] is as
    close to zero as possible; if there are two such [n], pick the larger"):
    with [x = m * 2^e] written as [v / d], no integer is closer to [10 x]
    than the [n] computed by integer division, and one as close is not
    larger. *)
Theorem fixed1_n_nearest (m : positive) (e n' : Z) :
  let v := Zpos m * 2 ^ Z.max 0 e in
  let d := 2 ^ Z.max 0 (- e) in
  let n := fixed1_n m e in
  Z.abs (10 * v - n * d) <= Z.abs (10 * v - n' * d) /\
  (Z.abs (10 * v - n * d) = Z.abs (10 * v - n' * d) -> n' <= n).
Proof.
  cbv zeta. unfold fixed1_n. destruct (Z.leb_spec 0 e) as [He|He].
  - rewrite (Z.max_r 0 e), (Z.max_l 0 (- e)) by lia. rewrite Z.pow_0_r, !Z.mul_1_r.
    split; [lia|]. intros Heq. assert (Hz : Zpos m * 10 * 2 ^ e = n') by lia. lia.
  - rewrite (Z.max_l 0 e), (Z.max_r 0 (- e)) by lia. rewrite Z.pow_0_r, Z.mul_1_r.
    set (K := 2 ^ (- e)). assert (HK : 0 < K) by (apply Z.pow_pos_nonneg; lia).
    replace (2 ^ (1 - e)) with (2 * K) by (unfold K; rewrite <- Z.pow_succ_r by lia; f_equal; lia).
    pose proof (Z.div_mod (20 * Zpos m + K) (2 * K) ltac:(lia)) as Hdm.
    pose proof (Z.mod_pos_bound (20 * Zpos m + K) (2 * K) ltac:(lia)) as Hb.
    set (n := (20 * Zpos m + K) / (2 * K)) in *.
    set (r := (20 * Zpos m + K) mod (2 * K)) in *.
    destruct (Z.lt_total n' n) as [Hlt|[->|Hgt]]; [|lia|].
    + assert (Ht : K <= (n - n') * K) by nia. split; [|lia].
      assert (10 * Zpos m - n' * K = 10 * Zpos m - n * K + (n - n') * K) by lia. lia.
    + assert (Ht : K <= (n' - n) * K) by nia.
      assert (10 * Zpos m - n' * K = 10 * Zpos m - n * K - (n' - n) * K) by lia. lia.
Qed.

(** C13: [parseFloat] reads back what [toFixed(1)] prints: for a finite
    double [x = ±m * 2^e] below [10^21] in magnitude, [x.toFixed(1)] is the
    sign of [x] followed by a decimal literal [u] whose value is exactly
    [n * 10^-1] with [n = fixed1_n m e], written with at least two digits;
    [parseFloat] of the whole string is the double nearest to that
    decimal, with the sign of [x]. *)
Theorem toFixed1_parseFloat (x : float) (s : bool) (m : positive) (e : Z) :
  Prim2SF x = S754_finite s m e -> (1e21 <=? PrimFloat.abs x)%float = false ->
  exists u nd, toFixed1 x = Some ((if s then "-" else "") ++ u)%string /\
    parse_unsigned u = Some (DFinite (fixed1_n m e) nd (-1)) /\ 2 <= nd /\
    parseFloat ((if s then "-" else "") ++ u)%string =
      (if s then - round_decimal (fixed1_n m e) nd (-1)
       else round_decimal (fixed1_n m e) nd (-1))%float.
Proof.
  intros Hx Hb. unfold toFixed1. rewrite Hx, Hb.
  destruct (parse_unsigned_fixed1 (Z.to_N (fixed1_n m e))) as (nd & Hp & Hnd & d & ds & r & Hs).
  rewrite Z2N.id in Hp by apply fixed1_n_nonneg.
  exists (fixed1_string (Z.to_N (fixed1_n m e))), nd.
  split; [reflexivity|]. split; [exact Hp|]. split; [exact Hnd|].
  rewrite Hs in Hp |- *. destruct (parseFloat_digits _ _ _ _ _ _ Hp) as [H1 H2]. by destruct s.
Qed.

(** The calculator's borderline result [24.999999999999996] is shown as
    "25.0", the literal 250 * 10^-1, which reads back as [25]. *)
Lemma toFixed1_parseFloat_witness :
  Prim2SF 24.999999999999996 = S754_finite false 7036874417766399 (-48) /\
  (1e21 <=? PrimFloat.abs 24.999999999999996)%float = false /\
  toFixed1 24.999999999999996 = Some "25.0" /\ parseFloat "25.0" = 25%float /\
  fixed1_n 7036874417766399 (-48) = 250 /\
  exists u nd, toFixed1 24.999999999999996 = Some ("" ++ u)%string /\
    parse_unsigned u = Some (DFinite (fixed1_n 7036874417766399 (-48)) nd (-1)) /\ 2 <= nd /\
    parseFloat ("" ++ u)%string = round_decimal (fixed1_n 7036874417766399 (-48)) nd (-1).
Proof.
  assert (Hx : Prim2SF 24.999999999999996 = S754_finite false 7036874417766399 (-48))
    by (vm_compute; reflexivity).
  assert (Hb : (1e21 <=? PrimFloat.abs 24.999999999999996)%float = false) by (vm_compute; reflexivity).
  split; [exact Hx|]. split; [exact Hb|]. split; [vm_compute; reflexivity|].
  split; [vm_compute; reflexivity|]. split; [reflexivity|].
  exact (toFixed1_parseFloat _ _ _ _ Hx Hb).
Defined.

End JsFormat.
