(* ===== verification/JsToString.v ===== *)
(** * [Number::toString]

    How a page prints a number with [{x}] or ["" + x] (ECMAScript 2024,
    6.1.6.1.20, radix 10): [NaN], [Infinity], [-Infinity], "0" for both
    zeros, "-" before a negative number; for a positive finite [x], the
    integers [n], [k] and [s] with [k] as small as possible, [10^(k-1) <= s
    < 10^k], and [s * 10^(n-k)] rounding to [x] (the closest such [s], the
    even one on a tie), printed as

    - the [k] digits and [n - k] zeros when [k <= n <= 21];
    - the digits with a point after the first [n] when [0 < n <= 21];
    - "0.", [-n] zeros and the digits when [-6 < n <= 0];
    - otherwise the first digit, a point and the other digits if [k > 1],
      then "e", the sign of [n - 1] and [|n - 1|].

    [x = m * 2^e] is the ratio [num / den] of two integers, so the search
    is exact: for each [k] from 1, the two [k]-digit candidates around [x]
    (the floor and the ceiling of [x / 10^(n-k)]) are checked by rounding
    them back with [parseFloat]'s [round_decimal].  Seventeen digits
    always suffice for a double; the search stops there ([None] past it). *)

From S2P Require Import Prelude JsNumber JsString JsFormat.
From stdpp Require Import pretty.
From Stdlib Require Import Floats.

Module JsToString.
Import JsNumber JsString JsFormat.

Local Open Scope Z_scope.

(** The number of decimal digits of a positive integer. *)
Definition ndigits (z : Z) : Z := Z.of_nat (String.length (pretty (Z.to_N z))).

(** [num / den >= 10^n]. *)
Definition ge_pow10 (num den n : Z) : bool :=
  if 0 <=? n then den * 10 ^ n <=? num else den <=? num * 10 ^ (- n).

(** The [n] with [10^(n-1) <= num / den < 10^n]. *)
Definition decimal_exponent (num den : Z) : Z :=
  let n := ndigits num - ndigits den in
  if ge_pow10 num den n then n + 1 else n.

(** [num / den] scaled by [10^-q], as a ratio. *)
Definition scale10 (num den q : Z) : Z * Z :=
  (num * 10 ^ Z.max 0 (- q), den * 10 ^ Z.max 0 q).

(** The [k]-digit candidates for [x = num / den]: [(s, q)] with the value
    [s * 10^q], and their distance to [x] scaled by [10^-q * den]. *)
Definition candidates (num den k : Z) : list (Z * Z * Z) :=
  let q := decimal_exponent num den - k in
  let '(a, b) := scale10 num den q in
  let lo := a / b in
  let hi := if 10 ^ k <=? lo + 1 then (10 ^ (k - 1), q + 1) else (lo + 1, q) in
  [(lo, q, a - lo * b); (fst hi, snd hi, (lo + 1) * b - a)].

#[local] Instance spec_float_eq_dec : EqDecision spec_float.
Proof. solve_decision. Defined.

(** A candidate reads back when it rounds to the value of [x]. *)
Definition reads_back (x : float) (k : Z) (c : Z * Z * Z) : bool :=
  let '(s, q, _) := c in bool_decide (Prim2SF (round_decimal s k q) = Prim2SF x).

(** The closest valid candidate, the even one on a tie. *)
Definition choose (cs : list (Z * Z * Z)) : option (Z * Z) :=
  match cs with
  | [] => None
  | [(s, q, _)] => Some (s, q)
  | (s1, q1, d1) :: (s2, q2, d2) :: _ =>
      if d1 <? d2 then Some (s1, q1) else if d2 <? d1 then Some (s2, q2)
      else if Z.even s1 then Some (s1, q1) else Some (s2, q2)
  end.

(** The least [k] in [k0 .. k0 + fuel - 1] with a candidate reading back. *)
Fixpoint shortest (x : float) (num den : Z) (k0 : Z) (fuel : nat) : option (Z * Z * Z) :=
  match fuel with
  | O => None
  | S fuel' =>
      match choose (filter (fun c => reads_back x k0 c) (candidates num den k0)) with
      | Some (s, q) => Some (s, k0, q + k0)
      | None => shortest x num den (k0 + 1) fuel'
      end
  end.

(** A string of [z] zeros. *)
Definition zeros (z : Z) : string := String.concat "" (repeat "0" (Z.to_nat z)).

(** The layouts of step 5 to 12, for the [k] digits [ds] and the exponent [n]. *)
Definition layout (ds : string) (k n : Z) : string :=
  if (k <=? n) && (n <=? 21) then (ds ++ zeros (n - k))%string
  else if (0 <? n) && (n <=? 21) then
    (str_take (Z.to_nat n) ds ++ "." ++ str_drop (Z.to_nat n) ds)%string
  else if (-6 <? n) && (n <=? 0) then ("0." ++ zeros (- n) ++ ds)%string
  else
    let e := if n - 1 <? 0 then "-"%string else "+"%string in
    let exp := ("e" ++ e ++ int_to_string (Z.abs (n - 1)))%string in
    if k =? 1 then (ds ++ exp)%string
    else (str_take 1 ds ++ "." ++ str_drop 1 ds ++ exp)%string.

Definition number_to_string (x : float) : option string :=
  match Prim2SF x with
  | S754_nan => Some "NaN"
  | S754_infinity false => Some "Infinity"
  | S754_infinity true => Some "-Infinity"
  | S754_zero _ => Some "0"
  | S754_finite sg m e =>
      let num := Zpos m * 2 ^ Z.max 0 e in
      let den := 2 ^ Z.max 0 (- e) in
      match shortest (PrimFloat.abs x) num den 1 17 with
      | Some (s, k, n) =>
          Some ((if sg then "-" else "") ++ layout (int_to_string s) k n)
      | None => None
      end
  end%string.

End JsToString.
