(* ===== verification/Calculators.v ===== *)
(** * The fitness tools (src/src/components/Tools.tsx)

    [Tools] keeps four pieces of state: the BMI form ([bmiData]) and its
    result ([bmiResult]), the goal form ([goalData]) and its plan
    ([goalPlan]).  [calculateBMI] parses the two fields with [parseFloat],
    gives up when either number is falsy, and otherwise stores the BMI with
    its category, description and recommendations; [generateGoalPlan] gives
    up when a field is empty and otherwise stores [plans[goal] ||
    plans["tonificare"]], a lookup on a JavaScript object literal.

    The model computes with binary64 numbers ([JsNumber]) exactly as the
    browser does, models the object lookup with its prototype chain
    ([Object.prototype]'s members are found on every object), and has one
    function per event of the section: typing in a field, choosing in a
    select, clicking one of the two buttons (a click on a disabled button
    does nothing).  The result panel shows the BMI with [toFixed(1)]
    ([JsFormat]). *)

From S2P Require Import Prelude JsNumber JsFormat.
From Stdlib Require Import Floats.

Module Tools.
Import JsNumber JsFormat.

(** ** Data *)

Record BMIResult := {
  bmi : float;
  category : string;
  description : string;
  recommendations : list string;
}.

Record GoalPlan := {
  membership : string;
  classes : list string;
  frequency : string;
  trainer : string;
  duration : string;
}.

Record BmiData := { weight : string; height : string }.

Record GoalData := {
  goal : string;
  currentWeight : string;
  targetWeight : string;
  timeline : string;
}.

(** ** [calculateBMI] *)

(** The [if]/[else if] chain on [bmi]: category, description and the three
    recommendations. *)
Definition bmi_classification (bmi : float) : string * string * list string :=
  if (bmi <? 18.5)%float then
    ("Sottopeso", "Il tuo BMI indica che sei sottopeso",
     ["Considera l'abbonamento TRIMESTRALE con Personal Training";
      "Focus su allenamenti di forza per massa muscolare";
      "Consulta i nostri trainer per un piano nutrizionale"])
  else if (bmi <? 25)%float then
    ("Normopeso", "Il tuo BMI è nella norma, ottimo!",
     ["Abbonamento MENSILE perfetto per mantenere la forma";
      "Varia tra cardio e tonificazione";
      "Prova i nostri corsi di gruppo"])
  else if (bmi <? 30)%float then
    ("Sovrappeso", "Il tuo BMI indica sovrappeso leggero",
     ["Abbonamento TRIMESTRALE con corsi illimitati";
      "Focus su cardio e functional training";
      "Considera il Personal Training per risultati mirati"])
  else
    ("Obesità", "Il tuo BMI indica obesità, iniziamo insieme!",
     ["Abbonamento ANNUALE con 3 sedute PT gratuite";
      "Approccio graduale con supporto professionale";
      "Piano alimentare personalizzato incluso"]).

(** [calculateBMI]: the new value of [bmiResult] from the form and the
    current value ([return] before [setBmiResult] keeps it). *)
Definition calculateBMI (d : BmiData) (prev : option BMIResult) : option BMIResult :=
  let weight := parseFloat (weight d) in
  let height := (parseFloat (height d) / 100)%float in
  if negb (js_truthy_num weight) || negb (js_truthy_num height) then prev
  else
    let bmi := (weight / (height * height))%float in
    let '(category, description, recommendations) := bmi_classification bmi in
    Some {| bmi := bmi; category := category; description := description;
            recommendations := recommendations |}.

Definition getBMIColor (category : string) : string :=
  if decide (category = "Sottopeso") then "text-blue-600"
  else if decide (category = "Normopeso") then "text-accent"
  else if decide (category = "Sovrappeso") then "text-primary"
  else if decide (category = "Obesità") then "text-destructive"
  else "text-muted-foreground".

(** The result panel: the BMI with one decimal, the category in a badge of
    its colour, the description and the recommendations in order; nothing
    while there is no result. *)
Record BMIView := {
  shown_bmi : option string;
  badge_color : string;
  badge : string;
  shown_description : string;
  shown_recommendations : list string;
}.

Definition bmi_view (r : option BMIResult) : option BMIView :=
  (fun r => {| shown_bmi := toFixed1 (bmi r); badge_color := getBMIColor (category r);
               badge := category r; shown_description := description r;
               shown_recommendations := recommendations r |}) <$> r.

(** ** [generateGoalPlan] *)

(** The object literal [plans]; every entry echoes the chosen timeline. *)
Definition plans (timeline : string) : list (string * GoalPlan) := [
  ("perdere-peso", {| membership := "TRIMESTRALE";
                      classes := ["HIIT"; "Spinning"; "Zumba"; "GAG"];
                      frequency := "4-5 volte a settimana";
                      trainer := "Andrea Verdi (Cardio Specialist)";
                      duration := timeline |});
  ("massa-muscolare", {| membership := "ANNUALE";
                         classes := ["Pump"; "CrossFit"; "Functional Training"];
                         frequency := "4-6 volte a settimana";
                         trainer := "Marco Rossi (Bodybuilding Coach)";
                         duration := timeline |});
  ("tonificare", {| membership := "TRIMESTRALE";
                    classes := ["Pilates"; "GAG"; "TRX"; "Yoga"];
                    frequency := "3-4 volte a settimana";
                    trainer := "Laura Bianchi (Functional Coach)";
                    duration := timeline |});
  ("resistenza", {| membership := "MENSILE";
                    classes := ["Spinning"; "HIIT"; "Bootcamp"; "Acquagym"];
                    frequency := "3-5 volte a settimana";
                    trainer := "Andrea Verdi (Cardio Specialist)";
                    duration := timeline |})].

(** The members an object literal inherits from [Object.prototype]. *)
Definition object_prototype_members : list string :=
  ["constructor"; "__defineGetter__"; "__defineSetter__"; "hasOwnProperty";
   "__lookupGetter__"; "__lookupSetter__"; "isPrototypeOf";
   "propertyIsEnumerable"; "toString"; "valueOf"; "__proto__";
   "toLocaleString"].

(** What [plans[key]] evaluates to: an own property, an inherited member
    (a function, or [Object.prototype] itself for [__proto__]), or
    [undefined]. *)
Inductive JsLookup :=
| PlanValue (p : GoalPlan)
| ProtoMember (name : string)
| Undefined.

Fixpoint own_property (props : list (string * GoalPlan)) (key : string) : option GoalPlan :=
  match props with
  | [] => None
  | (k, v) :: props' => if decide (k = key) then Some v else own_property props' key
  end.

Definition js_get (props : list (string * GoalPlan)) (key : string) : JsLookup :=
  match own_property props key with
  | Some p => PlanValue p
  | None => if decide (key ∈ object_prototype_members) then ProtoMember key else Undefined
  end.

(** [a || b] on the two lookups: [undefined] is the only falsy one. *)
Definition js_or (a b : JsLookup) : JsLookup :=
  match a with Undefined => b | _ => a end.

Definition goal_fields_filled (g : GoalData) : bool :=
  js_truthy_str (goal g) && js_truthy_str (currentWeight g) &&
  js_truthy_str (targetWeight g) && js_truthy_str (timeline g).

Definition generateGoalPlan (g : GoalData) (prev : option JsLookup) : option JsLookup :=
  if negb (goal_fields_filled g) then prev
  else
    let ps := plans (timeline g) in
    Some (js_or (js_get ps (goal g)) (js_get ps "tonificare")).

(** The plan panel, rendered when [goalPlan] is truthy: the membership
    badge, the frequency, trainer and duration, the classes as badges and
    the "Inizia Percorso" button.  On an inherited member of
    [Object.prototype] (a function, or the prototype object itself), the
    fields read [undefined] and [goalPlan.classes.map] throws a [TypeError]:
    the render crashes. *)
Inductive Render (A : Type) := Rendered (a : A) | RenderCrash (msg : string).
Arguments Rendered {A} a.
Arguments RenderCrash {A} msg.

Record PlanView := {
  pv_membership : string;
  pv_frequency : string;
  pv_trainer : string;
  pv_duration : string;
  pv_classes : list string;
  pv_button : string;
}.

Definition plan_view (p : option JsLookup) : Render (option PlanView) :=
  match p with
  | None | Some Undefined => Rendered None
  | Some (PlanValue gp) =>
      Rendered (Some {| pv_membership := membership gp; pv_frequency := frequency gp;
                        pv_trainer := trainer gp; pv_duration := duration gp;
                        pv_classes := classes gp; pv_button := "Inizia Percorso" |})
  | Some (ProtoMember _) =>
      RenderCrash "TypeError: Cannot read properties of undefined (reading 'map')"
  end.

(** ** The section's state and events *)

Record ToolsState := {
  bmiData : BmiData;
  bmiResult : option BMIResult;
  goalData : GoalData;
  goalPlan : option JsLookup;
}.

Definition tools0 : ToolsState := {|
  bmiData := {| weight := ""; height := "" |};
  bmiResult := None;
  goalData := {| goal := ""; currentWeight := ""; targetWeight := ""; timeline := "" |};
  goalPlan := None;
|}.

(** The options of the two selects: a [Select] only reports the value of
    one of its items. *)
Inductive GoalOption := PerderePeso | MassaMuscolare | Tonificare | Resistenza.
Inductive TimelineOption := Mesi3 | Mesi6 | Mesi12.

Definition goal_value (o : GoalOption) : string :=
  match o with
  | PerderePeso => "perdere-peso"
  | MassaMuscolare => "massa-muscolare"
  | Tonificare => "tonificare"
  | Resistenza => "resistenza"
  end.

Definition timeline_value (o : TimelineOption) : string :=
  match o with Mesi3 => "3 mesi" | Mesi6 => "6 mesi" | Mesi12 => "12 mesi" end.

Inductive ToolsEvent :=
| InputWeight (s : string)
| InputHeight (s : string)
| ClickCalculateBMI
| SelectGoal (o : GoalOption)
| InputCurrentWeight (s : string)
| InputTargetWeight (s : string)
| SelectTimeline (o : TimelineOption)
| ClickGenerateGoalPlan.

(** [disabled={!bmiData.weight || !bmiData.height}] *)
Definition calculate_disabled (d : BmiData) : bool :=
  negb (js_truthy_str (weight d)) || negb (js_truthy_str (height d)).

Definition set_bmiData (st : ToolsState) (d : BmiData) : ToolsState :=
  {| bmiData := d; bmiResult := bmiResult st; goalData := goalData st; goalPlan := goalPlan st |}.
Definition set_bmiResult (st : ToolsState) (r : option BMIResult) : ToolsState :=
  {| bmiData := bmiData st; bmiResult := r; goalData := goalData st; goalPlan := goalPlan st |}.
Definition set_goalData (st : ToolsState) (g : GoalData) : ToolsState :=
  {| bmiData := bmiData st; bmiResult := bmiResult st; goalData := g; goalPlan := goalPlan st |}.
Definition set_goalPlan (st : ToolsState) (p : option JsLookup) : ToolsState :=
  {| bmiData := bmiData st; bmiResult := bmiResult st; goalData := goalData st; goalPlan := p |}.

Definition step (e : ToolsEvent) (st : ToolsState) : ToolsState :=
  let d := bmiData st in
  let g := goalData st in
  match e with
  | InputWeight s => set_bmiData st {| weight := s; height := height d |}
  | InputHeight s => set_bmiData st {| weight := weight d; height := s |}
  | ClickCalculateBMI =>
      if calculate_disabled d then st
      else set_bmiResult st (calculateBMI d (bmiResult st))
  | SelectGoal o =>
      set_goalData st {| goal := goal_value o; currentWeight := currentWeight g;
                         targetWeight := targetWeight g; timeline := timeline g |}
  | InputCurrentWeight s =>
      set_goalData st {| goal := goal g; currentWeight := s;
                         targetWeight := targetWeight g; timeline := timeline g |}
  | InputTargetWeight s =>
      set_goalData st {| goal := goal g; currentWeight := currentWeight g;
                         targetWeight := s; timeline := timeline g |}
  | SelectTimeline o =>
      set_goalData st {| goal := goal g; currentWeight := currentWeight g;
                         targetWeight := targetWeight g; timeline := timeline_value o |}
  | ClickGenerateGoalPlan =>
      if negb (goal_fields_filled g) then st
      else set_goalPlan st (generateGoalPlan g (goalPlan st))
  end.

(** ** Properties of [calculateBMI] *)


Definition bmi_category (x : float) : string := fst (fst (bmi_classification x)).

(** Below a threshold is below the larger ones. *)
Lemma below_thresholds (x : float) :
  ((x <? 18.5)%float = true -> (x <? 25)%float = true) /\
  ((x <? 25)%float = true -> (x <? 30)%float = true).
Proof. split; intros H; (eapply float_lt_trans; [exact H|]); reflexivity. Qed.

(** C7: the category thresholds, as the code compares binary64 values:
    "Sottopeso" exactly below 18.5, "Normopeso" from 18.5 below 25,
    "Sovrappeso" from 25 below 30, and "Obesità" for every other value,
    NaN included (no comparison with NaN holds). *)
Theorem bmi_category_thresholds (x : float) :
  (bmi_category x = "Sottopeso" <-> (x <? 18.5)%float = true) /\
  (bmi_category x = "Normopeso" <->
     (x <? 18.5)%float = false /\ (x <? 25)%float = true) /\
  (bmi_category x = "Sovrappeso" <->
     (x <? 25)%float = false /\ (x <? 30)%float = true) /\
  (bmi_category x = "Obesità" <-> (x <? 30)%float = false).
Proof.
  destruct (below_thresholds x) as [H12 H23].
  unfold bmi_category, bmi_classification.
  destruct (x <? 18.5)%float eqn:H1, (x <? 25)%float eqn:H2, (x <? 30)%float eqn:H3;
    simpl; try (specialize (H12 eq_refl); discriminate);
    try (specialize (H23 eq_refl); discriminate);
    repeat split; intros; destruct_and?; done.
Qed.



(** C6: [calculateBMI] on both branches.  When the parsed weight or the
    parsed height divided by 100 is falsy (zero or NaN) the previous result
    is kept; otherwise the new result holds [weight / (height * height)]
    computed in binary64, with the category, description and
    recommendations of that value. *)
Theorem calculateBMI_branches (d : BmiData) (prev : option BMIResult) :
  let w := parseFloat (weight d) in
  let h := (parseFloat (height d) / 100)%float in
  if js_truthy_num w && js_truthy_num h then
    exists r, calculateBMI d prev = Some r /\
      bmi r = (w / (h * h))%float /\
      bmi_classification (bmi r) = (category r, description r, recommendations r)
  else calculateBMI d prev = prev.
Proof.
  unfold calculateBMI. cbv zeta.
  destruct (js_truthy_num (parseFloat (weight d))),
           (js_truthy_num (parseFloat (height d) / 100)%float); simpl; try done.
  destruct (bmi_classification _) as [[c ds] rs] eqn:Hc. by eexists.
Qed.

(** ** Properties of [generateGoalPlan] *)

(** Every option of the goal select is an own key of [plans], whose entry
    has the timeline as its duration. *)
Lemma plans_goal_entry (o : GoalOption) (tl : string) :
  exists p, own_property (plans tl) (goal_value o) = Some p /\ duration p = tl.
Proof. destruct o; simpl; by eexists. Qed.

(** C22: for each goal of the select, a filled form yields the entry of
    [plans] for that goal, with the chosen timeline as its duration; the
    weights only have to be non-empty (their values are not used). *)
Theorem generateGoalPlan_select (o : GoalOption) (g : GoalData) (prev : option JsLookup) :
  goal g = goal_value o -> goal_fields_filled g = true ->
  exists p, own_property (plans (timeline g)) (goal_value o) = Some p /\
            generateGoalPlan g prev = Some (PlanValue p) /\ duration p = timeline g.
Proof.
  intros Hg Hf. destruct (plans_goal_entry o (timeline g)) as (p & Hp & Hd).
  exists p. unfold generateGoalPlan. rewrite Hf, Hg. cbn zeta. unfold js_get.
  by rewrite Hp.
Qed.

Lemma generateGoalPlan_select_witness :
  let g := {| goal := "massa-muscolare"; currentWeight := "80"; targetWeight := "85";
              timeline := "6 mesi" |} in
  goal g = goal_value MassaMuscolare /\ goal_fields_filled g = true /\
  exists p, generateGoalPlan g None = Some (PlanValue p) /\
            membership p = "ANNUALE" /\ trainer p = "Marco Rossi (Bodybuilding Coach)".
Proof.
  cbv zeta. split; [reflexivity|]. split; [reflexivity|].
  destruct (generateGoalPlan_select MassaMuscolare
    {| goal := "massa-muscolare"; currentWeight := "80"; targetWeight := "85";
       timeline := "6 mesi" |} None eq_refl eq_refl) as [p [Hp [Hg _]]].
  exists p. split; [exact Hg|]. simpl in Hp. injection Hp as <-. split; reflexivity.
Defined.

(** C23: a filled form whose goal is not a key of [plans] gets the
    "tonificare" entry, unless the key names a member every object inherits
    from [Object.prototype] ("constructor", "toString", "__proto__", ...):
    then [plans[goal]] is that member, which is truthy, and it is stored as
    the plan instead of the fallback. *)
Theorem generateGoalPlan_unknown_key (g : GoalData) (prev : option JsLookup) :
  goal_fields_filled g = true -> own_property (plans (timeline g)) (goal g) = None ->
  generateGoalPlan g prev =
    if decide (goal g ∈ object_prototype_members) then Some (ProtoMember (goal g))
    else generateGoalPlan {| goal := "tonificare"; currentWeight := currentWeight g;
                             targetWeight := targetWeight g; timeline := timeline g |} prev.
Proof.
  intros Hf Hnone.
  assert (Hf' : goal_fields_filled {| goal := "tonificare"; currentWeight := currentWeight g;
                  targetWeight := targetWeight g; timeline := timeline g |} = true).
  { unfold goal_fields_filled in *. simpl.
    destruct (js_truthy_str (goal g)); simpl in *; congruence. }
  unfold generateGoalPlan. rewrite Hf, Hf'. simpl. unfold js_get at 1. rewrite Hnone.
  by case_decide.
Qed.

Lemma generateGoalPlan_unknown_key_witness :
  let g k := {| goal := k; currentWeight := "70"; targetWeight := "65"; timeline := "3 mesi" |} in
  goal_fields_filled (g "nonexistent-key") = true /\
  own_property (plans "3 mesi") "nonexistent-key" = None /\
  option_map (fun l => match l with PlanValue p => membership p | _ => "" end)
    (generateGoalPlan (g "nonexistent-key") None) = Some "TRIMESTRALE" /\
  generateGoalPlan (g "constructor") None = Some (ProtoMember "constructor").
Proof.
  intros g. split; [reflexivity|]. split; [reflexivity|]. split.
  - rewrite (generateGoalPlan_unknown_key (g "nonexistent-key") None eq_refl eq_refl).
    reflexivity.
  - rewrite (generateGoalPlan_unknown_key (g "constructor") None eq_refl eq_refl).
    reflexivity.
Defined.

(** ** The section's invariant *)

Definition plan_entry (p : GoalPlan) : Prop :=
  exists o t, own_property (plans (timeline_value t)) (goal_value o) = Some p.

(** The selects hold one of their options or nothing; a stored BMI result
    carries the category, description and recommendations of its value; a
    stored plan is an entry of [plans] (never an inherited member). *)
Definition tools_wf (st : ToolsState) : Prop :=
  (goal (goalData st) = "" \/ exists o, goal (goalData st) = goal_value o) /\
  (timeline (goalData st) = "" \/ exists t, timeline (goalData st) = timeline_value t) /\
  (forall r, bmiResult st = Some r ->
     bmi_classification (bmi r) = (category r, description r, recommendations r)) /\
  (forall l, goalPlan st = Some l -> exists p, l = PlanValue p /\ plan_entry p).

Lemma calculateBMI_wf d prev :
  (forall r, prev = Some r ->
     bmi_classification (bmi r) = (category r, description r, recommendations r)) ->
  forall r, calculateBMI d prev = Some r ->
     bmi_classification (bmi r) = (category r, description r, recommendations r).
Proof.
  intros Hprev r. unfold calculateBMI.
  destruct (_ || _); [apply Hprev|].
  destruct (bmi_classification _) as [[c ds] rs] eqn:Hc. intros [= <-]. exact Hc.
Qed.

Lemma step_preserves_tools_wf : preserved step tools_wf.
Proof.
  intros e st (Hg & Ht & Hb & Hp).
  destruct e; simpl; try (split; [|split; [|split]]; simpl; by eauto).
  - (* the BMI button *)
    destruct (calculate_disabled _); [done|].
    split; [|split; [|split]]; simpl; eauto using calculateBMI_wf.
  - (* the plan button *)
    destruct (goal_fields_filled (goalData st)) eqn:Hf; simpl; [|done].
    split; [|split; [|split]]; simpl; try done.
    intros l Hl. unfold generateGoalPlan in Hl. rewrite Hf in Hl. cbn zeta in Hl.
    unfold goal_fields_filled in Hf.
    destruct Hg as [Hg|[o Hg]]; [by rewrite Hg in Hf|].
    destruct Ht as [Ht|[t Ht]]; [rewrite Ht, andb_false_r in Hf; discriminate|].
    destruct (plans_goal_entry o (timeline (goalData st))) as (p & Hown & _).
    rewrite Hg in Hl. unfold js_get in Hl. rewrite Hown in Hl. injection Hl as <-.
    exists p. split; [done|]. exists o, t. by rewrite <- Ht.
Qed.

(** C10: in every state the section reaches from its initial state by
    typing, choosing and clicking, the selects hold one of their options or
    nothing, the stored BMI result is consistent with its value, and the
    stored plan is an entry of [plans]: through the UI, the inherited
    members of [Object.prototype] are never looked up. *)
Theorem tools_wf_reachable (st : ToolsState) : tools0 ⟶[step]* st -> tools_wf st.
Proof.
  apply reach_preserves; [exact step_preserves_tools_wf|].
  split; [by left|split; [by left|split; done]].
Qed.

Lemma tools_wf_reachable_witness :
  let evs := [InputWeight "64"; InputHeight "160"; ClickCalculateBMI;
              SelectGoal Resistenza; InputCurrentWeight "64"; InputTargetWeight "60";
              SelectTimeline Mesi12; ClickGenerateGoalPlan] in
  tools0 ⟶[step]* run step evs tools0 /\ tools_wf (run step evs tools0).
Proof.
  intros evs. assert (H : tools0 ⟶[step]* run step evs tools0)
    by (apply reach_run_iff; eexists; reflexivity).
  split; [exact H|]. exact (tools_wf_reachable _ H).
Defined.

(** ** The spec's examples, computed in binary64 *)

Definition bmi_of (w h : string) : option (float * string) :=
  option_map (fun r => (bmi r, category r))
    (calculateBMI {| weight := w; height := h |} None).

(** The examples of the spec: 70 kg at 175 cm is "Normopeso", 50 kg at
    180 cm "Sottopeso", 90 kg at 160 cm "Obesità"; the boundaries 18.5, 25
    and 30 fall in the upper category; an empty or non-numeric field and a
    zero weight produce no result. *)
Example bmi_spec_examples :
  option_map snd (bmi_of "70" "175") = Some "Normopeso" /\
  option_map snd (bmi_of "50" "180") = Some "Sottopeso" /\
  option_map snd (bmi_of "90" "160") = Some "Obesità" /\
  bmi_category 18.5 = "Normopeso" /\ bmi_category 25 = "Sovrappeso" /\
  bmi_category 30 = "Obesità" /\
  bmi_of "" "175" = None /\ bmi_of "abc" "175" = None /\ bmi_of "0" "175" = None.
Proof. vm_compute. repeat split. Qed.

(** What binary64 arithmetic and [parseFloat] make of some inputs: 64 kg
    at 160 cm is mathematically a BMI of exactly 25 but computes to
    24.999999999999996, "Normopeso", and the panel shows it as "25.0" beside
    the "Normopeso" badge, although a BMI of 25.0 is "Sovrappeso"; a
    negative weight is accepted and classified "Sottopeso"; two huge inputs
    give a NaN BMI, shown as "NaN" and classified "Obesità". *)
Example bmi_binary64_cases :
  bmi_of "64" "160" = Some (24.999999999999996%float, "Normopeso") /\
  option_map (fun v => (shown_bmi v, badge v))
    (bmi_view (calculateBMI {| weight := "64"; height := "160" |} None)) =
    Some (Some "25.0", "Normopeso") /\ bmi_category (parseFloat "25.0") = "Sovrappeso" /\
  option_map shown_bmi (bmi_view (calculateBMI {| weight := "1e400"; height := "1e400" |} None)) =
    Some (Some "NaN") /\
  option_map snd (bmi_of "-70" "175") = Some "Sottopeso" /\
  option_map snd (bmi_of "1e400" "1e400") = Some "Obesità" /\
  option_map (fun p => js_truthy_num (fst p)) (bmi_of "1e400" "1e400") = Some false.
Proof. vm_compute. repeat split. Qed.

End Tools.
