(* ===== verification/Wizard.v ===== *)
(** * The multi-step wizard: abstract machine and refinement interface

    The two modal forms of the site (the free-trial signup and the
    membership checkout) are instances of one pattern: an overlay that can
    be open or closed, a current step [1..N], a draft record, a guarded
    [advance], a [retreat], edits of the draft, a dismissal and a
    completion from the last step, both of which close the overlay and
    reset the draft, so that reopening always starts fresh.

    This file states that pattern as an abstract machine ([wiz_step] on
    [WizState]) with its invariant ([wiz_inv]: the step stays in [1..N] and
    a closed wizard holds step 1 and the empty draft), and the interface a
    concrete component implements to be a wizard: the type class
    [WizardRefinement], whose law [wr_simulation] says that each concrete
    event moves the abstraction of the state by one abstract transition.
    The theorems proved against the interface ([wr_run_refines],
    [wr_reach_inv]) transfer the abstract invariant to every reachable
    state of any implementation. *)

From S2P Require Import Prelude.

Module Wizard.

Section Machine.
Context {D : Type}.
Variable N : nat.
Variable valid : nat -> D -> bool.
Variable empty : D.

Record WizState := {
  wopen : bool;
  widx : nat;
  wdraft : D;
}.

Inductive WizLabel :=
| WOpen
| WAdvance
| WRetreat
| WEdit (d : D)
| WDismiss
| WComplete
| WStay.

Definition wiz_fresh : WizState := {| wopen := false; widx := 1; wdraft := empty |}.

Definition wiz_step (l : WizLabel) (w : WizState) : WizState :=
  match l with
  | WOpen => {| wopen := true; widx := widx w; wdraft := wdraft w |}
  | WAdvance =>
      if wopen w && (widx w <? N) && valid (widx w) (wdraft w)
      then {| wopen := true; widx := S (widx w); wdraft := wdraft w |}
      else w
  | WRetreat =>
      if wopen w && (1 <? widx w)
      then {| wopen := true; widx := pred (widx w); wdraft := wdraft w |}
      else w
  | WEdit d => if wopen w then {| wopen := true; widx := widx w; wdraft := d |} else w
  | WDismiss => wiz_fresh
  | WComplete => if wopen w && (widx w =? N) then wiz_fresh else w
  | WStay => w
  end.

(** The invariant of the abstract wizard. *)
Definition wiz_inv (w : WizState) : Prop :=
  1 <= widx w <= N /\ (wopen w = false -> widx w = 1 /\ wdraft w = empty).

Hypothesis N_pos : 1 <= N.

Lemma wiz_fresh_inv : wiz_inv wiz_fresh.
Proof using N_pos. unfold wiz_inv; simpl. split; [lia|done]. Qed.

Lemma wiz_step_inv : preserved wiz_step wiz_inv.
Proof using N_pos.
  intros l w [Hb Hc].
  assert (Hkeep : wiz_inv w) by (split; assumption).
  destruct l; simpl.
  - split; simpl; [lia|congruence].
  - destruct (wopen w && (widx w <? N) && valid (widx w) (wdraft w)) eqn:G; [|exact Hkeep].
    apply andb_true_iff in G as [G _]. apply andb_true_iff in G as [_ G].
    apply Nat.ltb_lt in G. split; simpl; [lia|congruence].
  - destruct (wopen w && (1 <? widx w)) eqn:G; [|exact Hkeep].
    apply andb_true_iff in G as [_ G]. apply Nat.ltb_lt in G.
    split; simpl; [lia|congruence].
  - destruct (wopen w); [split; simpl; [lia|congruence]|exact Hkeep].
  - apply wiz_fresh_inv.
  - destruct (_ && _); [apply wiz_fresh_inv|exact Hkeep].
  - exact Hkeep.
Qed.

End Machine.

Arguments WizState : clear implicits.
Arguments WizLabel : clear implicits.

(** ** The interface of a concrete wizard *)

Class WizardRefinement (S E D : Type) := {
  wr_N : nat;
  wr_N_pos : 1 <= wr_N;
  wr_valid : nat -> D -> bool;
  wr_empty : D;
  wr_handle : E -> S -> S;
  wr_abs : S -> WizState D;
  wr_label : E -> S -> WizLabel D;
  wr_simulation : forall e s,
    wr_abs (wr_handle e s) = wiz_step wr_N wr_valid wr_empty (wr_label e s) (wr_abs s);
}.

Section Refinement.
Context {S E D : Type} `{WizardRefinement S E D}.

(** The abstract labels of a run of concrete events. *)
Fixpoint wr_trace (evs : list E) (s : S) : list (WizLabel D) :=
  match evs with
  | [] => []
  | e :: evs' => wr_label e s :: wr_trace evs' (wr_handle e s)
  end.

Lemma wr_run_refines evs s :
  wr_abs (run wr_handle evs s) =
  run (wiz_step wr_N wr_valid wr_empty) (wr_trace evs s) (wr_abs s).
Proof.
  revert s; induction evs as [|e evs IH]; intros s; simpl; [done|].
  by rewrite IH, wr_simulation.
Qed.

Lemma wr_reach_inv s0 s :
  wiz_inv wr_N wr_empty (wr_abs s0) -> s0 ⟶[wr_handle]* s ->
  wiz_inv wr_N wr_empty (wr_abs s).
Proof.
  intros H0 Hr. apply reach_run_iff in Hr as [evs <-].
  rewrite wr_run_refines. apply run_preserves; [|done].
  apply wiz_step_inv, wr_N_pos.
Qed.

End Refinement.

End Wizard.
