(* ===== verification/FreeTrial.v ===== *)
(** * The free-trial signup (src/src/components/FreeTrialModal.tsx)

    [FreeTrialModal] keeps the current [step] (1: the form, 2: the success
    page) and the [formData] of the form; whether the dialog is open is the
    state [isTrialModalOpen] of the page (src/src/pages/Index.tsx), set by
    the header's and the hero's "free trial" buttons ([onOpenFreeTrial]) and
    cleared by [onClose].  The model keeps the three together, with the
    alerts the component raises, and has one function per handler
    ([resetForm], [handleSubmit], [handleClose], [downloadVoucher]) and one
    event per control of the dialog, guarded as the markup guards it: the
    form's controls exist only on step 1, the success buttons only on step
    2, the submit button is disabled unless [isFormValid], and the calendar
    disables every day before the current instant.

    The instance [trial_wizard] shows that the modal implements the
    abstract wizard of Wizard.v; the invariant of the abstract wizard then
    holds of every reachable state: a closed dialog always holds step 1 and
    the empty form. *)

From S2P Require Import Prelude Wizard.

Module FreeTrial.
Import Wizard.

(** ** Data *)

(** [startDate : Date | undefined], a [Date] being its time value in
    milliseconds. *)
Record FormData := {
  firstName : string;
  lastName : string;
  email : string;
  phone : string;
  startDate : option Z;
  goal : string;
  source : string;
  privacy : bool;
}.

Definition emptyForm : FormData := {|
  firstName := ""; lastName := ""; email := ""; phone := "";
  startDate := None; goal := ""; source := ""; privacy := false |}.

Record TrialState := {
  isTrialModalOpen : bool;
  step : nat;
  formData : FormData;
  alerts : list string;
}.

Definition trial0 : TrialState := {|
  isTrialModalOpen := false; step := 1; formData := emptyForm; alerts := [] |}.

(** ** Handlers *)

Definition resetForm (st : TrialState) : TrialState :=
  {| isTrialModalOpen := isTrialModalOpen st; step := 1; formData := emptyForm;
     alerts := alerts st |}.

Definition handleSubmit (st : TrialState) : TrialState :=
  {| isTrialModalOpen := isTrialModalOpen st; step := 2; formData := formData st;
     alerts := alerts st |}.

(** [onClose], the page's [() => setIsTrialModalOpen(false)]. *)
Definition onClose (st : TrialState) : TrialState :=
  {| isTrialModalOpen := false; step := step st; formData := formData st;
     alerts := alerts st |}.

(** [onOpenFreeTrial], the page's [() => setIsTrialModalOpen(true)]. *)
Definition onOpenFreeTrial (st : TrialState) : TrialState :=
  {| isTrialModalOpen := true; step := step st; formData := formData st;
     alerts := alerts st |}.

Definition handleClose (st : TrialState) : TrialState := onClose (resetForm st).

Definition voucher_alert : string :=
  "Voucher scaricato! Presentalo alla reception per iniziare la tua prova gratuita.".

Definition downloadVoucher (st : TrialState) : TrialState :=
  handleClose {| isTrialModalOpen := isTrialModalOpen st; step := step st;
                 formData := formData st; alerts := alerts st ++ [voucher_alert] |}.

Definition isFormValid (f : FormData) : bool :=
  js_truthy_str (firstName f) && js_truthy_str (lastName f) &&
  js_truthy_str (email f) && js_truthy_str (phone f) &&
  bool_decide (is_Some (startDate f)) && js_truthy_str (goal f) &&
  js_truthy_str (source f) && privacy f.

(** The calendar's [disabled={(date) => date < new Date()}]. *)
Definition date_disabled (date now : Z) : bool := (date <? now)%Z.

(** ** Events *)

Inductive TrialGoal := PerderePeso | MassaMuscolare | Tonificare | Resistenza | Salute | Stress.
Inductive TrialSource := Google | Facebook | Instagram | Amici | Passaggio | Altro.

Definition trial_goal_value (o : TrialGoal) : string :=
  match o with
  | PerderePeso => "perdere-peso" | MassaMuscolare => "massa-muscolare"
  | Tonificare => "tonificare" | Resistenza => "resistenza"
  | Salute => "salute" | Stress => "stress"
  end.

Definition source_value (o : TrialSource) : string :=
  match o with
  | Google => "google" | Facebook => "facebook" | Instagram => "instagram"
  | Amici => "amici" | Passaggio => "passaggio" | Altro => "altro"
  end.

Inductive TrialEvent :=
| OpenFreeTrial                          (** the header's or the hero's button *)
| InputFirstName (s : string)
| InputLastName (s : string)
| InputEmail (s : string)
| InputPhone (s : string)
| CalendarSelect (date : option Z) (now : Z)
| SelectGoal (o : TrialGoal)
| SelectSource (o : TrialSource)
| CheckPrivacy (checked : bool)
| ClickSubmit                            (** "Attiva Prova Gratuita" *)
| ClickDownloadVoucher                   (** "Scarica Voucher" *)
| ClickChiudi                            (** "Chiudi" *)
| DismissDialog.                         (** escape, overlay click or close icon *)

(** The new form of a form event, [None] for the other events. *)
Definition form_edit (e : TrialEvent) (f : FormData) : option FormData :=
  let mk fn ln em ph sd g so pr :=
    {| firstName := fn; lastName := ln; email := em; phone := ph;
       startDate := sd; goal := g; source := so; privacy := pr |} in
  match e with
  | InputFirstName s => Some (mk s (lastName f) (email f) (phone f) (startDate f) (goal f) (source f) (privacy f))
  | InputLastName s => Some (mk (firstName f) s (email f) (phone f) (startDate f) (goal f) (source f) (privacy f))
  | InputEmail s => Some (mk (firstName f) (lastName f) s (phone f) (startDate f) (goal f) (source f) (privacy f))
  | InputPhone s => Some (mk (firstName f) (lastName f) (email f) s (startDate f) (goal f) (source f) (privacy f))
  | CalendarSelect date now =>
      match date with
      | Some d => if date_disabled d now then None
                  else Some (mk (firstName f) (lastName f) (email f) (phone f) (Some d) (goal f) (source f) (privacy f))
      | None => Some (mk (firstName f) (lastName f) (email f) (phone f) None (goal f) (source f) (privacy f))
      end
  | SelectGoal o => Some (mk (firstName f) (lastName f) (email f) (phone f) (startDate f) (trial_goal_value o) (source f) (privacy f))
  | SelectSource o => Some (mk (firstName f) (lastName f) (email f) (phone f) (startDate f) (goal f) (source_value o) (privacy f))
  | CheckPrivacy b => Some (mk (firstName f) (lastName f) (email f) (phone f) (startDate f) (goal f) (source f) b)
  | _ => None
  end.

Definition set_formData (st : TrialState) (f : FormData) : TrialState :=
  {| isTrialModalOpen := isTrialModalOpen st; step := step st; formData := f;
     alerts := alerts st |}.

Definition on_form_step (st : TrialState) : bool :=
  isTrialModalOpen st && (step st =? 1).

Definition on_success_step (st : TrialState) : bool :=
  isTrialModalOpen st && negb (step st =? 1).

Definition handle (e : TrialEvent) (st : TrialState) : TrialState :=
  match e with
  | OpenFreeTrial => onOpenFreeTrial st
  | ClickSubmit =>
      if on_form_step st && isFormValid (formData st) then handleSubmit st else st
  | ClickDownloadVoucher => if on_success_step st then downloadVoucher st else st
  | ClickChiudi => if on_success_step st then handleClose st else st
  | DismissDialog => if isTrialModalOpen st then handleClose st else st
  | _ =>
      if on_form_step st then
        match form_edit e (formData st) with
        | Some f => set_formData st f
        | None => st
        end
      else st
  end.

(** ** The success page

    Rendered when the dialog is open on step 2: the title, the four
    benefits, the start date as [formData.startDate && format(...)] (an
    absent date renders nothing), and the two buttons.  Formatting a date
    ([date-fns]'s [format] with the Italian locale) is outside the program;
    the view takes it as a parameter. *)

Record SuccessView := {
  sv_title : string;
  sv_benefits : list string;
  sv_date : string;
  sv_buttons : list string;
}.

Section SuccessPage.
Variable format_date : Z -> string.

Definition success_view (st : TrialState) : option SuccessView :=
  if on_success_step st then
    Some {| sv_title := "🎉 Prova Gratuita Attivata!";
            sv_benefits := ["Sala pesi illimitata"; "3 corsi a scelta";
                            "Valutazione gratuita con PT"; "Tour guidato struttura"];
            sv_date := match startDate (formData st) with
                       | Some d => format_date d
                       | None => ""
                       end;
            sv_buttons := ["Scarica Voucher"; "Chiudi"] |}
  else None.

End SuccessPage.

(** ** The modal is a wizard of two steps *)

Definition trial_abs (st : TrialState) : WizState FormData :=
  {| wopen := isTrialModalOpen st; widx := step st; wdraft := formData st |}.

Definition trial_valid (_ : nat) (f : FormData) : bool := isFormValid f.

(** The abstract transition each event performs. *)
Definition trial_label (e : TrialEvent) (st : TrialState) : WizLabel FormData :=
  match e with
  | OpenFreeTrial => WOpen
  | ClickSubmit => if on_form_step st && isFormValid (formData st) then WAdvance else WStay
  | ClickDownloadVoucher =>
      if on_success_step st then (if step st =? 2 then WComplete else WDismiss) else WStay
  | ClickChiudi => if on_success_step st then WDismiss else WStay
  | DismissDialog => if isTrialModalOpen st then WDismiss else WStay
  | _ =>
      if on_form_step st then
        match form_edit e (formData st) with Some f => WEdit f | None => WStay end
      else WStay
  end.

Lemma trial_simulation e st :
  trial_abs (handle e st) = wiz_step 2 trial_valid emptyForm (trial_label e st) (trial_abs st).
Proof.
  unfold handle, trial_label, on_form_step, on_success_step, trial_abs,
    onOpenFreeTrial, set_formData, handleSubmit, downloadVoucher, handleClose,
    resetForm, onClose, trial_valid.
  destruct (isTrialModalOpen st) eqn:Ho, (step st =? 1) eqn:H1, (step st =? 2) eqn:H2;
    try (apply Nat.eqb_eq in H1; rewrite H1; rewrite H1 in H2);
    destruct (isFormValid (formData st)) eqn:Hv;
    destruct e; simpl; rewrite ?Ho, ?H2, ?Hv; simpl;
    repeat match goal with
    | |- context [match form_edit ?e ?f with _ => _ end] => destruct (form_edit e f)
    | |- context [if date_disabled ?d ?n then _ else _] => destruct (date_disabled d n)
    | |- context [match ?o with Some _ => _ | None => _ end] => destruct o
    end; simpl; rewrite ?Ho, ?H2, ?Hv; try reflexivity; by rewrite H1.
Qed.

#[export] Instance trial_wizard : WizardRefinement TrialState TrialEvent FormData := {|
  wr_N := 2;
  wr_N_pos := ltac:(lia);
  wr_valid := trial_valid;
  wr_empty := emptyForm;
  wr_handle := handle;
  wr_abs := trial_abs;
  wr_label := trial_label;
  wr_simulation := trial_simulation;
|}.

(** ** Properties *)

(** C2: every run of events of the modal is mapped by
    [trial_abs] onto a run of the abstract two-step wizard, the run of the
    abstract transitions the events perform. *)
Theorem trial_run_refines (evs : list TrialEvent) (st : TrialState) :
  trial_abs (run handle evs st) =
  run (wiz_step 2 trial_valid emptyForm) (wr_trace evs st) (trial_abs st).
Proof. exact (wr_run_refines evs st). Qed.

(** C1: in every state reachable from the page's first render,
    the step is 1 or 2, and whenever the dialog is closed the modal holds
    step 1 and the empty form: every way of closing it resets it, so that
    reopening always starts fresh. *)
Theorem trial_closed_is_fresh (st : TrialState) :
  trial0 ⟶[handle]* st ->
  1 <= step st <= 2 /\ (isTrialModalOpen st = false -> step st = 1 /\ formData st = emptyForm).
Proof.
  intros Hr. change (wiz_inv 2 emptyForm (trial_abs st)).
  apply (@wr_reach_inv _ _ _ trial_wizard trial0 st); [|exact Hr].
  split; [simpl; lia|done].
Qed.

Lemma trial_closed_is_fresh_witness :
  let evs := [OpenFreeTrial; InputFirstName "Mario"; CheckPrivacy true; DismissDialog] in
  trial0 ⟶[handle]* run handle evs trial0 /\
  isTrialModalOpen (run handle evs trial0) = false /\
  formData (run handle evs trial0) = emptyForm.
Proof.
  intros evs. assert (H : trial0 ⟶[handle]* run handle evs trial0)
    by (apply reach_run_iff; eexists; reflexivity).
  split; [exact H|]. split; [reflexivity|].
  exact (proj2 (proj2 (trial_closed_is_fresh _ H) eq_refl)).
Defined.

(** C21: the modal reaches its success page only by the submit
    button, from the open form, with every field filled, a start date
    chosen and the privacy box checked. *)
Theorem trial_success_requires_valid_form (e : TrialEvent) (st : TrialState) :
  step st = 1 -> step (handle e st) = 2 ->
  e = ClickSubmit /\ isTrialModalOpen st = true /\ isFormValid (formData st) = true.
Proof.
  intros H1 H2. destruct e; simpl in *;
    unfold on_form_step, on_success_step in *; rewrite ?H1 in *; simpl in *;
    repeat match goal with
    | H : context [if ?b then _ else _] |- _ => destruct b eqn:?
    | H : context [match ?o with Some _ => _ | None => _ end] |- _ => destruct o
    end; simpl in *; try congruence; rewrite ?H1 in H2; try discriminate.
  match goal with H : _ && true && _ = true |- _ =>
    rewrite andb_true_r in H; apply andb_true_iff in H as [Ho Hv] end.
  auto.
Qed.

Lemma trial_success_requires_valid_form_witness :
  let st := run handle [OpenFreeTrial] trial0 in
  step st = 1 /\ step (handle ClickSubmit st) = 1.
Proof.
  intros st. split; [reflexivity|].
  destruct (step (handle ClickSubmit st)) as [|[|[|n]]] eqn:E; try reflexivity.
  - discriminate E.
  - exfalso. destruct (trial_success_requires_valid_form ClickSubmit st eq_refl E)
      as (_ & _ & Hv). discriminate Hv.
  - discriminate E.
Defined.

(** Past the form, the form is valid: it is submitted only valid, and it
    cannot be edited on the success page. *)
Definition past_form_valid (st : TrialState) : Prop :=
  step st <> 1 -> isFormValid (formData st) = true.

Lemma step_preserves_past_form_valid : preserved handle past_form_valid.
Proof.
  intros e st Hi. unfold past_form_valid in *.
  assert (H1 : on_form_step st = true -> step st = 1)
    by (unfold on_form_step; rewrite andb_true_iff, Nat.eqb_eq; naive_solver).
  destruct e; simpl; pg_simp; intros Hn;
    first [done | exfalso; apply Hn; by apply H1 | by apply Hi
          | match goal with H : _ && isFormValid _ = true |- _ => by apply andb_true_iff in H as [_ ?] end].
Qed.

(** C16: the success page always shows the chosen start date: in every
    reachable state where it is rendered, the form holds a start date and
    the page shows that date formatted, never the empty string that
    [formData.startDate && ...] gives without one. *)
Theorem success_view_shows_date (format_date : Z -> string) (st : TrialState) (v : SuccessView) :
  trial0 ⟶[handle]* st -> success_view format_date st = Some v ->
  exists d, startDate (formData st) = Some d /\ sv_date v = format_date d.
Proof.
  intros Hr Hv.
  pose proof (reach_preserves handle past_form_valid trial0 st
                step_preserves_past_form_valid ltac:(unfold past_form_valid; simpl; congruence) Hr) as Hi.
  unfold success_view, on_success_step in Hv.
  destruct (isTrialModalOpen st), (Nat.eqb_spec (step st) 1) as [|Hs]; try done.
  injection Hv as <-. specialize (Hi Hs). unfold isFormValid in Hi.
  rewrite !andb_true_iff, bool_decide_eq_true in Hi.
  destruct Hi as [[[[_ [d Hd]] _] _] _]. exists d. by rewrite Hd.
Qed.

Lemma success_view_shows_date_witness :
  let fmt d := if (d =? 1762819200000)%Z then "martedì 11 novembre 2025" else "" in
  let st := run handle [OpenFreeTrial; InputFirstName "Mario"; InputLastName "Rossi";
              InputEmail "m@r.it"; InputPhone "1"; CalendarSelect (Some 1762819200000%Z) 1762675200000%Z;
              SelectGoal Tonificare; SelectSource Amici; CheckPrivacy true; ClickSubmit] trial0 in
  trial0 ⟶[handle]* st /\
  option_map sv_date (success_view fmt st) = Some "martedì 11 novembre 2025" /\
  exists v, success_view fmt st = Some v /\
    exists d, startDate (formData st) = Some d /\ sv_date v = fmt d.
Proof.
  intros fmt st. assert (Hr : trial0 ⟶[handle]* st) by (apply reach_run_iff; eexists; reflexivity).
  split; [exact Hr|]. split; [vm_compute; reflexivity|].
  eexists. split; [reflexivity|]. exact (success_view_shows_date fmt st _ Hr eq_refl).
Defined.

(** C12: a free trial can always be obtained: from any state of the modal,
    closing it, opening it, filling every field with a start date the
    calendar allows, submitting and downloading the voucher raise the
    voucher alert and leave the modal closed and reset. *)
Theorem trial_voucher_live (st : TrialState) :
  exists evs, let st' := run handle evs st in
    isTrialModalOpen st' = false /\ step st' = 1 /\ formData st' = emptyForm /\
    alerts st' = alerts st ++ [voucher_alert].
Proof.
  exists [DismissDialog; OpenFreeTrial; InputFirstName "Mario"; InputLastName "Rossi";
          InputEmail "m@r.it"; InputPhone "1"; CalendarSelect (Some 1%Z) 0%Z;
          SelectGoal Tonificare; SelectSource Amici; CheckPrivacy true; ClickSubmit;
          ClickDownloadVoucher].
  destruct st as [[|] [|[|n]] f a]; vm_compute; repeat split.
Qed.

(** On the success page, "Scarica Voucher" raises the
    voucher alert, closes the dialog and resets the modal. *)
Theorem trial_download_voucher (st : TrialState) :
  on_success_step st = true ->
  handle ClickDownloadVoucher st =
  {| isTrialModalOpen := false; step := 1; formData := emptyForm;
     alerts := alerts st ++ [voucher_alert] |}.
Proof. intros H. simpl. by rewrite H. Qed.

Lemma trial_download_voucher_witness :
  let st := {| isTrialModalOpen := true; step := 2; formData := emptyForm; alerts := [] |} in
  on_success_step st = true /\
  alerts (handle ClickDownloadVoucher st) = [voucher_alert].
Proof.
  intros st. split; [reflexivity|]. by rewrite (trial_download_voucher st eq_refl).
Defined.

(** C27: the calendar disables every day whose time value is before
    the current instant.  A day's time value is its midnight, so the
    current day is disabled as soon as the day has begun: the earliest
    start date that can be chosen is tomorrow. *)
Theorem trial_today_not_selectable (now : Z) (st : TrialState) :
  (0 < now mod 86400000)%Z ->
  handle (CalendarSelect (Some (now - now mod 86400000)%Z) now) st = st.
Proof.
  intros Hpos. simpl. unfold date_disabled.
  replace ((now - now mod 86400000 <? now)%Z) with true by (symmetry; apply Z.ltb_lt; lia).
  by destruct (on_form_step st).
Qed.

Lemma trial_today_not_selectable_witness :
  let now := (1762675200000 + 36000000)%Z in
  let st := run handle [OpenFreeTrial] trial0 in
  (0 < now mod 86400000)%Z /\
  startDate (formData (handle (CalendarSelect (Some (now - now mod 86400000)%Z) now) st)) = None.
Proof.
  intros now st. split; [reflexivity|].
  rewrite (trial_today_not_selectable now st); reflexivity.
Defined.

End FreeTrial.
