(* ===== verification/Checkout.v ===== *)
(** * The memberships and their checkout (src/src/components/Memberships.tsx)

    [Memberships] shows the catalog [memberships] and keeps the checkout
    dialog's state: the [selectedMembership] (the dialog is open exactly
    when it is set), the [checkoutStep] (1: confirm, 2: personal data, 3:
    payment, 4: summary) and the [formData].  The model keeps the three with
    the alerts raised, one function per handler ([handlePurchase],
    [handleNextStep], [handlePrevStep], [completePurchase], the dialog's
    [onOpenChange]) and one event per control, guarded as the markup guards
    it: each step's controls exist only on that step, the "Continua" buttons
    of steps 2 and 3 are disabled until their fields are filled, and the
    catalog's "Acquista" buttons are behind the modal dialog while it is
    open.

    The theorems: the step stays in [1..4] and the summary is only reached
    with the data filled (an invariant of every reachable state), the
    guards of "Continua", the completion, and, against the abstract wizard
    of Wizard.v, a reachable state that no wizard may reach: dismissing the
    dialog keeps the step and the draft, so that the next purchase starts
    with the previous customer's data. *)

From S2P Require Import Prelude Wizard JsFormat.

Module Checkout.
Import Wizard JsFormat.

(** ** The catalog *)

(** [popular?] and [premium?] are optional booleans: an absent one reads as
    [undefined], falsy wherever the component tests it, hence [false]. *)
Record Membership := {
  id : string;
  title : string;
  price : Z;
  period : string;
  originalPrice : option Z;
  features : list string;
  popular : bool;
  premium : bool;
  description : string;
}.

Definition monthly : Membership := {|
  id := "monthly"; title := "MENSILE"; price := 49; period := "mese";
  originalPrice := None;
  features := ["Accesso illimitato sala pesi"; "10 corsi inclusi/mese";
               "Spogliatoi e docce"; "WiFi gratuito"; "Consulenza iniziale"];
  popular := false; premium := false;
  description := "Perfetto per iniziare il tuo percorso fitness" |}.

Definition quarterly : Membership := {|
  id := "quarterly"; title := "TRIMESTRALE"; price := 43; period := "mese";
  originalPrice := Some 49%Z;
  features := ["Tutto del mensile"; "Corsi illimitati"; "1 seduta PT gratuita";
               "Sconto 10% bar interno"; "App mobile inclusa";
               "Programma nutrizionale base"];
  popular := true; premium := false;
  description := "Il nostro piano più scelto dai membri" |}.

Definition annual : Membership := {|
  id := "annual"; title := "ANNUALE"; price := 33; period := "mese";
  originalPrice := Some 49%Z;
  features := ["Tutto del trimestrale"; "3 sedute PT gratuite"; "Accesso piscina";
               "Porta un amico gratis"; "Borsa PowerGym omaggio";
               "Area wellness (sauna/bagno turco)"; "Valutazione corporea mensile"];
  popular := false; premium := true;
  description := "Massimo valore per i membri più dedicati" |}.

Definition memberships : list Membership := [monthly; quarterly; annual].

(** The cards of [memberships.map], one per entry. *)
Inductive MembershipCard := MonthlyCard | QuarterlyCard | AnnualCard.

Definition card_membership (k : MembershipCard) : Membership :=
  match k with MonthlyCard => monthly | QuarterlyCard => quarterly | AnnualCard => annual end.

Inductive CardIcon := Crown | Star | Gift.

Definition getCardIcon (m : Membership) : CardIcon :=
  if premium m then Crown else if popular m then Star else Gift.

(** The badge of a card: "PIÙ POPOLARE" for a popular one, "RISPARMIO 20%"
    for a premium one (both when both are set). *)
Definition card_badges (m : Membership) : list string :=
  (if popular m then ["PIÙ POPOLARE"] else []) ++
  (if premium m then ["RISPARMIO 20%"] else []).

(** A card of the catalog as rendered: its badges, icon, title and
    description, the price as [€{price}] and [/{period}], the struck-through
    [€{originalPrice}] when there is one, the features in order, and the
    "Acquista" button, which calls [handlePurchase] with the card's
    membership. *)
Record CardView := {
  cv_badges : list string;
  cv_icon : CardIcon;
  cv_title : string;
  cv_description : string;
  cv_price : string;
  cv_period : string;
  cv_strike : option string;
  cv_features : list string;
  cv_cta : string * Membership;
}.

Definition card_view (m : Membership) : CardView := {|
  cv_badges := card_badges m; cv_icon := getCardIcon m; cv_title := title m;
  cv_description := description m; cv_price := ("€" ++ int_to_string (price m))%string;
  cv_period := ("/" ++ period m)%string;
  cv_strike := (fun p => "€" ++ int_to_string p)%string <$> originalPrice m;
  cv_features := features m; cv_cta := ("Acquista", m) |}.

Definition catalog_view : list CardView := map card_view memberships.

(** ** The checkout's state *)

Record FormData := {
  firstName : string;
  lastName : string;
  email : string;
  phone : string;
  paymentMethod : string;
}.

Definition emptyForm : FormData := {|
  firstName := ""; lastName := ""; email := ""; phone := ""; paymentMethod := "" |}.

Record CheckoutState := {
  selectedMembership : option Membership;
  checkoutStep : nat;
  formData : FormData;
  alerts : list string;
}.

Definition checkout0 : CheckoutState := {|
  selectedMembership := None; checkoutStep := 1; formData := emptyForm; alerts := [] |}.

(** ** Handlers *)

Definition handlePurchase (m : Membership) (st : CheckoutState) : CheckoutState :=
  {| selectedMembership := Some m; checkoutStep := 1; formData := formData st;
     alerts := alerts st |}.

Definition set_step (st : CheckoutState) (n : nat) : CheckoutState :=
  {| selectedMembership := selectedMembership st; checkoutStep := n;
     formData := formData st; alerts := alerts st |}.

Definition handleNextStep (st : CheckoutState) : CheckoutState :=
  if checkoutStep st <? 4 then set_step st (S (checkoutStep st)) else st.

Definition handlePrevStep (st : CheckoutState) : CheckoutState :=
  if 1 <? checkoutStep st then set_step st (pred (checkoutStep st)) else st.

(** The alert's text: [selectedMembership?.title] is ["undefined"] when no
    membership is selected. *)
Definition purchase_alert (sel : option Membership) : string :=
  "Abbonamento " ++ (match sel with Some m => title m | None => "undefined" end) ++
  " attivato con successo! Benvenuto in PowerGym!".

Definition completePurchase (st : CheckoutState) : CheckoutState :=
  {| selectedMembership := None; checkoutStep := 1; formData := emptyForm;
     alerts := alerts st ++ [purchase_alert (selectedMembership st)] |}.

(** The dialog's [onOpenChange={() => setSelectedMembership(null)}]. *)
Definition closeDialog (st : CheckoutState) : CheckoutState :=
  {| selectedMembership := None; checkoutStep := checkoutStep st;
     formData := formData st; alerts := alerts st |}.

(** The [disabled] conditions of the two guarded "Continua" buttons. *)
Definition personal_data_missing (f : FormData) : bool :=
  negb (js_truthy_str (firstName f)) || negb (js_truthy_str (lastName f)) ||
  negb (js_truthy_str (email f)) || negb (js_truthy_str (phone f)).

Definition payment_missing (f : FormData) : bool := negb (js_truthy_str (paymentMethod f)).

(** ** Events *)

Inductive PaymentOption := Card | PayPal | Bank.

Definition payment_value (o : PaymentOption) : string :=
  match o with Card => "card" | PayPal => "paypal" | Bank => "bank" end.

Inductive CheckoutEvent :=
| ClickAcquista (k : MembershipCard)
| ClickContinua
| ClickIndietro
| InputFirstName (s : string)
| InputLastName (s : string)
| InputEmail (s : string)
| InputPhone (s : string)
| SelectPayment (o : PaymentOption)
| ClickChiudi
| DismissDialog.

Definition set_formData (st : CheckoutState) (f : FormData) : CheckoutState :=
  {| selectedMembership := selectedMembership st; checkoutStep := checkoutStep st;
     formData := f; alerts := alerts st |}.

Definition dialog_open (st : CheckoutState) : bool := bool_decide (is_Some (selectedMembership st)).

Definition on_step (st : CheckoutState) (n : nat) : bool :=
  dialog_open st && (checkoutStep st =? n).

Definition handle (e : CheckoutEvent) (st : CheckoutState) : CheckoutState :=
  let f := formData st in
  match e with
  | ClickAcquista k => if dialog_open st then st else handlePurchase (card_membership k) st
  | ClickContinua =>
      if on_step st 1 then handleNextStep st
      else if on_step st 2 && negb (personal_data_missing f) then handleNextStep st
      else if on_step st 3 && negb (payment_missing f) then handleNextStep st
      else st
  | ClickIndietro => if on_step st 2 || on_step st 3 then handlePrevStep st else st
  | InputFirstName s =>
      if on_step st 2 then set_formData st {| firstName := s; lastName := lastName f;
        email := email f; phone := phone f; paymentMethod := paymentMethod f |} else st
  | InputLastName s =>
      if on_step st 2 then set_formData st {| firstName := firstName f; lastName := s;
        email := email f; phone := phone f; paymentMethod := paymentMethod f |} else st
  | InputEmail s =>
      if on_step st 2 then set_formData st {| firstName := firstName f;
        lastName := lastName f; email := s; phone := phone f;
        paymentMethod := paymentMethod f |} else st
  | InputPhone s =>
      if on_step st 2 then set_formData st {| firstName := firstName f;
        lastName := lastName f; email := email f; phone := s;
        paymentMethod := paymentMethod f |} else st
  | SelectPayment o =>
      if on_step st 3 then set_formData st {| firstName := firstName f;
        lastName := lastName f; email := email f; phone := phone f;
        paymentMethod := payment_value o |} else st
  | ClickChiudi => if on_step st 4 then completePurchase st else st
  | DismissDialog => if dialog_open st then closeDialog st else st
  end.

(** The dialog's title and description for a step. *)
Definition dialog_title (n : nat) : string :=
  match n with
  | 1 => "Conferma Abbonamento"
  | 2 => "Dati Anagrafici"
  | 3 => "Metodo di Pagamento"
  | 4 => "Conferma Acquisto"
  | _ => ""
  end.

(** The summary of step 4 ("Abbonamento Attivato!"): the welcome line
    naming the plan and the four lines of the recap, rendered only on step 4
    with a membership selected. *)
Definition summary_view (st : CheckoutState) : option (string * list string) :=
  match selectedMembership st with
  | Some m =>
      if checkoutStep st =? 4 then
        let f := formData st in
        Some ("Benvenuto in PowerGym! Il tuo abbonamento " ++ title m ++ " è ora attivo.",
              ["Nome: " ++ firstName f ++ " " ++ lastName f;
               "Email: " ++ email f;
               "Piano: " ++ title m;
               "Prezzo: €" ++ int_to_string (price m) ++ "/" ++ period m])%string
      else None
  | None => None
  end.

(** ** The invariant of the checkout *)

(** The step is in [1..4]; from step 3 on the personal data are filled,
    and on the summary the payment method is chosen too. *)
Definition checkout_wf (st : CheckoutState) : Prop :=
  1 <= checkoutStep st <= 4 /\
  (3 <= checkoutStep st -> personal_data_missing (formData st) = false) /\
  (checkoutStep st = 4 -> payment_missing (formData st) = false).

Lemma checkout0_wf : checkout_wf checkout0.
Proof. split; [simpl; lia|split; simpl; intros; lia]. Qed.

Lemma on_step_true st n : on_step st n = true -> dialog_open st = true /\ checkoutStep st = n.
Proof. unfold on_step. rewrite andb_true_iff, Nat.eqb_eq. done. Qed.

Lemma handleNextStep_step st :
  checkoutStep (handleNextStep st) =
  if checkoutStep st <? 4 then S (checkoutStep st) else checkoutStep st.
Proof. unfold handleNextStep. by destruct (_ <? 4). Qed.

Lemma step_preserves_checkout_wf : preserved handle checkout_wf.
Proof.
  intros e st (Hb & H3 & H4). unfold handle.
  destruct e;
    repeat match goal with
    | |- context [if on_step st ?n then _ else _] =>
        destruct (on_step st n) eqn:?; [match goal with
          H : on_step st n = true |- _ => apply on_step_true in H as [? ?] end|]
    | |- context [if ?b then _ else _] => destruct b eqn:?
    end; simpl in *;
    repeat match goal with H : _ || _ = true |- _ => apply orb_true_iff in H as [?|?] end;
    repeat match goal with H : _ && _ = true |- _ => apply andb_true_iff in H as [? ?] end;
    repeat match goal with H : on_step st _ = true |- _ => apply on_step_true in H as [? ?] end;
    unfold checkout_wf, handleNextStep, handlePrevStep, set_step in *; simpl in *;
    repeat match goal with |- context [if ?b then _ else _] => destruct b eqn:? end;
    simpl; rewrite ?Nat.ltb_lt, ?Nat.ltb_ge in *;
    try (split; [lia|split; intros; simpl in *; try lia; try done]);
    rewrite ?negb_true_iff in *; try done;
    first [exact (H3 ltac:(lia)) | exact (H4 ltac:(lia))].
Qed.

(** The abstraction of the checkout onto the abstract wizard of four
    steps. *)
Definition checkout_abs (st : CheckoutState) : WizState FormData :=
  {| wopen := dialog_open st; widx := checkoutStep st; wdraft := formData st |}.

(** ** Properties *)

(** C3: in every state reachable from the first render, the step
    is in [1..4], the personal data are filled on steps 3 and 4, and the
    payment method is chosen on the summary (step 4): "Abbonamento
    Attivato!" is never shown with missing data. *)
Theorem checkout_wf_reachable (st : CheckoutState) :
  checkout0 ⟶[handle]* st -> checkout_wf st.
Proof. apply reach_preserves; [exact step_preserves_checkout_wf|exact checkout0_wf]. Qed.

Lemma checkout_wf_reachable_witness :
  let evs := [ClickAcquista QuarterlyCard; ClickContinua; InputFirstName "Mario";
              InputLastName "Rossi"; InputEmail "mario@example.com";
              InputPhone "+39 123"; ClickContinua; SelectPayment Card; ClickContinua] in
  checkout0 ⟶[handle]* run handle evs checkout0 /\
  checkoutStep (run handle evs checkout0) = 4 /\ checkout_wf (run handle evs checkout0).
Proof.
  intros evs. assert (H : checkout0 ⟶[handle]* run handle evs checkout0)
    by (apply reach_run_iff; eexists; reflexivity).
  split; [exact H|]. split; [reflexivity|]. exact (checkout_wf_reachable _ H).
Defined.

(** C5: on step 2, "Continua" does nothing while one of the four
    personal fields (first name, last name, email, phone) is empty (the
    spec's example: an empty email keeps the checkout on step 2). *)
Theorem checkout_continue_blocked (st : CheckoutState) :
  on_step st 2 = true ->
  (firstName (formData st) = "" \/ lastName (formData st) = "" \/
   email (formData st) = "" \/ phone (formData st) = "") ->
  handle ClickContinua st = st.
Proof.
  intros Hs Hempty.
  assert (Hm : personal_data_missing (formData st) = true).
  { unfold personal_data_missing.
    destruct Hempty as [E | [E | [E | E]]]; rewrite E; simpl; by rewrite ?orb_true_r. }
  simpl. rewrite Hs, Hm. simpl.
  apply on_step_true in Hs as [_ H2]. unfold on_step. rewrite H2. simpl.
  by rewrite !andb_false_r.
Qed.

Lemma checkout_continue_blocked_witness :
  let st := run handle [ClickAcquista MonthlyCard; ClickContinua; InputFirstName "Mario";
                        InputLastName "Rossi"; InputPhone "+39 123"] checkout0 in
  on_step st 2 = true /\ email (formData st) = "" /\
  checkoutStep (handle ClickContinua st) = 2.
Proof.
  intros st. split; [reflexivity|]. split; [reflexivity|].
  rewrite (checkout_continue_blocked st eq_refl); [reflexivity|].
  right. right. left. reflexivity.
Defined.

(** On the summary, "Chiudi" raises the alert naming the
    selected membership and resets the checkout: no selection, step 1, the
    empty form. *)
Theorem checkout_complete_purchase (st : CheckoutState) (m : Membership) :
  selectedMembership st = Some m -> checkoutStep st = 4 ->
  handle ClickChiudi st =
  {| selectedMembership := None; checkoutStep := 1; formData := emptyForm;
     alerts := alerts st ++ [("Abbonamento " ++ title m ++
                             " attivato con successo! Benvenuto in PowerGym!")%string] |}.
Proof.
  intros Hm H4. unfold handle, on_step, dialog_open, completePurchase, purchase_alert.
  rewrite Hm, H4. reflexivity.
Qed.

Lemma checkout_complete_purchase_witness :
  let st := {| selectedMembership := Some annual; checkoutStep := 4;
               formData := emptyForm; alerts := [] |} in
  selectedMembership st = Some annual /\ checkoutStep st = 4 /\
  alerts (handle ClickChiudi st) =
    ["Abbonamento ANNUALE attivato con successo! Benvenuto in PowerGym!"].
Proof.
  intros st. split; [reflexivity|]. split; [reflexivity|].
  by rewrite (checkout_complete_purchase st annual eq_refl eq_refl).
Defined.

(** C4: the checkout is not a wizard in the sense of
    Wizard.v.  Dismissing the dialog on step 3 leaves the step and the
    draft as they were, a state the abstract wizard never reaches (a closed
    wizard holds step 1 and the empty draft); the next "Acquista", for any
    membership, reopens on step 1 with the previous draft. *)
Theorem checkout_dismiss_keeps_draft :
  exists evs : list CheckoutEvent,
    let st := run handle evs checkout0 in
    checkout0 ⟶[handle]* st /\
    selectedMembership st = None /\ checkoutStep st = 3 /\
    firstName (formData st) = "Mario" /\
    ~ wiz_inv 4 emptyForm (checkout_abs st) /\
    checkoutStep (handle (ClickAcquista AnnualCard) st) = 1 /\
    formData (handle (ClickAcquista AnnualCard) st) = formData st.
Proof.
  exists [ClickAcquista MonthlyCard; ClickContinua; InputFirstName "Mario";
          InputLastName "Rossi"; InputEmail "m@r.it"; InputPhone "1"; ClickContinua;
          DismissDialog].
  split; [apply reach_run_iff; eexists; reflexivity|].
  repeat split; try reflexivity.
  intros [Hb Hc]. destruct (Hc eq_refl) as [Hs _]. discriminate Hs.
Qed.

(** C11: a purchase can always be completed: from any state of the
    section, whatever the dialog shows and whatever the draft holds, closing
    the dialog, "Acquista" on any card, the data, a payment method, the
    three "Continua" and "Chiudi" raise the success alert for that card and
    leave the checkout closed and reset. *)
Theorem checkout_purchase_live (st : CheckoutState) (k : MembershipCard) :
  exists evs, let st' := run handle evs st in
    selectedMembership st' = None /\ checkoutStep st' = 1 /\ formData st' = emptyForm /\
    alerts st' = alerts st ++ [purchase_alert (Some (card_membership k))].
Proof.
  exists [DismissDialog; ClickAcquista k; ClickContinua; InputFirstName "Mario";
          InputLastName "Rossi"; InputEmail "m@r.it"; InputPhone "1"; ClickContinua;
          SelectPayment Card; ClickContinua; ClickChiudi].
  destruct st as [[m|] n f a]; destruct k; repeat split.
Qed.

(** The premium card announces a 20% saving, while the prices it
    shows, "€33" against the struck-through "€49", are a saving of more
    than 32%. *)
Example annual_badge_understates_saving :
  let cv := card_view annual in
  cv_badges cv = ["RISPARMIO 20%"] /\ cv_price cv = "€33" /\ cv_strike cv = Some "€49" /\
  ((49 - 33) * 100 / 49 = 32)%Z.
Proof. vm_compute. repeat split. Qed.

End Checkout.
