(* ===== verification/Selection.v ===== *)
(** * Clicks, bubbling, and the selection/detail pattern

    Three sections of the page (the class schedule, the trainers and the
    transformation stories) render a list of cards, each of which opens a
    detail overlay for its item: the state is a nullable reference to the
    item shown ([useState<T | null>]).  The buttons inside a card run their
    own handler and then, unless it calls [e.stopPropagation()], the card's
    [onClick] too.  This file holds what the three share:
    - [dispatch]: a click on an element runs the [onClick] handlers of the
      element and of its ancestors, innermost first, and stops after the
      first handler that calls [stopPropagation] (React's bubbling of
      synthetic events; the setters of [useState] called with a value are
      applied in order, so batching does not change the final state);
    - the contract of the pattern (spec §4.4) as an abstract machine
      [sel_step] on [option T], and the interface [DetailView] a section
      implements: its abstraction of the state, the abstract label of each
      event ([dv_simulation]), and the law that while a detail is open no
      event selects an item ([dv_modal]: the overlay covers the list);
    - the theorems proved against the interface: a run of events moves the
      abstraction along the labels of the run, and the selection never
      jumps from one item to another without passing through "closed". *)

From S2P Require Import Prelude.

Module Selection.

(** ** Event dispatch with bubbling *)

Section Dispatch.
Context {S : Type}.

(** An [onClick] handler: the new state, and whether it called
    [e.stopPropagation()]. *)
Definition Handler := S -> S * bool.

(** A handler that lets the event bubble, and one that stops it. *)
Definition plain (f : S -> S) : Handler := fun s => (f s, false).
Definition stopping (f : S -> S) : Handler := fun s => (f s, true).

(** An element without [onClick]. *)
Definition inert : Handler := plain id.

(** The handlers on the path from the clicked element up to the root. *)
Fixpoint dispatch (path : list Handler) (s : S) : S :=
  match path with
  | [] => s
  | h :: path' => let '(s', stop) := h s in if stop then s' else dispatch path' s'
  end.

Lemma dispatch_plain f path s : dispatch (plain f :: path) s = dispatch path (f s).
Proof. reflexivity. Qed.

Lemma dispatch_stopping f path s : dispatch (stopping f :: path) s = f s.
Proof. reflexivity. Qed.

Lemma dispatch_inert path s : dispatch (inert :: path) s = dispatch path s.
Proof. reflexivity. Qed.

Lemma dispatch_nil s : dispatch [] s = s.
Proof. reflexivity. Qed.

End Dispatch.

Arguments Handler : clear implicits.

#[export] Hint Rewrite @dispatch_plain @dispatch_stopping @dispatch_inert @dispatch_nil
  : pg_rw.

(** ** The contract of the selection/detail pattern *)

Section Contract.
Context {T : Type}.

Inductive SelLabel :=
| DSelect (t : T)
| DClose
| DKeep.

Definition sel_step (l : SelLabel) (o : option T) : option T :=
  match l with
  | DSelect t => Some t
  | DClose => None
  | DKeep => o
  end.

End Contract.

Arguments SelLabel : clear implicits.

Class DetailView (S E T : Type) := {
  dv_selected : S -> option T;
  dv_handle : E -> S -> S;
  dv_label : E -> S -> SelLabel T;
  dv_simulation : forall e s, dv_selected (dv_handle e s) = sel_step (dv_label e s) (dv_selected s);
  dv_modal : forall e s t, dv_selected s <> None -> dv_label e s <> DSelect t;
}.

Section Views.
Context {S E T : Type} `{DetailView S E T}.

Fixpoint dv_trace (evs : list E) (s : S) : list (SelLabel T) :=
  match evs with
  | [] => []
  | e :: evs' => dv_label e s :: dv_trace evs' (dv_handle e s)
  end.

Lemma dv_run_refines evs s :
  dv_selected (run dv_handle evs s) = run sel_step (dv_trace evs s) (dv_selected s).
Proof.
  revert s; induction evs as [|e evs IH]; intros s; simpl; [done|].
  by rewrite IH, dv_simulation.
Qed.

(** While a detail is open, one event either keeps it or closes it. *)
Lemma dv_open_step e s t :
  dv_selected s = Some t ->
  dv_selected (dv_handle e s) = Some t \/ dv_selected (dv_handle e s) = None.
Proof.
  intros Hs. rewrite dv_simulation, Hs.
  destruct (dv_label e s) as [u| |] eqn:Hl; simpl; auto.
  exfalso. eapply dv_modal; [|exact Hl]. by rewrite Hs.
Qed.

(** From an open detail, a run either keeps the item shown or passes
    through a state where nothing is shown. *)
Lemma dv_keeps_or_closes evs s t :
  dv_selected s = Some t ->
  dv_selected (run dv_handle evs s) = Some t \/
  exists k, dv_selected (run dv_handle (take k evs) s) = None.
Proof.
  revert s; induction evs as [|e evs IH]; intros s Hs; simpl; [by left|].
  destruct (dv_open_step e s t Hs) as [Ho|Hc].
  - destruct (IH _ Ho) as [Hk|[k Hk]]; [by left|right].
    exists (Datatypes.S k). exact Hk.
  - right. exists 1. exact Hc.
Qed.

End Views.

End Selection.
