(* ===== verification/ClassSchedule.v ===== *)
(** * The class schedule (src/components/ClassSchedule.tsx)

    The section shows a row of day buttons, the grid of the classes of the
    selected day (or a message when the day has none), and a dialog with the
    details of the selected class and a "Prenota Posto" button.  The state
    is [selectedClass] (a class or [null]) and [selectedDay]; [alert] calls
    are recorded in [alerts].

    The detail is a Radix [Dialog] ([modal] by default): while it is open
    its overlay covers the page, and a pointer-down outside the content, the
    close button or Escape call [onOpenChange], which clears the selection.
    A click aimed at a day button or a card while the dialog is open
    therefore reaches the overlay; [handle] models it so. *)

From S2P Require Import Prelude JsNumber Selection.
From Stdlib Require Import Floats.

Module ClassSchedule.
Import JsNumber Selection.

(** ** Data *)

Inductive Level := Principiante | Intermedio | Avanzato.

Definition level_name (l : Level) : string :=
  match l with
  | Principiante => "Principiante"
  | Intermedio => "Intermedio"
  | Avanzato => "Avanzato"
  end.

Record ClassInfo := {
  id : string;
  name : string;
  time : string;
  trainer : string;
  duration : float;
  level : Level;
  spots : float;
  maxSpots : float;
  description : string;
  icon : string;
}.

#[export] Instance level_eq_dec : EqDecision Level.
Proof. solve_decision. Defined.

Definition lun_9_yoga := {| id := "lun-9-yoga"; name := "Yoga"; time := "9:00";
  trainer := "Sofia Martini"; duration := 60; level := Principiante;
  spots := 12; maxSpots := 15;
  description := "Equilibrio corpo-mente attraverso posizioni e respirazione";
  icon := "🧘" |}.
Definition lun_10_pump := {| id := "lun-10-pump"; name := "Pump"; time := "10:30";
  trainer := "Marco Rossi"; duration := 45; level := Intermedio;
  spots := 8; maxSpots := 12;
  description := "Allenamento con pesi e barre per tonificazione totale";
  icon := "💪" |}.
Definition lun_18_gag := {| id := "lun-18-gag"; name := "GAG"; time := "18:00";
  trainer := "Laura Bianchi"; duration := 50; level := Intermedio;
  spots := 6; maxSpots := 15;
  description := "Gambe, Addominali, Glutei - Tonificazione mirata";
  icon := "🍑" |}.
Definition lun_19_spin := {| id := "lun-19-spin"; name := "Spinning"; time := "19:30";
  trainer := "Andrea Verdi"; duration := 45; level := Avanzato;
  spots := 3; maxSpots := 20;
  description := "Allenamento intenso su bike stazionarie";
  icon := "🚴" |}.
Definition mar_9_spin := {| id := "mar-9-spin"; name := "Spinning"; time := "9:00";
  trainer := "Andrea Verdi"; duration := 45; level := Intermedio;
  spots := 5; maxSpots := 20;
  description := "Allenamento intenso su bike stazionarie";
  icon := "🚴" |}.
Definition mar_10_pilates := {| id := "mar-10-pilates"; name := "Pilates"; time := "10:30";
  trainer := "Sofia Martini"; duration := 55; level := Principiante;
  spots := 10; maxSpots := 12;
  description := "Core strength e postura attraverso movimenti controllati";
  icon := "🧘‍♀️" |}.
Definition mar_18_zumba := {| id := "mar-18-zumba"; name := "Zumba"; time := "18:00";
  trainer := "Carmen Rodriguez"; duration := 50; level := Principiante;
  spots := 2; maxSpots := 25;
  description := "Fitness divertente a ritmo di musica latina";
  icon := "💃" |}.
Definition mar_19_crossfit := {| id := "mar-19-crossfit"; name := "CrossFit"; time := "19:30";
  trainer := "Marco Rossi"; duration := 60; level := Avanzato;
  spots := 7; maxSpots := 15;
  description := "Allenamento funzionale ad alta intensità";
  icon := "🏋️" |}.

(** The object literal [schedule], as its list of own properties. *)
Definition schedule : list (string * list ClassInfo) :=
  [("Lunedì", [lun_9_yoga; lun_10_pump; lun_18_gag; lun_19_spin]);
   ("Martedì", [mar_9_spin; mar_10_pilates; mar_18_zumba; mar_19_crossfit])].

Definition days : list string :=
  ["Lunedì"; "Martedì"; "Mercoledì"; "Giovedì"; "Venerdì"; "Sabato"; "Domenica"].

(** [schedule[day]] for a day of [days] (none of them names an inherited
    member of [Object.prototype]). *)
Fixpoint lookup_day (tbl : list (string * list ClassInfo)) (day : string)
    : option (list ClassInfo) :=
  match tbl with
  | [] => None
  | (k, v) :: tbl' => if decide (k = day) then Some v else lookup_day tbl' day
  end.

(** ** Pure helpers *)

Definition getLevelColor (level : string) : string :=
  if decide (level = "Principiante") then "bg-accent text-accent-foreground"
  else if decide (level = "Intermedio") then "bg-primary text-primary-foreground"
  else if decide (level = "Avanzato") then "bg-destructive text-destructive-foreground"
  else "bg-muted".

Definition getAvailabilityColor (spots maxSpots : float) : string :=
  let percentage := (spots / maxSpots)%float in
  if (0.7 <? percentage)%float then "text-accent"
  else if (0.3 <? percentage)%float then "text-primary"
  else "text-destructive".

(** ** State and handlers *)

Record ScheduleState := {
  selectedClass : option ClassInfo;
  selectedDay : string;
  alerts : list string;
}.

Definition schedule0 : ScheduleState :=
  {| selectedClass := None; selectedDay := "Lunedì"; alerts := [] |}.

Definition setSelectedClass (c : option ClassInfo) (st : ScheduleState) : ScheduleState :=
  {| selectedClass := c; selectedDay := selectedDay st; alerts := alerts st |}.

Definition setSelectedDay (d : string) (st : ScheduleState) : ScheduleState :=
  {| selectedClass := selectedClass st; selectedDay := d; alerts := alerts st |}.

Definition booking_alert (c : ClassInfo) (day : string) : string :=
  ("Prenotazione confermata per " ++ name c ++ " " ++ day ++ " alle " ++ time c ++ "!")%string.

Definition bookClass (c : ClassInfo) (st : ScheduleState) : ScheduleState :=
  setSelectedClass None
    {| selectedClass := selectedClass st; selectedDay := selectedDay st;
       alerts := alerts st ++ [booking_alert c (selectedDay st)] |}.

(** The cards of the grid: [schedule[selectedDay]?.map(...)]; the fallback
    message is rendered when the lookup is [undefined]. *)
Definition rendered_classes (st : ScheduleState) : list ClassInfo :=
  default [] (lookup_day schedule (selectedDay st)).

Definition empty_day_message (st : ScheduleState) : option string :=
  match lookup_day schedule (selectedDay st) with
  | Some _ => None
  | None => Some ("Nessun corso programmato per " ++ selectedDay st)%string
  end.

(** [disabled={selectedClass?.spots === 0}]. *)
Definition book_disabled (st : ScheduleState) : bool :=
  match selectedClass st with Some c => (spots c =? 0)%float | None => false end.

(** The click targets of the section. *)
Inductive Target :=
| DayButton (d : string)
| ClassCard (i : nat)
| ClassPrenota (i : nat)
| DialogBook
| DialogDismiss.

(** The card's [onClick], and the path from its "Prenota" button. *)
Definition card_path (c : ClassInfo) : list (Handler ScheduleState) :=
  [plain (setSelectedClass (Some c))].

Definition prenota_path (c : ClassInfo) : list (Handler ScheduleState) :=
  [stopping (setSelectedClass (Some c)); plain (setSelectedClass (Some c))].

(** "Prenota Posto": [selectedClass && bookClass(selectedClass)]. *)
Definition book_click (st : ScheduleState) : ScheduleState :=
  match selectedClass st with Some c => bookClass c st | None => st end.

Definition handle (t : Target) (st : ScheduleState) : ScheduleState :=
  match selectedClass st with
  | Some _ =>
      match t with
      | DialogBook => if book_disabled st then st else dispatch [plain book_click] st
      | _ => setSelectedClass None st
      end
  | None =>
      match t with
      | DayButton d => if decide (d ∈ days) then setSelectedDay d st else st
      | ClassCard i =>
          match rendered_classes st !! i with
          | Some c => dispatch (card_path c) st
          | None => st
          end
      | ClassPrenota i =>
          match rendered_classes st !! i with
          | Some c => dispatch (prenota_path c) st
          | None => st
          end
      | DialogBook | DialogDismiss => st
      end
  end.

(** ** The section as a selection/detail view *)

Definition schedule_label (t : Target) (st : ScheduleState) : SelLabel ClassInfo :=
  match selectedClass st with
  | Some _ =>
      match t with
      | DialogBook => if book_disabled st then DKeep else DClose
      | _ => DClose
      end
  | None =>
      match t with
      | ClassCard i | ClassPrenota i =>
          match rendered_classes st !! i with Some c => DSelect c | None => DKeep end
      | _ => DKeep
      end
  end.

Lemma schedule_simulation t st :
  selectedClass (handle t st) = sel_step (schedule_label t st) (selectedClass st).
Proof.
  unfold handle, schedule_label.
  destruct (selectedClass st) as [c|] eqn:Hs.
  - destruct t; try reflexivity.
    destruct (book_disabled st); [done|]. simpl. unfold book_click. by rewrite Hs.
  - destruct t; try case_decide; try destruct (rendered_classes st !! _);
      first [reflexivity|exact Hs].
Qed.

Lemma schedule_modal t st c : selectedClass st <> None -> schedule_label t st <> DSelect c.
Proof.
  unfold schedule_label. destruct (selectedClass st); [|done]. intros _.
  destruct t; try done. by destruct (book_disabled st).
Qed.

#[export] Instance schedule_view : DetailView ScheduleState Target ClassInfo := {|
  dv_selected := selectedClass;
  dv_handle := handle;
  dv_label := schedule_label;
  dv_simulation := schedule_simulation;
  dv_modal := schedule_modal;
|}.

(** ** The invariant of the section *)

(** The selected day is one of the buttons, and the class shown in the
    dialog is one of the cards of that day. *)
Definition schedule_wf (st : ScheduleState) : Prop :=
  selectedDay st ∈ days /\
  forall c, selectedClass st = Some c -> c ∈ rendered_classes st.

(** Every class of the catalog has free spots, at most its capacity. *)
Definition class_ok (c : ClassInfo) : bool :=
  negb (spots c =? 0)%float && (0 <=? spots c)%float && (spots c <=? maxSpots c)%float.

Lemma lookup_day_elem tbl d c :
  c ∈ default [] (lookup_day tbl d) -> c ∈ concat (map snd tbl).
Proof.
  induction tbl as [|[k v] tbl IH]; simpl; [done|].
  rewrite elem_of_app. case_decide; [by left|]. intros Hc. right. by apply IH.
Qed.

Lemma schedule_classes_ok d c : c ∈ default [] (lookup_day schedule d) -> class_ok c = true.
Proof.
  intros Hc. apply lookup_day_elem in Hc. apply list_elem_of_In in Hc.
  revert c Hc. apply forallb_forall. vm_compute. reflexivity.
Qed.

Lemma setSelectedClass_wf st c :
  schedule_wf st -> c ∈ rendered_classes st -> schedule_wf (setSelectedClass (Some c) st).
Proof. intros [Hd _] Hc. split; [exact Hd|]. by intros ? [= <-]. Qed.

Lemma clear_selection_wf st : selectedDay st ∈ days -> schedule_wf (setSelectedClass None st).
Proof. intros Hd. by split. Qed.

#[local] Hint Resolve setSelectedClass_wf clear_selection_wf : pg.

Lemma step_preserves_schedule_wf : preserved handle schedule_wf.
Proof.
  intros t st Hwf. pose proof (proj1 Hwf) as Hd. unfold handle.
  destruct (selectedClass st) as [c|] eqn:Hs.
  - destruct t; auto with pg.
    destruct (book_disabled st); [exact Hwf|]. simpl. unfold book_click, bookClass.
    rewrite Hs. by apply clear_selection_wf.
  - destruct t; try exact Hwf.
    + case_decide as Hd'; [|exact Hwf]. split; [exact Hd'|]. simpl. by rewrite Hs.
    + destruct (rendered_classes st !! i) eqn:Hi; [|exact Hwf].
      apply setSelectedClass_wf; [exact Hwf|]. by eapply list_elem_of_lookup_2.
    + destruct (rendered_classes st !! i) eqn:Hi; [|exact Hwf].
      apply setSelectedClass_wf; [exact Hwf|]. by eapply list_elem_of_lookup_2.
Qed.

Lemma schedule0_wf : schedule_wf schedule0.
Proof. split; [by left|done]. Qed.

Lemma schedule_reach_wf st : schedule0 ⟶[handle]* st -> schedule_wf st.
Proof. apply reach_preserves; [exact step_preserves_schedule_wf|exact schedule0_wf]. Qed.

Lemma reach_book_enabled st : schedule0 ⟶[handle]* st -> book_disabled st = false.
Proof.
  intros Hr. destruct (schedule_reach_wf st Hr) as [_ Hc]. unfold book_disabled.
  destruct (selectedClass st) as [c|] eqn:Hs; [|done].
  pose proof (schedule_classes_ok _ c (Hc c eq_refl)) as Hok.
  unfold class_ok in Hok. by destruct (spots c =? 0)%float.
Qed.

(** [getAvailabilityColor] on integers, checked exhaustively up to [n]
    places against the exact thresholds [s/m > 7/10] and [s/m > 3/10]. *)
Definition exact_availability (s m : nat) : string :=
  if (7 * m <? 10 * s)%nat then "text-accent"
  else if (3 * m <? 10 * s)%nat then "text-primary"
  else "text-destructive".

Definition availability_agrees_upto (n : nat) : bool :=
  forallb (fun m => forallb (fun s =>
      String.eqb (getAvailabilityColor (num s) (num m)) (exact_availability s m))
    (seq 0 (S m))) (seq 1 n).

Lemma availability_agrees_upto_spec n m s :
  availability_agrees_upto n = true -> 1 <= m <= n -> s <= m ->
  getAvailabilityColor (num s) (num m) = exact_availability s m.
Proof.
  intros Hn Hm Hs. unfold availability_agrees_upto in Hn.
  rewrite forallb_forall in Hn.
  assert (Hm' : In m (seq 1 n)) by (apply in_seq; lia).
  specialize (Hn m Hm'). rewrite forallb_forall in Hn.
  apply String.eqb_eq, Hn, in_seq. lia.
Qed.

(** ** Properties *)

(** C18: In every state the section reaches from its first render, the
    selected day is one of the seven day buttons, the class shown in the
    dialog is one of the cards of the selected day, and the "Prenota Posto"
    button is enabled (no class of the catalog is full, so the "Corso
    Completo" branch never renders). *)
Theorem schedule_reachable_wf (st : ScheduleState) :
  schedule0 ⟶[handle]* st -> schedule_wf st /\ book_disabled st = false.
Proof. intros Hr. split; [exact (schedule_reach_wf st Hr)|exact (reach_book_enabled st Hr)]. Qed.

Lemma schedule_reachable_wf_witness :
  let evs := [DayButton "Martedì"; ClassCard 2] in
  schedule0 ⟶[handle]* run handle evs schedule0 /\
  selectedClass (run handle evs schedule0) = Some mar_18_zumba /\
  schedule_wf (run handle evs schedule0) /\ book_disabled (run handle evs schedule0) = false.
Proof.
  intros evs. assert (Hr : schedule0 ⟶[handle]* run handle evs schedule0)
    by (apply reach_run_iff; eexists; reflexivity).
  split; [exact Hr|]. split; [reflexivity|]. exact (schedule_reachable_wf _ Hr).
Defined.

(** C24: Booking from the dialog of a reachable state records the alert
    "Prenotazione confermata per <class> <day> alle <time>!" and closes the
    dialog; the day named is the selected day, and the class is one of the
    classes the schedule lists for that day. *)
Theorem schedule_book_confirms_listed_class (st : ScheduleState) (c : ClassInfo) :
  schedule0 ⟶[handle]* st -> selectedClass st = Some c ->
  handle DialogBook st =
    {| selectedClass := None; selectedDay := selectedDay st;
       alerts := alerts st ++ [booking_alert c (selectedDay st)] |} /\
  exists cs, lookup_day schedule (selectedDay st) = Some cs /\ c ∈ cs.
Proof.
  intros Hr Hs. destruct (conj (schedule_reach_wf st Hr) (reach_book_enabled st Hr)) as [[_ Hc] Hb].
  split.
  - unfold handle. rewrite Hs, Hb. simpl. unfold book_click. by rewrite Hs.
  - specialize (Hc c Hs). unfold rendered_classes in Hc.
    destruct (lookup_day schedule (selectedDay st)) as [cs|]; [by exists cs|].
    by apply not_elem_of_nil in Hc.
Qed.

Lemma schedule_book_confirms_listed_class_witness :
  let st := run handle [DayButton "Martedì"; ClassCard 2] schedule0 in
  schedule0 ⟶[handle]* st /\ selectedClass st = Some mar_18_zumba /\
  alerts (handle DialogBook st) = ["Prenotazione confermata per Zumba Martedì alle 18:00!"].
Proof.
  intros st. assert (Hr : schedule0 ⟶[handle]* st)
    by (apply reach_run_iff; eexists; reflexivity).
  split; [exact Hr|]. split; [reflexivity|].
  destruct (schedule_book_confirms_listed_class st mar_18_zumba Hr eq_refl) as [-> _].
  reflexivity.
Defined.

(** C30: The "Prenota" button of a card does not book: its handler calls
    [stopPropagation] and then selects the class, so a click on it has the
    effect of a click on the card (the dialog opens on that class, or, with
    the dialog open, the overlay closes it), and no alert is recorded. *)
Theorem schedule_prenota_opens_detail (i : nat) (st : ScheduleState) :
  handle (ClassPrenota i) st = handle (ClassCard i) st /\
  alerts (handle (ClassPrenota i) st) = alerts st.
Proof.
  unfold handle. destruct (selectedClass st); [done|].
  by destruct (rendered_classes st !! i).
Qed.

(** C26: The colour of the free places, computed in binary64 as
    [spots / maxSpots > 0.7] and [> 0.3], agrees with the exact comparison
    of the ratio with 7/10 and 3/10 for every capacity from 1 to 100 and
    every number of free places up to the capacity (a ratio of exactly 0.7
    or 0.3 takes the lower colour). *)
Theorem availability_color_exact (s m : nat) :
  1 <= m <= 100 -> s <= m ->
  getAvailabilityColor (num s) (num m) = exact_availability s m.
Proof. apply availability_agrees_upto_spec. vm_compute. reflexivity. Qed.

Lemma availability_color_exact_witness :
  (1 <= 20 <= 100 /\ 14 <= 20) /\
  getAvailabilityColor (num 14) (num 20) = "text-primary".
Proof.
  split; [lia|]. rewrite (availability_color_exact 14 20) by lia. reflexivity.
Defined.

(** C19: The dialog never switches from one class to another: along any run
    of clicks from a state showing class [a] to one showing a different
    class [b], some intermediate state shows no dialog (the click that
    would select [b] lands on the overlay and closes [a]). *)
Theorem schedule_switch_passes_through_closed (evs : list Target) (st : ScheduleState)
    (a b : ClassInfo) :
  selectedClass st = Some a -> selectedClass (run handle evs st) = Some b -> a <> b ->
  exists k, selectedClass (run handle (take k evs) st) = None.
Proof.
  intros Ha Hb Hab.
  destruct (dv_keeps_or_closes (H := schedule_view) evs st a Ha) as [Hk|Hk];
    [|exact Hk].
  simpl in Hk. congruence.
Qed.

Lemma schedule_switch_passes_through_closed_witness :
  let st := run handle [ClassCard 0] schedule0 in
  let evs := [ClassCard 1; ClassCard 1] in
  selectedClass st = Some lun_9_yoga /\ selectedClass (run handle evs st) = Some lun_10_pump /\
  lun_9_yoga <> lun_10_pump /\
  exists k, selectedClass (run handle (take k evs) st) = None.
Proof.
  intros st evs. split; [reflexivity|]. split; [reflexivity|].
  assert (Hab : lun_9_yoga <> lun_10_pump) by discriminate.
  split; [exact Hab|].
  exact (schedule_switch_passes_through_closed evs st lun_9_yoga lun_10_pump
           eq_refl eq_refl Hab).
Defined.

(** The schedule lists eight classes, on Monday and Tuesday only: the
    other five day buttons show "Nessun corso programmato per <day>", while
    the section's heading announces "Oltre 30 corsi settimanali". *)
Example schedule_empty_days :
  length (concat (map snd schedule)) = 8 /\
  map (fun d => empty_day_message (setSelectedDay d schedule0)) days =
    [None; None;
     Some "Nessun corso programmato per Mercoledì"; Some "Nessun corso programmato per Giovedì";
     Some "Nessun corso programmato per Venerdì"; Some "Nessun corso programmato per Sabato";
     Some "Nessun corso programmato per Domenica"].
Proof. split; reflexivity. Qed.

End ClassSchedule.
