(* ===== verification/Trainers.v ===== *)
(** * The trainers (src/components/Trainers.tsx)

    The section renders one card per trainer of the roster: stars for the
    rating ([renderStars]), at most three specialisation badges and a
    "+N" badge for the rest, a "Prenota Seduta" button that books directly
    ([e.stopPropagation()], then [bookSession]) and a "Vedi Profilo" button
    whose handler and the card's both select the trainer.  The detail is a
    Radix [Dialog], modal as in ClassSchedule.v, with a "Prenota Seduta"
    button ([bookSession(selectedTrainer)]) and a "Contatta" button that has
    no handler.  The state is [selectedTrainer]; alerts are recorded. *)

From S2P Require Import Prelude JsNumber JsString JsToString Selection.
From stdpp Require Import pretty.
From Stdlib Require Import Floats.

Module Trainers.
Import JsNumber JsString JsToString Selection.

#[local] Set Warnings "-inexact-float".

(** ** Data *)

Record Testimonial := {
  tname : string;
  text : string;
  trating : float;
}.

Record Trainer := {
  id : string;
  name : string;
  title : string;
  specializations : list string;
  experience : string;
  certifications : list string;
  bio : string;
  rating : float;
  clients : float;
  testimonials : list Testimonial;
}.

Definition marco := {| id := "marco"; name := "Marco Rossi";
  title := "Personal Trainer & Bodybuilding Coach";
  specializations := ["Bodybuilding"; "Powerlifting"; "Definizione"];
  experience := "8 anni";
  certifications := ["ISSA CPT"; "Nutrizione Sportiva"; "Powerlifting Coach"];
  bio := "Specializzato in aumento massa muscolare e definizione. Ha seguito oltre 200 clienti nel raggiungimento dei loro obiettivi di trasformazione fisica.";
  rating := 4.9; clients := 45;
  testimonials := [
    {| tname := "Alessandro M.";
       text := "Con Marco ho aumentato 12kg di massa muscolare in 8 mesi. Professionale e sempre disponibile!";
       trating := 5 |};
    {| tname := "Giulia T.";
       text := "Grazie a Marco ho raggiunto la forma migliore della mia vita. Competente e motivante.";
       trating := 5 |}] |}.

Definition sofia := {| id := "sofia"; name := "Sofia Martini";
  title := "Yoga & Pilates Instructor";
  specializations := ["Yoga"; "Pilates"; "Mindfulness"; "Stretching"];
  experience := "6 anni";
  certifications := ["RYT 500"; "Pilates Mat Certified"; "Mindfulness Coach"];
  bio := "Insegnante certificata di Yoga e Pilates con focus su equilibrio corpo-mente. Specializzata in recupero posturale e gestione dello stress.";
  rating := 4.8; clients := 60;
  testimonials := [
    {| tname := "Maria L.";
       text := "Sofia mi ha aiutato a risolvere i miei problemi di mal di schiena. Le sue lezioni sono rigeneranti.";
       trating := 5 |}] |}.

Definition andrea := {| id := "andrea"; name := "Andrea Verdi";
  title := "Spinning & HIIT Specialist";
  specializations := ["Spinning"; "HIIT"; "Cardio"; "Resistance Training"];
  experience := "5 anni";
  certifications := ["Indoor Cycling Instructor"; "HIIT Specialist"; "CPR Certified"];
  bio := "Ex ciclista professionista, ora specializzato in allenamenti ad alta intensità. Le sue lezioni di spinning sono leggendarie per energia e risultati.";
  rating := 4.9; clients := 80;
  testimonials := [
    {| tname := "Roberto F.";
       text := "Le lezioni di Andrea sono intense ma divertenti. Ho perso 15kg in 6 mesi!";
       trating := 5 |}] |}.

Definition laura := {| id := "laura"; name := "Laura Bianchi";
  title := "Functional Training Coach";
  specializations := ["Functional Training"; "GAG"; "TRX"; "Riabilitazione"];
  experience := "7 anni";
  certifications := ["Functional Movement Screen"; "TRX Suspension Trainer";
                     "Rehabilitation Specialist"];
  bio := "Laureata in Scienze Motorie, specializzata in allenamento funzionale e riabilitazione. Perfetta per chi vuole migliorare forza e mobilità.";
  rating := 4.7; clients := 35;
  testimonials := [
    {| tname := "Francesca P.";
       text := "Laura mi ha aiutato a recuperare dopo un infortunio. Ora sono più forte di prima!";
       trating := 5 |}] |}.

Definition carmen := {| id := "carmen"; name := "Carmen Rodriguez";
  title := "Zumba & Dance Fitness Instructor";
  specializations := ["Zumba"; "Dance Fitness"; "Cardio Dance"; "Latino"];
  experience := "4 anni";
  certifications := ["Zumba Instructor"; "Dance Fitness Certified"; "Latin Dance Specialist"];
  bio := "Ballerina professionista diventata istruttrice di fitness. Le sue lezioni sono un mix perfetto di divertimento e allenamento efficace.";
  rating := 4.8; clients := 90;
  testimonials := [
    {| tname := "Valentina S.";
       text := "Con Carmen allenarsi è puro divertimento! Non vedo l'ora della prossima lezione.";
       trating := 5 |}] |}.

Definition trainers : list Trainer := [marco; sofia; andrea; laura; carmen].

(** ** Rendering helpers *)

(** [renderStars]: five stars, the [i]-th filled when [i < Math.floor(rating)]. *)
Definition renderStars (r : float) : list bool :=
  map (fun i => (num i <? js_floor r)%float) (seq 0 5).

(** The badges of a card: [specializations.slice(0, 3)], then
    [+{specializations.length - 3}] when there are more than three. *)
Definition card_badges (specs : list string) : list string :=
  take 3 specs ++
  (if (3 <? length specs)%nat then [("+" ++ pretty (N.of_nat (length specs - 3)))%string]
   else []).

(** The profile dialog of the selected trainer: the header (name and
    title, [selectedTrainer?.name], empty without a selection), then, with
    a selection, the stars and "Rating {rating}", the clients and the
    experience, the bio, the specialisations as "✓" badges, the
    certifications, the testimonials with their stars, and the two buttons. *)
Record ProfileView := {
  pf_stars : list bool;
  pf_rating : option string;
  pf_clients : option string;
  pf_experience : string;
  pf_bio : string;
  pf_specializations : list string;
  pf_certifications : list string;
  pf_testimonials : list (string * list bool * string);
  pf_buttons : list string;
}.

Definition profile_header (t : option Trainer) : string * string :=
  match t with Some t => (name t, title t) | None => ("", "") end.

Definition profile_view (t : Trainer) : ProfileView := {|
  pf_stars := renderStars (rating t);
  pf_rating := (fun r => "Rating " ++ r)%string <$> number_to_string (rating t);
  pf_clients := number_to_string (clients t);
  pf_experience := experience t;
  pf_bio := bio t;
  pf_specializations := map (fun sp => "✓ " ++ sp)%string (specializations t);
  pf_certifications := certifications t;
  pf_testimonials := map (fun ts => (tname ts, renderStars (trating ts), dquote ++ text ts ++ dquote)%string) (testimonials t);
  pf_buttons := ["Prenota Seduta"; "Contatta"] |}.

(** ** State and handlers *)

Record TrainersState := {
  selectedTrainer : option Trainer;
  alerts : list string;
}.

Definition trainers0 : TrainersState := {| selectedTrainer := None; alerts := [] |}.

Definition setSelectedTrainer (t : option Trainer) (st : TrainersState) : TrainersState :=
  {| selectedTrainer := t; alerts := alerts st |}.

Definition session_alert (t : Trainer) : string :=
  ("Richiesta inviata per una sessione con " ++ name t ++ "! Ti contatteremo entro 24h.")%string.

Definition bookSession (t : Trainer) (st : TrainersState) : TrainersState :=
  setSelectedTrainer None {| selectedTrainer := selectedTrainer st;
                             alerts := alerts st ++ [session_alert t] |}.

Inductive Target :=
| TrainerCard (i : nat)
| CardBook (i : nat)
| CardProfile (i : nat)
| DialogBook
| DialogContact
| DialogDismiss.

Definition card_path (t : Trainer) : list (Handler TrainersState) :=
  [plain (setSelectedTrainer (Some t))].

Definition card_book_path (t : Trainer) : list (Handler TrainersState) :=
  [stopping (bookSession t); plain (setSelectedTrainer (Some t))].

Definition card_profile_path (t : Trainer) : list (Handler TrainersState) :=
  [plain (setSelectedTrainer (Some t)); plain (setSelectedTrainer (Some t))].

Definition on_card (i : nat) (path : Trainer -> list (Handler TrainersState))
    (st : TrainersState) : TrainersState :=
  match trainers !! i with Some t => dispatch (path t) st | None => st end.

Definition handle (tg : Target) (st : TrainersState) : TrainersState :=
  match selectedTrainer st with
  | Some t =>
      match tg with
      | DialogBook => dispatch [plain (bookSession t)] st
      | DialogContact => dispatch [inert] st
      | _ => setSelectedTrainer None st
      end
  | None =>
      match tg with
      | TrainerCard i => on_card i card_path st
      | CardBook i => on_card i card_book_path st
      | CardProfile i => on_card i card_profile_path st
      | _ => st
      end
  end.

(** ** The section as a selection/detail view *)

Definition trainers_label (tg : Target) (st : TrainersState) : SelLabel Trainer :=
  match selectedTrainer st with
  | Some _ => match tg with DialogContact => DKeep | _ => DClose end
  | None =>
      match tg with
      | TrainerCard i | CardProfile i =>
          match trainers !! i with Some t => DSelect t | None => DKeep end
      | CardBook i => match trainers !! i with Some _ => DClose | None => DKeep end
      | _ => DKeep
      end
  end.

Lemma trainers_simulation tg st :
  selectedTrainer (handle tg st) = sel_step (trainers_label tg st) (selectedTrainer st).
Proof.
  unfold handle, trainers_label, on_card.
  destruct (selectedTrainer st) as [t|] eqn:Hs.
  - by destruct tg.
  - destruct tg; try destruct (trainers !! _); first [reflexivity|exact Hs].
Qed.

Lemma trainers_modal tg st t : selectedTrainer st <> None -> trainers_label tg st <> DSelect t.
Proof. unfold trainers_label. destruct (selectedTrainer st); [|done]. by destruct tg. Qed.

#[export] Instance trainers_view : DetailView TrainersState Target Trainer := {|
  dv_selected := selectedTrainer;
  dv_handle := handle;
  dv_label := trainers_label;
  dv_simulation := trainers_simulation;
  dv_modal := trainers_modal;
|}.

(** C28: The "Prenota Seduta" button of a card books without opening the
    detail: its handler stops the click before the card's handler, records
    "Richiesta inviata per una sessione con <name>! Ti contatteremo entro
    24h." and leaves the selection empty; the "Vedi Profilo" button, whose
    click bubbles to the card, opens the detail of that trainer. *)
Theorem trainer_card_actions (i : nat) (t : Trainer) (st : TrainersState) :
  selectedTrainer st = None -> trainers !! i = Some t ->
  handle (CardBook i) st = {| selectedTrainer := None; alerts := alerts st ++ [session_alert t] |} /\
  handle (CardProfile i) st = {| selectedTrainer := Some t; alerts := alerts st |}.
Proof. intros Hs Ht. unfold handle, on_card. by rewrite Hs, Ht. Qed.

Lemma trainer_card_actions_witness :
  selectedTrainer trainers0 = None /\ trainers !! 2 = Some andrea /\
  alerts (handle (CardBook 2) trainers0) =
    ["Richiesta inviata per una sessione con Andrea Verdi! Ti contatteremo entro 24h."].
Proof.
  split; [reflexivity|]. split; [reflexivity|].
  destruct (trainer_card_actions 2 andrea trainers0 eq_refl eq_refl) as [-> _].
  reflexivity.
Defined.

(** Whatever the rating, the filled stars of [renderStars] come first:
    if star [i + 1] is filled, star [i] is (the comparison [i < floor r]
    is monotone in [i] in binary64 too). *)
Theorem renderStars_prefix (r : float) (i : nat) :
  nth (Datatypes.S i) (renderStars r) false = true -> nth i (renderStars r) false = true.
Proof.
  unfold renderStars.
  destruct i as [|[|[|[|i]]]]; simpl; [| | | |destruct i; intros H; discriminate];
    intros H; refine (float_lt_trans _ _ _ _ H); reflexivity.
Qed.

Lemma renderStars_prefix_witness :
  nth 3 (renderStars 4.9) false = true /\ nth 2 (renderStars 4.9) false = true.
Proof.
  assert (H : nth 3 (renderStars 4.9) false = true) by reflexivity.
  split; [exact H|]. exact (renderStars_prefix 4.9 2 H).
Defined.

(** What the cards show: every trainer rated 4.7 to 4.9 gets four
    filled stars of five (the rating is floored, not rounded), a rating of
    5 gets five; Marco's three specialisations are all shown, the others
    show three badges and "+1". *)
Example trainer_cards_rendering :
  map (fun t => renderStars (rating t)) trainers =
    repeat [true; true; true; true; false] 5 /\
  renderStars 5 = [true; true; true; true; true] /\
  map (fun t => card_badges (specializations t)) trainers =
    [["Bodybuilding"; "Powerlifting"; "Definizione"];
     ["Yoga"; "Pilates"; "Mindfulness"; "+1"];
     ["Spinning"; "HIIT"; "Cardio"; "+1"];
     ["Functional Training"; "GAG"; "TRX"; "+1"];
     ["Zumba"; "Dance Fitness"; "Cardio Dance"; "+1"]].
Proof. split; [|split]; vm_compute; reflexivity. Qed.

End Trainers.
