(* ===== verification/Transformations.v ===== *)
(** * The transformation stories (src/components/Transformations.tsx)

    One card per story of the catalog (before/after placeholder, the weight
    change [Math.abs(endWeight - startWeight)] with "Guadagnati" or
    "Persi", the body-fat loss, the goal badge coloured by [getGoalColor]),
    two call-to-action buttons that scroll to [#home] and [#abbonamenti],
    and a hand-written overlay for the selected story: a [fixed inset-0]
    backdrop whose [onClick] clears the selection, holding a panel whose
    [onClick] calls [e.stopPropagation()], with a button that clears the
    selection and scrolls to [#home] and a "Chiudi" button.

    The state is [selectedTransformation]; the [scrollIntoView] requests are
    recorded in [scrolls] by anchor name (whether the anchor exists is a
    property of the page, Page.v).  While the overlay is shown it covers the
    page, so a click aimed at a card or a call-to-action reaches the
    backdrop. *)

From S2P Require Import Prelude JsNumber JsString JsToString Selection.
From Stdlib Require Import Floats Ascii.

Module Transformations.
Import JsNumber JsString JsToString Selection.

(** ** Data *)

Record Transformation := {
  id : string;
  name : string;
  age : float;
  timeline : string;
  startWeight : float;
  endWeight : float;
  bodyFatLoss : float;
  goal : string;
  testimonial : string;
}.

Definition alessandro := {| id := "1"; name := "Alessandro M."; age := 32; timeline := "6 mesi";
  startWeight := 85; endWeight := 78; bodyFatLoss := 12; goal := "Definizione";
  testimonial := "PowerGym mi ha cambiato la vita. Non solo ho perso peso, ma ho guadagnato fiducia e energia. I trainer sono fantastici!" |}.
Definition giulia := {| id := "2"; name := "Giulia T."; age := 28; timeline := "8 mesi";
  startWeight := 70; endWeight := 65; bodyFatLoss := 15; goal := "Tonificazione";
  testimonial := "Risultati incredibili! Finalmente ho il corpo che ho sempre sognato. L'ambiente è motivante e professionale." |}.
Definition marco := {| id := "3"; name := "Marco R."; age := 35; timeline := "10 mesi";
  startWeight := 95; endWeight := 82; bodyFatLoss := 18; goal := "Perdita peso";
  testimonial := "Ho perso 13kg e guadagnato una nuova vita. Il supporto del team è stato fondamentale per il mio successo." |}.
Definition sofia := {| id := "4"; name := "Sofia L."; age := 26; timeline := "4 mesi";
  startWeight := 58; endWeight := 62; bodyFatLoss := 8; goal := "Massa muscolare";
  testimonial := "Volevo aumentare la massa muscolare e ci sono riuscita! Mi sento più forte e in forma che mai." |}.
Definition roberto := {| id := "5"; name := "Roberto F."; age := 41; timeline := "12 mesi";
  startWeight := 102; endWeight := 85; bodyFatLoss := 22; goal := "Trasformazione completa";
  testimonial := "Una trasformazione che va oltre il fisico. Ho ritrovato energia, salute e autostima. Grazie PowerGym!" |}.
Definition elena := {| id := "6"; name := "Elena B."; age := 29; timeline := "7 mesi";
  startWeight := 68; endWeight := 61; bodyFatLoss := 14; goal := "Definizione";
  testimonial := "Risultati che superano le aspettative. L'approccio scientifico e personalizzato fa la differenza." |}.

Definition transformations : list Transformation :=
  [alessandro; giulia; marco; sofia; roberto; elena].

(** ** Rendering helpers *)

(** [String.prototype.toLowerCase] on the ASCII letters (the goals are
    ASCII; other bytes are left as they are). *)
Definition ascii_to_lower (c : ascii) : ascii :=
  let n := nat_of_ascii c in
  if (65 <=? n)%nat && (n <=? 90)%nat then ascii_of_nat (n + 32) else c.

Fixpoint toLowerCase (s : string) : string :=
  match s with
  | EmptyString => EmptyString
  | String c s' => String (ascii_to_lower c) (toLowerCase s')
  end.

Definition getGoalColor (goal : string) : string :=
  let g := toLowerCase goal in
  if decide (g = "definizione") then "bg-primary text-primary-foreground"
  else if decide (g = "tonificazione") then "bg-accent text-accent-foreground"
  else if decide (g = "perdita peso") then "bg-destructive text-destructive-foreground"
  else if decide (g = "massa muscolare") then "bg-secondary text-secondary-foreground"
  else "bg-muted text-muted-foreground".

(** The weight figure of a card and of the overlay, and its label. *)
Definition weight_change (t : Transformation) : float :=
  PrimFloat.abs (endWeight t - startWeight t)%float.

Definition weight_label (t : Transformation) : string :=
  if (startWeight t <? endWeight t)%float then "Guadagnati" else "Persi".

(** The overlay's content for the selected story: the title and goal
    badge, the weights before and after, then the timeline, the weight
    change with its arrow and label, the body-fat loss and the age, and the
    testimonial signed with the name.  Numbers print with
    [Number::toString] (integral values here). *)
Inductive Trend := TrendingUp | TrendingDown.

Record StoryView := {
  sv_title : string;
  sv_badge : string * string;
  sv_before : option string;
  sv_after : option string;
  sv_timeline : string;
  sv_trend : Trend;
  sv_change : option string;
  sv_change_label : string;
  sv_body_fat : option string;
  sv_age : option string;
  sv_quote : string;
  sv_signature : string;
}.

Definition with_suffix (x : float) (suffix : string) : option string :=
  (fun d => d ++ suffix)%string <$> number_to_string x.

Definition story_view (t : Transformation) : StoryView := {|
  sv_title := "Trasformazione di " ++ name t;
  sv_badge := (getGoalColor (goal t), goal t);
  sv_before := with_suffix (startWeight t) "kg";
  sv_after := with_suffix (endWeight t) "kg";
  sv_timeline := timeline t;
  sv_trend := if (startWeight t <? endWeight t)%float then TrendingUp else TrendingDown;
  sv_change := with_suffix (weight_change t) "kg";
  sv_change_label := weight_label t;
  sv_body_fat := (fun d => "-" ++ d ++ "%")%string <$> number_to_string (bodyFatLoss t);
  sv_age := number_to_string (age t);
  sv_quote := dquote ++ testimonial t ++ dquote;
  sv_signature := "- " ++ name t |}%string.

(** ** State and handlers *)

Record TransformationsState := {
  selectedTransformation : option Transformation;
  scrolls : list string;
}.

Definition transformations0 : TransformationsState :=
  {| selectedTransformation := None; scrolls := [] |}.

Definition setSelectedTransformation (t : option Transformation) (st : TransformationsState)
    : TransformationsState :=
  {| selectedTransformation := t; scrolls := scrolls st |}.

(** [document.getElementById(anchor)?.scrollIntoView(...)]. *)
Definition scrollTo (anchor : string) (st : TransformationsState) : TransformationsState :=
  {| selectedTransformation := selectedTransformation st; scrolls := scrolls st ++ [anchor] |}.

Inductive Target :=
| Card (i : nat)
| CardReadMore (i : nat)
| CtaTrial
| CtaMemberships
| Backdrop
| Panel
| StartButton
| CloseButton.

Definition close : TransformationsState -> TransformationsState :=
  setSelectedTransformation None.

(** The handlers from each element of the overlay up to the backdrop. *)
Definition backdrop_path : list (Handler TransformationsState) := [plain close].
Definition panel_path : list (Handler TransformationsState) := [stopping (fun st => st); plain close].
Definition start_path : list (Handler TransformationsState) :=
  [plain (fun st => scrollTo "home" (close st)); stopping (fun st => st); plain close].
Definition close_path : list (Handler TransformationsState) :=
  [plain close; stopping (fun st => st); plain close].

Definition card_path (t : Transformation) : list (Handler TransformationsState) :=
  [plain (setSelectedTransformation (Some t))].
Definition read_more_path (t : Transformation) : list (Handler TransformationsState) :=
  [inert; plain (setSelectedTransformation (Some t))].

Definition on_card (i : nat) (path : Transformation -> list (Handler TransformationsState))
    (st : TransformationsState) : TransformationsState :=
  match transformations !! i with Some t => dispatch (path t) st | None => st end.

Definition handle (tg : Target) (st : TransformationsState) : TransformationsState :=
  match selectedTransformation st with
  | Some _ =>
      match tg with
      | Panel => dispatch panel_path st
      | StartButton => dispatch start_path st
      | CloseButton => dispatch close_path st
      | _ => dispatch backdrop_path st
      end
  | None =>
      match tg with
      | Card i => on_card i card_path st
      | CardReadMore i => on_card i read_more_path st
      | CtaTrial => dispatch [plain (scrollTo "home")] st
      | CtaMemberships => dispatch [plain (scrollTo "abbonamenti")] st
      | _ => st
      end
  end.

(** ** The section as a selection/detail view *)

Definition transformations_label (tg : Target) (st : TransformationsState)
    : SelLabel Transformation :=
  match selectedTransformation st with
  | Some _ => match tg with Panel => DKeep | _ => DClose end
  | None =>
      match tg with
      | Card i | CardReadMore i =>
          match transformations !! i with Some t => DSelect t | None => DKeep end
      | _ => DKeep
      end
  end.

Lemma transformations_simulation tg st :
  selectedTransformation (handle tg st) =
  sel_step (transformations_label tg st) (selectedTransformation st).
Proof.
  unfold handle, transformations_label, on_card.
  destruct (selectedTransformation st) as [t|] eqn:Hs.
  - destruct tg; first [reflexivity|exact Hs].
  - destruct tg; try destruct (transformations !! _); first [reflexivity|exact Hs].
Qed.

Lemma transformations_modal tg st t :
  selectedTransformation st <> None -> transformations_label tg st <> DSelect t.
Proof. unfold transformations_label. destruct (selectedTransformation st); [|done]. by destruct tg. Qed.

#[export] Instance transformations_view :
  DetailView TransformationsState Target Transformation := {|
  dv_selected := selectedTransformation;
  dv_handle := handle;
  dv_label := transformations_label;
  dv_simulation := transformations_simulation;
  dv_modal := transformations_modal;
|}.

(** ** Properties *)

Lemma ascii_to_lower_idem c : ascii_to_lower (ascii_to_lower c) = ascii_to_lower c.
Proof. destruct c as [[] [] [] [] [] [] [] []]; reflexivity. Qed.

Lemma toLowerCase_idem s : toLowerCase (toLowerCase s) = toLowerCase s.
Proof. induction s as [|c s IH]; simpl; [done|]. by rewrite ascii_to_lower_idem, IH. Qed.

(** C29: The clicks on the open overlay: a click on the panel is stopped
    there and changes nothing; "Inizia la Tua Trasformazione" closes the
    overlay and scrolls to [#home] once; "Chiudi" and a click on the
    backdrop (or aimed at the page under it) close it without scrolling. *)
Theorem transformation_overlay_clicks (st : TransformationsState) (t : Transformation) :
  selectedTransformation st = Some t ->
  handle Panel st = st /\
  handle StartButton st = {| selectedTransformation := None; scrolls := scrolls st ++ ["home"] |} /\
  handle CloseButton st = {| selectedTransformation := None; scrolls := scrolls st |} /\
  forall i, handle (Card i) st = {| selectedTransformation := None; scrolls := scrolls st |}.
Proof. intros Hs. unfold handle. rewrite Hs. by repeat split. Qed.

Lemma transformation_overlay_clicks_witness :
  let st := handle (Card 1) transformations0 in
  selectedTransformation st = Some giulia /\
  scrolls (handle StartButton st) = ["home"].
Proof.
  intros st. split; [reflexivity|].
  destruct (transformation_overlay_clicks st giulia eq_refl) as (_ & -> & _). reflexivity.
Defined.

(** [getGoalColor] ignores case: a goal and its lower-case form get the
    same colour. *)
Lemma getGoalColor_case_insensitive (g : string) :
  getGoalColor (toLowerCase g) = getGoalColor g.
Proof. unfold getGoalColor. by rewrite toLowerCase_idem. Qed.

(** What the cards show: four of the six goals get their colour, but
    "Trasformazione completa" (Roberto F.) is not one of the four goals
    [getGoalColor] knows and falls to the default grey; the weight figure
    and its label match the catalog: 7, 5, 13, 7 and 17 kg lost, 4 kg
    gained. *)
Example transformation_cards :
  map (fun t => getGoalColor (goal t)) transformations =
    ["bg-primary text-primary-foreground"; "bg-accent text-accent-foreground";
     "bg-destructive text-destructive-foreground"; "bg-secondary text-secondary-foreground";
     "bg-muted text-muted-foreground"; "bg-primary text-primary-foreground"] /\
  map (fun t => (weight_change t, weight_label t)) transformations =
    [(7, "Persi"); (5, "Persi"); (13, "Persi"); (4, "Guadagnati"); (17, "Persi");
     (7, "Persi")]%float.
Proof. split; vm_compute; reflexivity. Qed.

End Transformations.
