(* ===== verification/Header.v ===== *)
(** * The header (src/components/Header.tsx)

    The header shows the logo, and, depending on the layout its
    [useHeaderLayout] instance reports (HeaderLayout.v), either the full
    navigation with the "Area Soci"/"Soci" and "Prova Gratis"/"Prova"
    buttons ([showFullNav]) or a menu button that toggles a collapsible
    navigation with the same entries ([showMobileMenu]).  Its state is
    [isMenuOpen] and [isLoginOpen].

    A handler returns the new state and its effects on the rest of the
    page: a [scrollIntoView] of a section, or the call of the
    [onOpenFreeTrial] callback the page passes in (Page.v applies them).
    [scrollToSection(href)] looks the anchor up with
    [document.querySelector(href)] and closes the menu only when the
    element exists; the ids present in the document are a parameter.  The
    collapsed mobile navigation ([max-h-0], [overflow-hidden]) cannot be
    clicked, so its buttons act only while the menu is open.  [LoginModal]
    is not part of src/: only its [onClose] callback is modelled. *)

From S2P Require Import Prelude HeaderLayout.
From Stdlib Require Import Ascii.

Module Header.
Import HeaderLayoutHook.

(** ** Data *)

Record NavItem := { nav_name : string; href : string }.

Definition navigation : list NavItem :=
  [{| nav_name := "Home"; href := "#home" |};
   {| nav_name := "Corsi"; href := "#corsi" |};
   {| nav_name := "Trainer"; href := "#trainer" |};
   {| nav_name := "Abbonamenti"; href := "#abbonamenti" |};
   {| nav_name := "Trasformazioni"; href := "#trasformazioni" |}].

Record HeaderState := {
  isMenuOpen : bool;
  isLoginOpen : bool;
}.

Definition header0 : HeaderState := {| isMenuOpen := false; isLoginOpen := false |}.

(** What a handler asks of the rest of the page. *)
Inductive Effect :=
| ScrollTo (anchor : string)
| OpenFreeTrial.

Definition setIsMenuOpen (b : bool) (st : HeaderState) : HeaderState :=
  {| isMenuOpen := b; isLoginOpen := isLoginOpen st |}.

Definition setIsLoginOpen (b : bool) (st : HeaderState) : HeaderState :=
  {| isMenuOpen := isMenuOpen st; isLoginOpen := b |}.

(** [document.querySelector(href)] for an id selector [#a], over the ids
    of the elements in the document. *)
Definition querySelector (ids : list string) (sel : string) : option string :=
  match sel with
  | String "#"%char a => if decide (a ∈ ids) then Some a else None
  | _ => None
  end.

Definition scrollToSection (ids : list string) (h : string) (st : HeaderState)
    : HeaderState * list Effect :=
  match querySelector ids h with
  | Some a => (setIsMenuOpen false st, [ScrollTo a])
  | None => (st, [])
  end.

(** The labels of the two action buttons of the full navigation. *)
Definition action_labels (layout : HeaderLayout) : string * string :=
  if decide (layout = desktop) then ("Area Soci", "Prova Gratis") else ("Soci", "Prova").

(** ** Handlers *)

Inductive Target :=
| Logo
| NavDesktop (i : nat)
| LoginDesktop
| TrialDesktop
| MenuToggle
| NavMobile (i : nat)
| LoginMobile
| TrialMobile
| LoginModalClose.

Definition nav_click (ids : list string) (i : nat) (st : HeaderState)
    : HeaderState * list Effect :=
  match navigation !! i with
  | Some it => scrollToSection ids (href it) st
  | None => (st, [])
  end.

Definition handle (layout : HeaderLayout) (ids : list string) (t : Target) (st : HeaderState)
    : HeaderState * list Effect :=
  let v := useHeaderLayout_view layout in
  let full := showFullNav v in
  let mobile_open := showMobileMenu v && isMenuOpen st in
  match t with
  | Logo => scrollToSection ids "#home" st
  | NavDesktop i => if full then nav_click ids i st else (st, [])
  | LoginDesktop => if full then (setIsLoginOpen true st, []) else (st, [])
  | TrialDesktop => if full then (st, [OpenFreeTrial]) else (st, [])
  | MenuToggle =>
      if showMobileMenu v then (setIsMenuOpen (negb (isMenuOpen st)) st, []) else (st, [])
  | NavMobile i => if mobile_open then nav_click ids i st else (st, [])
  | LoginMobile =>
      if mobile_open then (setIsMenuOpen false (setIsLoginOpen true st), []) else (st, [])
  | TrialMobile =>
      if mobile_open then (setIsMenuOpen false st, [OpenFreeTrial]) else (st, [])
  | LoginModalClose => (setIsLoginOpen false st, [])
  end.

End Header.
