(* ===== verification/Footer.v ===== *)
(** * The footer (src/components/Footer.tsx)

    The footer is static apart from its "Prova Gratis 7 Giorni" button
    (a page event of Page.v).  What it computes is the rendering of its two
    lists: each service is [split(' - ')] and its pieces [0] and [1] are
    shown side by side (an index past the end is [undefined], which React
    renders as nothing); each row of [hours] shows a day and a time. *)

From S2P Require Import Prelude JsString.

Module Footer.
Import JsString.

Definition services : list string :=
  ["🏋️ Sala pesi 500mq - 200+ attrezzi Technogym";
   "🏊 Piscina 25m - Corsi acqua";
   "💆 Area wellness - Sauna e bagno turco";
   "🥤 Bar proteico - Shakes e snack healthy";
   "🚿 Spogliatoi moderni - Docce e armadietti";
   "🅿️ Parcheggio gratuito - 50 posti";
   "📱 App mobile - Prenota e traccia workout";
   "👶 Baby parking - Per genitori"].

Record HoursRow := { day : string; time : string }.

Definition hours : list HoursRow :=
  [{| day := "Lun-Ven"; time := "6:00 - 23:00" |};
   {| day := "Sabato"; time := "8:00 - 20:00" |};
   {| day := "Domenica"; time := "9:00 - 14:00" |};
   {| day := "Festivi"; time := "Chiuso" |}].

(** The line under the hours. *)
Definition opening_note : string := "Aperta 365 giorni l'anno".

(** The two spans of a service: [service.split(' - ')[0]] and [[1]]. *)
Definition service_row (service : string) : string * string :=
  let parts := js_split service " - " in
  (default "" (parts !! 0), default "" (parts !! 1)).

Definition services_view : list (string * string) := map service_row services.

Definition hours_view : list (string * string) := map (fun h => (day h, time h)) hours.

(** ** The footer's controls *)

(** The social buttons have no handler; "Prova Gratis 7 Giorni" scrolls to
    [#home]; the three legal links are [<a href="#">], which the browser
    follows: it scrolls to the top of the document and pushes the URL with
    the empty fragment onto the session history. *)
Inductive Social := Instagram | Facebook | Youtube.
Inductive LegalLink := PrivacyPolicy | TerminiDiServizio | CookiePolicy.

Inductive FooterEvent :=
| ClickSocial (s : Social)
| ClickProvaGratis
| ClickLegal (l : LegalLink).

Inductive FooterEffect :=
| NoEffect
| ScrollIntoView (id : string)
| FollowHref (href : string).

Definition footer_click (e : FooterEvent) : FooterEffect :=
  match e with
  | ClickSocial _ => NoEffect
  | ClickProvaGratis => ScrollIntoView "home"
  | ClickLegal _ => FollowHref "#"
  end.

Definition legal_label (l : LegalLink) : string :=
  match l with
  | PrivacyPolicy => "Privacy Policy"
  | TerminiDiServizio => "Termini di Servizio"
  | CookiePolicy => "Cookie Policy"
  end.

(** The footer as rendered: the brand column, contacts and hours, the
    services, the social buttons and the call to action, and the bottom
    bar. *)
Record FooterView := {
  fv_brand : list string;
  fv_contacts : list string;
  fv_hours : list (string * string);
  fv_note : string;
  fv_services : list (string * string);
  fv_social : list Social;
  fv_cta : string * FooterEvent;
  fv_app : list string;
  fv_copyright : string;
  fv_legal : list (string * FooterEvent);
}.

Definition footer_view : FooterView := {|
  fv_brand := ["PowerGym"; "Pescara";
               "La palestra più completa di Pescara. Trasforma il tuo corpo, trasforma la tua vita.";
               "4.9/5 (450+ recensioni)"];
  fv_contacts := ["Contatti & Orari"; "Via Roma 123"; "65121 Pescara (PE)";
                  "+39 085 123 4567"; "info@powergympescara.it"; "Orari Apertura"];
  fv_hours := hours_view;
  fv_note := opening_note;
  fv_services := services_view;
  fv_social := [Instagram; Facebook; Youtube];
  fv_cta := ("Prova Gratis 7 Giorni", ClickProvaGratis);
  fv_app := ["📱 Scarica la nostra app"; "🎯 Prenota corsi online"; "📊 Traccia i tuoi progressi"];
  fv_copyright := "© 2024 PowerGym Pescara. Tutti i diritti riservati.";
  fv_legal := map (fun l => (legal_label l, ClickLegal l)) [PrivacyPolicy; TerminiDiServizio; CookiePolicy] |}.

(** ** Properties *)

(** A service without [" - "] is shown whole in the first span and
    nothing in the second ([split] returns the string itself, and index 1
    is [undefined]). *)
Theorem service_row_no_separator (s : string) :
  index_of " - " s = None -> service_row s = (s, "").
Proof.
  intros Hn. unfold service_row. by rewrite js_split_no_sep.
Qed.

Lemma service_row_no_separator_witness :
  index_of " - " "Sauna" = None /\ service_row "Sauna" = ("Sauna", "").
Proof.
  assert (H : index_of " - " "Sauna" = None) by reflexivity.
  split; [exact H|]. exact (service_row_no_separator _ H).
Defined.

(** Every service of the footer contains the separator once: it is
    shown as its name and its description, which joined by [" - "] give
    back the service. *)
Theorem footer_services_split :
  Forall (fun sv => exists a b, js_split sv " - " = [a; b] /\ service_row sv = (a, b) /\
                                (a ++ " - " ++ b)%string = sv) services.
Proof.
  unfold services.
  repeat (apply List.Forall_cons; [do 2 eexists; split; [vm_compute; reflexivity|];
                                    split; vm_compute; reflexivity|]).
  apply List.Forall_nil.
Qed.

End Footer.
