(* ===== verification/Hero.v ===== *)
(** * The hero (src/components/Hero.tsx)

    The hero is the [#home] section: a headline, two buttons (the
    [onOpenFreeTrial] callback and a scroll to [#abbonamenti], page events
    of Page.v) and a bar of four figures, [stats], rendered in order with
    their icon, value and label.  Catalogs.v compares the figures with the
    catalogs of the other sections. *)

From S2P Require Import Prelude.

Module Hero.

Inductive StatIcon := Users | Calendar | Clock.

Record Stat := { icon : StatIcon; value : string; label : string }.

Definition stats : list Stat :=
  [{| icon := Users; value := "500+"; label := "Soci" |};
   {| icon := Users; value := "12"; label := "Trainer" |};
   {| icon := Calendar; value := "30+"; label := "Corsi" |};
   {| icon := Clock; value := "365"; label := "Giorni l'anno" |}].

(** The bar: one tile per figure, its value above its label. *)
Definition stats_view : list (StatIcon * string * string) :=
  map (fun s => (icon s, value s, label s)) stats.

(** The two buttons: "Prova Gratis 7 Giorni" calls the page's
    [onOpenFreeTrial]; "Scopri Abbonamenti" scrolls to [#abbonamenti]. *)
Inductive HeroButton := ProvaGratis | ScopriAbbonamenti.

Inductive HeroAction := CallOpenFreeTrial | ScrollIntoView (id : string).

Definition hero_click (b : HeroButton) : HeroAction :=
  match b with
  | ProvaGratis => CallOpenFreeTrial
  | ScopriAbbonamenti => ScrollIntoView "abbonamenti"
  end.

(** The section [#home]: the headline (the JSX text with its [{" "}]
    separators), the subheadline (its two source lines joined by one
    space), the two buttons and the stats bar. *)
Record HeroView := {
  hv_id : string;
  hv_headline : string;
  hv_subheadline : string;
  hv_buttons : list (string * HeroButton);
  hv_stats : list (StatIcon * string * string);
}.

Definition hero_view : HeroView := {|
  hv_id := "home";
  hv_headline := "Trasforma Il Tuo Corpo, Trasforma La Tua Vita";
  hv_subheadline := "La palestra più completa di Pescara. Over 200 attrezzi, 30+ corsi, trainer certificati. Il tuo percorso di trasformazione inizia qui.";
  hv_buttons := [("Prova Gratis 7 Giorni", ProvaGratis); ("Scopri Abbonamenti", ScopriAbbonamenti)];
  hv_stats := stats_view |}.

(** The figure shown for a label, if the bar has one. *)
Definition stat_value (l : string) : option string :=
  value <$> List.find (fun s => bool_decide (label s = l)) stats.

End Hero.
