(* ===== verification/Page.v ===== *)
(** * The page (src/pages/Index.tsx) and its composition

    [Index] renders the header, the hero, the seven sections and the footer,
    and owns one piece of state, [isTrialModalOpen], which the header's and
    the hero's "Prova Gratis" buttons set through the [onOpenFreeTrial]
    callback and the free-trial modal clears through [onClose].  Every
    other piece of state belongs to one section.

    The page state [Page] is the product of the sections' states: the
    window with the header's [useHeaderLayout] instance (hook [0] of
    HeaderLayout.v, mounted with the page), the header, the free-trial modal
    together with [isTrialModalOpen] (FreeTrial.v), the class schedule, the
    checkout, the trainers, the transformation stories, the calculators,
    the [scrollIntoView] calls made by the header, the hero, the
    calculators and the footer, and the session history the footer's
    [href="#"] links navigate ([followHref], with HTML's rule that
    navigating to the current URL replaces its entry).  [page_step]
    dispatches each event to its section, and applies the header's effects
    and the hero's and footer's clicks (Hero.v, Footer.v).  The document's
    ids are the five section anchors ([section_ids], declared by Hero.tsx,
    ClassSchedule.tsx, Memberships.tsx, Trainers.tsx and
    Transformations.tsx); [getElementById(a)?.scrollIntoView] does nothing
    when [a] is absent.

    Not modelled: the modal dialogs' blocking of clicks on other sections
    (each section's model already has its own dismissal events) and the
    logo and background images. *)

From S2P Require Import Prelude HeaderLayout JsNumber Calculators Wizard FreeTrial Checkout.
From S2P Require Import Selection ClassSchedule Trainers Transformations Header.
From S2P Require Import Hero Footer.

Module Page.

(** ** State *)

Record Page := {
  window : HeaderLayoutHook.World;
  header : Header.HeaderState;
  trial : FreeTrial.TrialState;
  schedule : ClassSchedule.ScheduleState;
  checkout : Checkout.CheckoutState;
  trainers : Trainers.TrainersState;
  stories : Transformations.TransformationsState;
  tools : Tools.ToolsState;
  scrolled : list string;
  history : list string;
}.

(** The ids of the sections [Index] renders: the hero, the schedule, the
    memberships, the trainers and the stories (the calculators have none). *)
Definition section_ids : list string :=
  ["home"; "corsi"; "abbonamenti"; "trainer"; "trasformazioni"].

(** The header's hook instance. *)
Definition header_hook : nat := 0.

Definition page0 (width : Z) : Page := {|
  window := HeaderLayoutHook.step (HeaderLayoutHook.Mount header_hook)
              (HeaderLayoutHook.world0 width);
  header := Header.header0;
  trial := FreeTrial.trial0;
  schedule := ClassSchedule.schedule0;
  checkout := Checkout.checkout0;
  trainers := Trainers.trainers0;
  stories := Transformations.transformations0;
  tools := Tools.tools0;
  scrolled := [];
  history := [];
|}.

(** The layout [useHeaderLayout] returns to the header. *)
Definition header_layout (p : Page) : HeaderLayoutHook.HeaderLayout :=
  default HeaderLayoutHook.desktop (HeaderLayoutHook.hooks (window p) !! header_hook).

(** ** Events *)

Inductive PageEvent :=
| Resize (width : Z)
| HeaderClick (t : Header.Target)
| HeroClick (b : Hero.HeroButton)
| TrialEv (e : FreeTrial.TrialEvent)
| ScheduleEv (t : ClassSchedule.Target)
| CheckoutEv (e : Checkout.CheckoutEvent)
| TrainersEv (t : Trainers.Target)
| StoriesEv (t : Transformations.Target)
| ToolsEv (e : Tools.ToolsEvent)
| ToolsSeeMemberships
| ToolsStartPath
| FooterClick (e : Footer.FooterEvent).

Definition set_window p w := {| window := w; header := header p; trial := trial p;
  schedule := schedule p; checkout := checkout p; trainers := trainers p;
  stories := stories p; tools := tools p; scrolled := scrolled p; history := history p |}.
Definition set_header p h := {| window := window p; header := h; trial := trial p;
  schedule := schedule p; checkout := checkout p; trainers := trainers p;
  stories := stories p; tools := tools p; scrolled := scrolled p; history := history p |}.
Definition set_trial p t := {| window := window p; header := header p; trial := t;
  schedule := schedule p; checkout := checkout p; trainers := trainers p;
  stories := stories p; tools := tools p; scrolled := scrolled p; history := history p |}.
Definition set_schedule p s := {| window := window p; header := header p; trial := trial p;
  schedule := s; checkout := checkout p; trainers := trainers p;
  stories := stories p; tools := tools p; scrolled := scrolled p; history := history p |}.
Definition set_checkout p c := {| window := window p; header := header p; trial := trial p;
  schedule := schedule p; checkout := c; trainers := trainers p;
  stories := stories p; tools := tools p; scrolled := scrolled p; history := history p |}.
Definition set_trainers p t := {| window := window p; header := header p; trial := trial p;
  schedule := schedule p; checkout := checkout p; trainers := t;
  stories := stories p; tools := tools p; scrolled := scrolled p; history := history p |}.
Definition set_stories p s := {| window := window p; header := header p; trial := trial p;
  schedule := schedule p; checkout := checkout p; trainers := trainers p;
  stories := s; tools := tools p; scrolled := scrolled p; history := history p |}.
Definition set_tools p t := {| window := window p; header := header p; trial := trial p;
  schedule := schedule p; checkout := checkout p; trainers := trainers p;
  stories := stories p; tools := t; scrolled := scrolled p; history := history p |}.

(** [document.getElementById(a)?.scrollIntoView(...)]. *)
Definition scrollById (a : string) (p : Page) : Page :=
  if decide (a ∈ section_ids) then
    {| window := window p; header := header p; trial := trial p;
       schedule := schedule p; checkout := checkout p; trainers := trainers p;
       stories := stories p; tools := tools p; scrolled := scrolled p ++ [a];
       history := history p |}
  else p.

(** Following a link [<a href="#f">]: the browser scrolls to the fragment
    (the top of the document for the empty one) and navigates to the URL
    with that fragment: a new entry is pushed onto the session history,
    unless the URL is the current one, whose entry is replaced (HTML,
    "navigate": history handling "replace" for an unchanged URL).  The
    current URL's fragment is the last entry pushed, none at first. *)
Definition followHref (h : string) (p : Page) : Page :=
  if decide (last (history p) = Some h) then p
  else {| window := window p; header := header p; trial := trial p;
          schedule := schedule p; checkout := checkout p; trainers := trainers p;
          stories := stories p; tools := tools p; scrolled := scrolled p;
          history := history p ++ [h] |}.

(** [onOpenFreeTrial = () => setIsTrialModalOpen(true)]. *)
Definition onOpenFreeTrial (p : Page) : Page :=
  set_trial p (FreeTrial.handle FreeTrial.OpenFreeTrial (trial p)).

Definition apply_effect (p : Page) (ef : Header.Effect) : Page :=
  match ef with
  | Header.ScrollTo a => scrollById a p
  | Header.OpenFreeTrial => onOpenFreeTrial p
  end.

Definition page_step (e : PageEvent) (p : Page) : Page :=
  match e with
  | Resize w => set_window p (HeaderLayoutHook.step (HeaderLayoutHook.Resize w) (window p))
  | HeaderClick t =>
      let '(h, efs) := Header.handle (header_layout p) section_ids t (header p) in
      fold_left apply_effect efs (set_header p h)
  | HeroClick b =>
      match Hero.hero_click b with
      | Hero.CallOpenFreeTrial => onOpenFreeTrial p
      | Hero.ScrollIntoView a => scrollById a p
      end
  | TrialEv e => set_trial p (FreeTrial.handle e (trial p))
  | ScheduleEv t => set_schedule p (ClassSchedule.handle t (schedule p))
  | CheckoutEv e => set_checkout p (Checkout.handle e (checkout p))
  | TrainersEv t => set_trainers p (Trainers.handle t (trainers p))
  | StoriesEv t => set_stories p (Transformations.handle t (stories p))
  | ToolsEv e => set_tools p (Tools.step e (tools p))
  | ToolsSeeMemberships =>
      if is_Some_dec (Tools.bmiResult (tools p)) then scrollById "abbonamenti" p else p
  | ToolsStartPath =>
      if is_Some_dec (Tools.goalPlan (tools p)) then scrollById "home" p else p
  | FooterClick e =>
      match Footer.footer_click e with
      | Footer.NoEffect => p
      | Footer.ScrollIntoView a => scrollById a p
      | Footer.FollowHref h => followHref h p
      end
  end.

(** ** The sections of the page state *)

Inductive Sec := SWindow | SHeader | STrial | SSchedule | SCheckout | STrainers
               | SStories | STools | SScrolled | SHistory.

#[export] Instance sec_eq_dec : EqDecision Sec.
Proof. solve_decision. Defined.

(** [p] and [q] hold the same state for section [s]. *)
Definition sec_eq (s : Sec) (p q : Page) : Prop :=
  match s with
  | SWindow => window p = window q
  | SHeader => header p = header q
  | STrial => trial p = trial q
  | SSchedule => schedule p = schedule q
  | SCheckout => checkout p = checkout q
  | STrainers => trainers p = trainers q
  | SStories => stories p = stories q
  | STools => tools p = tools q
  | SScrolled => scrolled p = scrolled q
  | SHistory => history p = history q
  end.

Lemma sec_eq_trans s p q r : sec_eq s p q -> sec_eq s q r -> sec_eq s p r.
Proof. destruct s; simpl; congruence. Qed.

Lemma scrollById_frame a p s : s <> SScrolled -> sec_eq s (scrollById a p) p.
Proof. intros Hs. unfold scrollById. case_decide; [by destruct s|by destruct s]. Qed.

Lemma onOpenFreeTrial_frame p s : s <> STrial -> sec_eq s (onOpenFreeTrial p) p.
Proof. intros Hs. by destruct s. Qed.

Lemma apply_effects_frame efs p s :
  s <> STrial -> s <> SScrolled -> sec_eq s (fold_left apply_effect efs p) p.
Proof.
  intros H1 H2. revert p; induction efs as [|ef efs IH]; intros p; simpl; [by destruct s|].
  eapply sec_eq_trans; [apply IH|]. destruct ef; simpl.
  - by apply scrollById_frame.
  - by apply onOpenFreeTrial_frame.
Qed.

(** ** Properties *)

Lemma scrollById_history a p : history (scrollById a p) = history p.
Proof. unfold scrollById. by case_decide. Qed.

(** Only the footer's legal links touch the session history. *)
Lemma page_step_history (e : PageEvent) (p : Page) :
  history (page_step e p) = history p \/
  exists l, e = FooterClick (Footer.ClickLegal l) /\ page_step e p = followHref "#" p.
Proof.
  destruct e; simpl; try (by left).
  - destruct (Header.handle _ _ _ _) as [h efs]. left.
    exact (apply_effects_frame efs (set_header p h) SHistory ltac:(done) ltac:(done)).
  - left. destruct b; simpl; first [done|apply scrollById_history].
  - left. destruct (is_Some_dec _); [apply scrollById_history|done].
  - left. destruct (is_Some_dec _); [apply scrollById_history|done].
  - destruct e as [s| |l]; simpl; [by left|left; first [done|apply scrollById_history]|].
    right. by exists l.
Qed.

Lemma followHref_hash_history p :
  history p = [] \/ history p = ["#"] -> history (followHref "#" p) = ["#"].
Proof. unfold followHref. intros [H|H]; case_decide as Hl; simpl; rewrite H in *; simpl in *; done. Qed.

(** C17: the spec's navigation scrolls without touching the URL ("no
    history entry is created"), and so do the header, the hero, the
    calculators and the footer's call to action; but the footer's three
    legal links are [href="#"] anchors.  In every reachable state the
    session history holds no entry of the page's own or the single
    ["#"] entry, and a click on a legal link leaves it at ["#"]: the first
    such click pushes an entry, the next ones replace it. *)
Theorem page_history_hash_entry (w : Z) (p : Page) :
  page0 w ⟶[page_step]* p ->
  (history p = [] \/ history p = ["#"]) /\
  (forall l, history (page_step (FooterClick (Footer.ClickLegal l)) p) = ["#"]).
Proof.
  intros Hr.
  assert (Hi : history p = [] \/ history p = ["#"]).
  { apply (reach_preserves page_step (fun p => history p = [] \/ history p = ["#"]) (page0 w));
      [|by left|exact Hr].
    intros e q Hq. destruct (page_step_history e q) as [-> | (l & -> & ->)]; [done|].
    right. by apply followHref_hash_history. }
  split; [exact Hi|]. intros l. simpl. by apply followHref_hash_history.
Qed.

Lemma page_history_hash_entry_witness :
  let p := run page_step [FooterClick (Footer.ClickLegal Footer.PrivacyPolicy);
                          HeroClick Hero.ScopriAbbonamenti;
                          FooterClick (Footer.ClickLegal Footer.CookiePolicy)] (page0 1200) in
  page0 1200 ⟶[page_step]* p /\ history p = ["#"] /\
  history (page_step (FooterClick (Footer.ClickLegal Footer.TerminiDiServizio)) p) = ["#"].
Proof.
  intros p. assert (Hr : page0 1200 ⟶[page_step]* p) by (apply reach_run_iff; eexists; reflexivity).
  split; [exact Hr|]. destruct (page_history_hash_entry 1200 p Hr) as [_ H].
  split; [vm_compute; reflexivity|]. apply H.
Defined.

(** Every entry of the header's navigation is [#a] for a section [a] of
    the page. *)
Lemma navigation_resolves i it :
  Header.navigation !! i = Some it ->
  exists a, Header.href it = ("#" ++ a)%string /\ a ∈ section_ids.
Proof.
  intros Hi. destruct i as [|[|[|[|[|i]]]]]; simpl in Hi; try discriminate;
    injection Hi as <-; eexists; (split; [reflexivity|]); apply list_elem_of_In; simpl; tauto.
Qed.

Lemma nav_click_scrolls h i it :
  Header.navigation !! i = Some it ->
  exists a, Header.href it = ("#" ++ a)%string /\ a ∈ section_ids /\
  Header.nav_click section_ids i h = (Header.setIsMenuOpen false h, [Header.ScrollTo a]).
Proof.
  intros Hi. destruct (navigation_resolves i it Hi) as (a & Ha & Hin).
  exists a. split; [done|]. split; [done|].
  unfold Header.nav_click, Header.scrollToSection, Header.querySelector.
  rewrite Hi, Ha. simpl. destruct (decide _) as [_|Hn]; [reflexivity|by exfalso; apply Hn].
Qed.

(** C25: A click on an entry of the header's navigation, in the full
    navigation or in the open mobile menu, scrolls the page to that
    section (every entry names a section the page renders) and leaves the
    mobile menu closed. *)
Theorem page_nav_click (p : Page) (i : nat) (it : Header.NavItem) :
  Header.navigation !! i = Some it ->
  exists a, Header.href it = ("#" ++ a)%string /\ a ∈ section_ids /\
  (HeaderLayoutHook.showFullNav (HeaderLayoutHook.useHeaderLayout_view (header_layout p)) = true ->
     scrolled (page_step (HeaderClick (Header.NavDesktop i)) p) = scrolled p ++ [a] /\
     Header.isMenuOpen (header (page_step (HeaderClick (Header.NavDesktop i)) p)) = false) /\
  (HeaderLayoutHook.showMobileMenu (HeaderLayoutHook.useHeaderLayout_view (header_layout p)) = true ->
   Header.isMenuOpen (header p) = true ->
     scrolled (page_step (HeaderClick (Header.NavMobile i)) p) = scrolled p ++ [a] /\
     Header.isMenuOpen (header (page_step (HeaderClick (Header.NavMobile i)) p)) = false).
Proof.
  intros Hi. destruct (nav_click_scrolls (header p) i it Hi) as (a & Ha & Hin & Hc).
  exists a. split; [done|]. split; [done|].
  split; [intros Hf|intros Hm Ho]; unfold page_step, Header.handle; cbv zeta;
    rewrite ?Hf, ?Hm, ?Ho; cbn [andb]; rewrite Hc; simpl; unfold scrollById;
    (destruct (decide (a ∈ section_ids)); [split; reflexivity|contradiction]).
Qed.

Lemma page_nav_click_witness :
  let p := page_step (HeaderClick Header.MenuToggle) (page0 500) in
  Header.navigation !! 2 = Some {| Header.nav_name := "Trainer"; Header.href := "#trainer" |} /\
  HeaderLayoutHook.showMobileMenu (HeaderLayoutHook.useHeaderLayout_view (header_layout p)) = true /\
  Header.isMenuOpen (header p) = true /\
  scrolled (page_step (HeaderClick (Header.NavMobile 2)) p) = ["trainer"].
Proof.
  intros p. split; [reflexivity|]. split; [reflexivity|]. split; [reflexivity|].
  destruct (page_nav_click p 2 _ eq_refl) as (a & Ha & _ & _ & Hm).
  cbv in Ha. injection Ha as Ha. subst a. destruct (Hm eq_refl eq_refl) as [-> _].
  reflexivity.
Defined.

(** ** Findings on fixed runs *)

(** The mobile menu's open flag is kept across layout changes: opened
    at 500 px, it stays set (hidden) when the window grows to the full
    navigation, and the menu shows open again when the window shrinks
    back. *)
Example page_menu_survives_resize :
  let p1 := run page_step [HeaderClick Header.MenuToggle; Resize 1200] (page0 500) in
  let p2 := page_step (Resize 500) p1 in
  Header.isMenuOpen (header p1) = true /\
  HeaderLayoutHook.showMobileMenu (HeaderLayoutHook.useHeaderLayout_view (header_layout p1)) = false /\
  Header.isMenuOpen (header p2) = true /\
  HeaderLayoutHook.showMobileMenu (HeaderLayoutHook.useHeaderLayout_view (header_layout p2)) = true.
Proof. vm_compute. repeat split. Qed.

(** Of the page's "Prova Gratis ... 7 Giorni" buttons, the header's and
    the hero's open the free-trial modal, while the footer's and the
    stories' call-to-action only scroll to the top of the page. *)
Example page_trial_buttons :
  FreeTrial.isTrialModalOpen (trial (page_step (HeroClick Hero.ProvaGratis) (page0 1200))) = true /\
  FreeTrial.isTrialModalOpen
    (trial (page_step (HeaderClick Header.TrialDesktop) (page0 1200))) = true /\
  FreeTrial.isTrialModalOpen (trial (page_step (FooterClick Footer.ClickProvaGratis) (page0 1200))) = false /\
  scrolled (page_step (FooterClick Footer.ClickProvaGratis) (page0 1200)) = ["home"] /\
  FreeTrial.isTrialModalOpen
    (trial (page_step (StoriesEv Transformations.CtaTrial) (page0 1200))) = false /\
  Transformations.scrolls (stories (page_step (StoriesEv Transformations.CtaTrial) (page0 1200)))
    = ["home"].
Proof. vm_compute. repeat split. Qed.

End Page.
