(* ===== verification/Catalogs.v ===== *)
(** * The catalogs against each other

    Each section owns its catalog (spec, "Static Catalogs"): the weekly
    [schedule] (ClassSchedule.v), the trainer roster [trainers]
    (Trainers.v), the membership tiers [memberships] (Checkout.v), the
    goal plans [plans] (Calculators.v), the hero's figures [stats] (Hero.v)
    and the footer's opening hours [hours] (Footer.v).  They refer to each
    other by name only: a class and a plan name their trainer, a plan its
    membership tier and its classes, and the hero summarises the number of
    trainers, classes and opening days.  This file checks those references
    and figures on the data as the code has it. *)

From S2P Require Import Prelude JsNumber JsString Hero Footer Checkout Calculators Trainers.
From S2P Require Import ClassSchedule.
From Stdlib Require Import Floats.

Module Catalogs.
Import JsString.

Definition scheduled_classes : list ClassSchedule.ClassInfo :=
  concat (map snd ClassSchedule.schedule).

Definition scheduled_class_names : list string :=
  map ClassSchedule.name scheduled_classes.

(** The plans, one per goal of the select (their content does not depend
    on the timeline but for [duration]). *)
Definition goal_plans : list Tools.GoalPlan :=
  map snd (Tools.plans "3 mesi").

(** ** Properties *)

(** The figures and recommendations of the sections disagree with the
    catalogs: the hero announces 12 trainers for a roster of 5, 30+
    classes for a schedule of 8 sessions of 7 distinct classes on two of
    the seven days, and 365 days a year while the footer's hours close the
    gym on holidays (and announce "Aperta 365 giorni l'anno"); the goal
    planner recommends HIIT, Functional Training, TRX, Bootcamp and
    Acquagym, which no day of the schedule offers. *)
Theorem catalog_figures_disagree :
  Hero.stat_value "Trainer" = Some "12" /\ length Trainers.trainers = 5 /\
  Hero.stat_value "Corsi" = Some "30+" /\ length scheduled_classes = 8 /\
  length (remove_dups scheduled_class_names) = 7 /\
  length (filter (fun d => d ∉ map fst ClassSchedule.schedule) ClassSchedule.days) = 5 /\
  Hero.stat_value "Giorni l'anno" = Some "365" /\
  Footer.opening_note = "Aperta 365 giorni l'anno" /\
  (Footer.day <$> List.find (fun h => bool_decide (Footer.time h = "Chiuso")) Footer.hours)
    = Some "Festivi" /\
  remove_dups (filter (fun c => c ∉ scheduled_class_names)
                      (concat (map Tools.classes goal_plans))) =
    ["Functional Training"; "TRX"; "HIIT"; "Bootcamp"; "Acquagym"].
Proof. vm_compute. repeat split. Qed.

End Catalogs.
